(** * The crawler pipeline of quokka-crawler, embedded and verified

    The development follows [src/components/helpers.py],
    [src/components/input_api.py] and [src/components/scraper.py], and the
    reading of the actor input in [src/src/main.py].

    - [Py]: the fragment of Python's dynamic values and built-in operations
      the three files use (JSON-shaped values, exceptions, arithmetic with
      binary64 floats, dict access, the pattern of the profile parser).
    - [Platform]: what the code consumes from outside: the HTTP clients, the
      JSON parser, the constants of [components/constants.py].
    - Section [Pipeline]: one definition per source function, in a state and
      exception monad over the remote side, the trace of requests and log
      lines, the shared [params_keyword] and the scraper object.
    - [Fixtures]: concrete remote sides for the examples.
    - The properties, first for every platform, then at concrete inputs.

    Coroutines are run to completion one after another: [asyncio.gather] runs
    the tasks of one search page in list order.  Loops that the source writes
    as [while] take a fuel argument; running out of fuel is the result
    [None].  Exceptions are the subclasses of [Exception], which is what the
    handlers of the source catch. *)

From Stdlib Require Import ZArith String Ascii List Lia DecimalString.
From Stdlib Require Import Floats.SpecFloat.
From stdpp Require Import gmap strings list fin_maps.

Set Warnings "-register-all".
Open Scope Z_scope.

(* ===================================================================== *)
(** * Python values and built-ins *)
(* ===================================================================== *)

Module Py.

(** Values as [json.loads] produces them, which is all the pipeline handles:
    [None], booleans, integers, floats, strings, lists and dicts keyed by
    strings.  Floats are binary64 values in the representation of
    [SpecFloat]. *)
Inductive pyval : Type :=
| VNone
| VBool (b : bool)
| VInt (z : Z)
| VFloat (f : spec_float)
| VStr (s : string)
| VList (l : list pyval)
| VDict (d : gmap string pyval).

(** The exceptions that can arise; every one is a subclass of [Exception]. *)
Inductive exn : Type :=
| KeyError
| TypeError
| AttributeError
| ValueError            (* json.JSONDecodeError is a ValueError *)
| ZeroDivisionError
| OverflowError
| HTTPError             (* httpx.HTTPError and its subclasses *)
| RequestException      (* requests.RequestException and its subclasses *)
| OtherException (name : string).

(** The result of evaluating an expression: a value or a raised exception. *)
Inductive outcome (A : Type) : Type :=
| Ret (a : A)
| Raise (e : exn).
Arguments Ret {A} a.
Arguments Raise {A} e.

Definition obind {A B} (x : outcome A) (k : A -> outcome B) : outcome B :=
  match x with
  | Ret a => k a
  | Raise e => Raise e
  end.

Notation "'let!' x ':=' e 'in' k" := (obind e (fun x => k))
  (at level 10, x name, e at level 100, k at level 200).

Fixpoint traverse {A B} (f : A -> outcome B) (l : list A) : outcome (list B) :=
  match l with
  | [] => Ret []
  | x :: l' =>
      let! y := f x in
      let! ys := traverse f l' in
      Ret (y :: ys)
  end.

(** ** binary64 arithmetic *)

Definition prec : Z := 53.
Definition emax : Z := 1024.

(** [float(z)]: the nearest double, ties to even; [OverflowError] when [z] is
    too large for a double. *)
Definition float_of_int (z : Z) : outcome spec_float :=
  match binary_normalize prec emax z 0 false with
  | S754_infinity _ => Raise OverflowError
  | f => Ret f
  end.

(** An integer as the exact (unrounded) operand of a division. *)
Definition exact_int (z : Z) : spec_float :=
  match z with
  | Z0 => S754_zero false
  | Zpos p => S754_finite false p 0
  | Zneg p => S754_finite true p 0
  end.

(** [a / b] on two ints: the correctly rounded quotient as a double. *)
Definition int_truediv (a b : Z) : outcome spec_float :=
  if b =? 0 then Raise ZeroDivisionError
  else match SFdiv prec emax (exact_int a) (exact_int b) with
       | S754_infinity _ => Raise OverflowError
       | f => Ret f
       end.

Definition float_is_zero (f : spec_float) : bool :=
  match f with
  | S754_zero _ => true
  | _ => false
  end.

(** [x / y] on two floats. *)
Definition float_truediv (x y : spec_float) : outcome spec_float :=
  if float_is_zero y then Raise ZeroDivisionError
  else Ret (SFdiv prec emax x y).

(** Exact comparison of a float with an integer ([None] for NaN). *)
Definition float_compare_int (f : spec_float) (k : Z) : option comparison :=
  match f with
  | S754_nan => None
  | S754_infinity s => Some (if s then Lt else Gt)
  | S754_zero _ => Some (0 ?= k)
  | S754_finite s m e =>
      let v := cond_Zopp s (Zpos m) in
      Some (if 0 <=? e then (v * 2 ^ e ?= k) else (v ?= k * 2 ^ (- e)))
  end.

(** Exact equality of two floats: NaN differs from everything, [0.0 == -0.0]. *)
Definition float_eqb (x y : spec_float) : bool :=
  match x, y with
  | S754_zero _, S754_zero _ => true
  | S754_infinity s, S754_infinity t => Bool.eqb s t
  | S754_finite s m e, S754_finite t n d =>
      let c := Z.min e d in
      Bool.eqb s t && (Zpos m * 2 ^ (e - c) =? Zpos n * 2 ^ (d - c))
  | _, _ => false
  end.

(** ** The numeric tower: [bool] is an [int], ints and floats mix *)

Inductive num : Type :=
| NInt (z : Z)
| NFloat (f : spec_float).

Definition as_num (v : pyval) : option num :=
  match v with
  | VBool b => Some (NInt (if b then 1 else 0))
  | VInt z => Some (NInt z)
  | VFloat f => Some (NFloat f)
  | _ => None
  end.

Definition num_to_float (n : num) : outcome spec_float :=
  match n with
  | NInt z => float_of_int z
  | NFloat f => Ret f
  end.

Definition num_eqb (x y : num) : bool :=
  match x, y with
  | NInt a, NInt b => a =? b
  | NFloat f, NFloat g => float_eqb f g
  | NInt a, NFloat f | NFloat f, NInt a =>
      match float_compare_int f a with
      | Some Eq => true
      | _ => false
      end
  end.

Definition num_compare_int (x : num) (k : Z) : option comparison :=
  match x with
  | NInt a => Some (a ?= k)
  | NFloat f => float_compare_int f k
  end.

Fixpoint string_repeat (n : nat) (s : string) : string :=
  match n with
  | O => EmptyString
  | S n' => String.append s (string_repeat n' s)
  end.

(** [a + b] *)
Definition py_add (a b : pyval) : outcome pyval :=
  match as_num a, as_num b with
  | Some (NInt x), Some (NInt y) => Ret (VInt (x + y))
  | Some x, Some y =>
      let! fx := num_to_float x in
      let! fy := num_to_float y in
      Ret (VFloat (SFadd prec emax fx fy))
  | _, _ =>
      match a, b with
      | VStr s, VStr t => Ret (VStr (String.append s t))
      | VList l, VList m => Ret (VList (l ++ m))
      | _, _ => Raise TypeError
      end
  end.

(** [a / b] *)
Definition py_truediv (a b : pyval) : outcome pyval :=
  match as_num a, as_num b with
  | Some (NInt x), Some (NInt y) =>
      let! q := int_truediv x y in Ret (VFloat q)
  | Some x, Some y =>
      let! fx := num_to_float x in
      let! fy := num_to_float y in
      let! q := float_truediv fx fy in
      Ret (VFloat q)
  | _, _ => Raise TypeError
  end.

(** [a * b]: numbers multiply, a string or list times an int repeats. *)
Definition py_mul (a b : pyval) : outcome pyval :=
  match as_num a, as_num b with
  | Some (NInt x), Some (NInt y) => Ret (VInt (x * y))
  | Some x, Some y =>
      let! fx := num_to_float x in
      let! fy := num_to_float y in
      Ret (VFloat (SFmul prec emax fx fy))
  | Some (NInt n), None | None, Some (NInt n) =>
      match a, b with
      | VStr s, _ | _, VStr s => Ret (VStr (string_repeat (Z.to_nat n) s))
      | VList l, _ | _, VList l => Ret (VList (concat (replicate (Z.to_nat n) l)))
      | _, _ => Raise TypeError
      end
  | _, _ => Raise TypeError
  end.

(** [a > k] and [a <= k] for an int literal [k]: only numbers compare with an
    int; a comparison with NaN is false. *)
Definition py_gt_int (a : pyval) (k : Z) : outcome bool :=
  match as_num a with
  | Some x => Ret (match num_compare_int x k with Some Gt => true | _ => false end)
  | None => Raise TypeError
  end.

Definition py_le_int (a : pyval) (k : Z) : outcome bool :=
  match as_num a with
  | Some x => Ret (match num_compare_int x k with Some (Lt | Eq) => true | _ => false end)
  | None => Raise TypeError
  end.

(** [a == b] *)
Fixpoint py_eq (a b : pyval) : bool :=
  match a, b with
  | VNone, VNone => true
  | VStr s, VStr t => String.eqb s t
  | VList l, VList m =>
      (fix go (l m : list pyval) : bool :=
         match l, m with
         | [], [] => true
         | x :: l', y :: m' => py_eq x y && go l' m'
         | _, _ => false
         end) l m
  | VDict d, VDict e =>
      (size d =? size e)%nat
      && map_fold (fun k v acc =>
                     acc && match e !! k with
                            | Some w => py_eq v w
                            | None => false
                            end) true d
  | (VBool _ | VInt _ | VFloat _), (VBool _ | VInt _ | VFloat _) =>
      match as_num a, as_num b with
      | Some x, Some y => num_eqb x y
      | _, _ => false
      end
  | _, _ => false
  end.

(** ** Subscripts, [dict.get], iteration, [str()] *)

(** [v[k]] for a string key [k]. *)
Definition py_getitem (v : pyval) (k : string) : outcome pyval :=
  match v with
  | VDict d => match d !! k with
               | Some x => Ret x
               | None => Raise KeyError
               end
  | _ => Raise TypeError
  end.

(** [v[k] = x] for a string key [k]; the result is the updated object. *)
Definition py_setitem (v : pyval) (k : string) (x : pyval) : outcome pyval :=
  match v with
  | VDict d => Ret (VDict (<[k := x]> d))
  | _ => Raise TypeError
  end.

(** [v.get(k, default)] *)
Definition py_get (v : pyval) (k : string) (default : pyval) : outcome pyval :=
  match v with
  | VDict d => Ret (match d !! k with
                    | Some x => x
                    | None => default
                    end)
  | _ => Raise AttributeError
  end.

(** [**v] in a dict display. *)
Definition py_as_mapping (v : pyval) : outcome (gmap string pyval) :=
  match v with
  | VDict d => Ret d
  | _ => Raise TypeError
  end.

Fixpoint string_chars (s : string) : list pyval :=
  match s with
  | EmptyString => []
  | String c s' => VStr (String c EmptyString) :: string_chars s'
  end.

(** [for x in v]: the elements of a list, the characters of a string, the keys
    of a dict (in the order of the map's enumeration). *)
Definition py_iter (v : pyval) : outcome (list pyval) :=
  match v with
  | VList l => Ret l
  | VStr s => Ret (string_chars s)
  | VDict d => Ret (VStr <$> (map_to_list d).*1)
  | _ => Raise TypeError
  end.

Definition decimal (z : Z) : string := NilZero.string_of_int (Z.to_int z).

(** [str(v)], as f-strings apply it.  [repr_other] stands for the text of
    floats and containers, which is not modelled. *)
Definition py_str (repr_other : pyval -> string) (v : pyval) : string :=
  match v with
  | VNone => "None"
  | VBool true => "True"
  | VBool false => "False"
  | VInt z => decimal z
  | VStr s => s
  | _ => repr_other v
  end.

(** ** The pattern of [get_author_metadata] *)

Definition dquote : ascii := ascii_of_nat 34.

(** The text of the look-behind: ["stats":] with its quotes. *)
Definition stats_anchor : string :=
  String dquote (String.append "stats" (String dquote ":")).

Fixpoint strip_prefix (p s : string) : option string :=
  match p, s with
  | EmptyString, _ => Some s
  | String a p', String b s' => if Ascii.eqb a b then strip_prefix p' s' else None
  | String _ _, EmptyString => None
  end.

(** The text after the leftmost occurrence of [needle]. *)
Fixpoint text_after (needle s : string) : option string :=
  match strip_prefix needle s with
  | Some rest => Some rest
  | None => match s with
            | EmptyString => None
            | String _ s' => text_after needle s'
            end
  end.

(** The longest prefix without a closing brace. *)
Fixpoint span_no_brace (s : string) : string :=
  match s with
  | EmptyString => EmptyString
  | String c s' => if Ascii.eqb c "}"%char then EmptyString
                   else String c (span_no_brace s')
  end.

(** [re.search(pattern, text)] for the pattern of [get_author_metadata]: a
    look-behind for the anchor, then the longest run of characters other than
    a closing brace.  [match_group0] is [.group(0)] on the result. *)
Definition re_search_stats (text : pyval) : outcome (option string) :=
  match text with
  | VStr s => Ret (span_no_brace <$> text_after stats_anchor s)
  | _ => Raise TypeError
  end.

Definition match_group0 (m : option string) : outcome string :=
  match m with
  | Some g => Ret g
  | None => Raise AttributeError
  end.

(** ** Truth values and [or] *)

(** [bool(v)]: [None], [False], zero, and the empty string, list and dict
    are false. *)
Definition py_truthy (v : pyval) : bool :=
  match v with
  | VNone => false
  | VBool b => b
  | VInt z => negb (z =? 0)
  | VFloat f => negb (float_is_zero f)
  | VStr s => negb (String.eqb s EmptyString)
  | VList l => match l with [] => false | _ :: _ => true end
  | VDict d => negb (bool_decide (d = ∅))
  end.

(** [a or b] *)
Definition py_or (a b : pyval) : pyval := if py_truthy a then a else b.

(** ** [str.replace(sub, "")] and [str.strip()]

    A character of a string is a code point below 256. *)

(** [c.isspace()] for the code points below 256: tab to carriage return, the
    four separators 28 to 31, the space, NEL and the no-break space. *)
Definition py_isspace (c : ascii) : bool :=
  let n := nat_of_ascii c in
  ((9 <=? n) && (n <=? 13) || (28 <=? n) && (n <=? 32) || (n =? 133) || (n =? 160))%nat.

Fixpoint lstrip (s : string) : string :=
  match s with
  | EmptyString => EmptyString
  | String c s' => if py_isspace c then lstrip s' else s
  end.

Fixpoint rstrip (s : string) : string :=
  match s with
  | EmptyString => EmptyString
  | String c s' =>
      match rstrip s' with
      | EmptyString => if py_isspace c then EmptyString else String c EmptyString
      | r => String c r
      end
  end.

(** [s.strip()] *)
Definition str_strip (s : string) : string := rstrip (lstrip s).

(** The scan of [s.replace(sub, "")] for a non-empty [sub]: from the left, an
    occurrence of [sub] is dropped and the scan goes on behind it, any other
    character is kept.  Every step consumes a character, so [String.length s]
    steps are enough. *)
Fixpoint remove_all (steps : nat) (sub s : string) : string :=
  match steps with
  | O => s
  | S n =>
      match s with
      | EmptyString => EmptyString
      | String c s' =>
          match strip_prefix sub s with
          | Some rest => remove_all n sub rest
          | None => String c (remove_all n sub s')
          end
      end
  end.

(** [s.replace(sub, "")]; with the empty [sub] the string comes back as it
    is. *)
Definition str_remove (sub s : string) : string :=
  match sub with
  | EmptyString => s
  | String _ _ => remove_all (String.length s) sub s
  end.

End Py.
Export Py.

(* ===================================================================== *)
(** * The outside world *)
(* ===================================================================== *)

(** One HTTP request: [client.get(url, params=...)] on a client built with
    [headers] and [cookies], or [requests.post(url, headers=..., ...)]. *)
Record request : Type := {
  rq_url : string;
  rq_headers : pyval;
  rq_cookies : pyval;
  rq_params : pyval
}.

Record response : Type := {
  status_code : Z;
  text : string
}.

(** What the three files consume and do not define.  The remote side is a
    state machine [World]: each request is answered with a response or an
    exception and moves it on.  The five dicts are the constants that
    [scraper.py] imports from [components/constants.py]. *)
Class Platform : Type := {
  World : Type;
  client_get : request -> World -> outcome response * World;
  requests_post : request -> pyval -> World -> outcome response * World;
  (** [json.loads] on a string; [None] is [json.JSONDecodeError]. *)
  json_loads : string -> option pyval;
  (** [datetime.fromtimestamp(t).strftime("%Y-%m-%d %H:%M:%S")] *)
  strftime_fromtimestamp : pyval -> outcome string;
  (** the text [str()] gives floats and containers *)
  repr_other : pyval -> string;
  headers : gmap string pyval;
  cookies : gmap string pyval;
  params_keyword : gmap string pyval;
  params_comment : gmap string pyval;
  params_reply : gmap string pyval
}.

Inductive level : Type := INFO | ERROR.

(** What a run does that can be observed from outside, in order. *)
Inductive event : Type :=
| EvGet (rq : request)
| EvPost (rq : request) (body : pyval)
| EvLog (lvl : level) (logger : string) (msg : string).

Definition is_post (ev : event) : bool :=
  match ev with
  | EvPost _ _ => true
  | _ => false
  end.

(** The fields of a [TikTokScraper] that the pipeline reads or writes. *)
Record scraper : Type := {
  kw : string;
  total_data : list pyval;
  offset : Z;
  limit : Z;
  max_influencers : Z
}.

(** [TikTokScraper.__init__] *)
Definition init (keyword : string) (max_influencers : Z) : scraper :=
  {| kw := keyword;
     total_data := [];
     offset := 0;
     limit := 20;
     max_influencers := max_influencers |}.

(** How one iteration of a [while] loop ends. *)
Inductive step (S : Type) : Type :=
| Break (s : S)
| Continue (s : S).
Arguments Break {S} s.
Arguments Continue {S} s.

Section Pipeline.
Context `{P : Platform}.

(** The mutable state of a run: the remote side, the events so far (oldest
    first), the module-level dict [params_keyword], which [extract_influencers]
    updates in place, and the scraper object. *)
Record State : Type := {
  st_world : World;
  st_trace : list event;
  st_params_keyword : gmap string pyval;
  st_self : scraper
}.

Definition initial_state (w : World) (s : scraper) : State :=
  {| st_world := w; st_trace := []; st_params_keyword := params_keyword; st_self := s |}.

(** Computations: state passing, with an exception or a value as the result;
    [None] is a loop that ran out of fuel. *)
Definition M (A : Type) : Type := State -> option (outcome A * State).

Definition ret {A} (a : A) : M A := fun st => Some (Ret a, st).
Definition raise {A} (e : exn) : M A := fun st => Some (Raise e, st).
Definition diverge {A} : M A := fun _ => None.

Definition bind {A B} (m : M A) (k : A -> M B) : M B :=
  fun st =>
    match m st with
    | None => None
    | Some (Ret a, st') => k a st'
    | Some (Raise e, st') => Some (Raise e, st')
    end.

(** A pure expression inside a computation. *)
Definition lift {A} (x : outcome A) : M A := fun st => Some (x, st).

(** [try: body except Exception as e: handler(e)] *)
Definition try_except {A} (body : M A) (handler : exn -> M A) : M A :=
  fun st =>
    match body st with
    | None => None
    | Some (Ret a, st') => Some (Ret a, st')
    | Some (Raise e, st') => handler e st'
    end.

(** State updates: one more event, the remote side moved on. *)
Definition add_event (ev : event) (st : State) : State :=
  {| st_world := st_world st;
     st_trace := st_trace st ++ [ev];
     st_params_keyword := st_params_keyword st;
     st_self := st_self st |}.

Definition set_world (w : World) (st : State) : State :=
  {| st_world := w;
     st_trace := st_trace st;
     st_params_keyword := st_params_keyword st;
     st_self := st_self st |}.

Definition emit (ev : event) : M unit :=
  fun st => Some (Ret tt, add_event ev st).

Definition log (lvl : level) (logger msg : string) : M unit :=
  emit (EvLog lvl logger msg).

Definition get_self : M scraper := fun st => Some (Ret (st_self st), st).

Definition set_self (s : scraper) : M unit :=
  fun st => Some (Ret tt, {| st_world := st_world st;
                             st_trace := st_trace st;
                             st_params_keyword := st_params_keyword st;
                             st_self := s |}).

Definition get_params_keyword : M (gmap string pyval) :=
  fun st => Some (Ret (st_params_keyword st), st).

Definition set_params_keyword (d : gmap string pyval) : M unit :=
  fun st => Some (Ret tt, {| st_world := st_world st;
                             st_trace := st_trace st;
                             st_params_keyword := d;
                             st_self := st_self st |}).

(** The two calls that reach the network; each is recorded in the trace. *)
Definition http_get (rq : request) : M response :=
  fun st =>
    let '(r, w) := client_get rq (st_world st) in
    Some (r, add_event (EvGet rq) (set_world w st)).

Definition http_post (rq : request) (body : pyval) : M response :=
  fun st =>
    let '(r, w) := requests_post rq body (st_world st) in
    Some (r, add_event (EvPost rq body) (set_world w st)).

Notation "x <- m ;; k" := (bind m (fun x => k))
  (at level 100, m at next level, right associativity).
Notation "m ;;; k" := (bind m (fun _ => k))
  (at level 100, right associativity).

(** [for x in l: f(x)], stopping at the first exception. *)
Fixpoint for_each {A} (f : A -> M unit) (l : list A) : M unit :=
  match l with
  | [] => ret tt
  | x :: l' => f x ;;; for_each f l'
  end.

(** [json.loads(data)]: [data] must be a string. *)
Definition py_json_loads (data : pyval) : outcome pyval :=
  match data with
  | VStr s => match json_loads s with
              | Some v => Ret v
              | None => Raise ValueError
              end
  | _ => Raise TypeError
  end.

(* ===================================================================== *)
(** * src/components/helpers.py *)
(* ===================================================================== *)

(** [get_request_data_async(url, headers=..., cookies=..., params=...)] *)
Definition get_request_data_async (url : string) (hdrs cks params : pyval) : M pyval :=
  try_except
    (resp <- http_get {| rq_url := url; rq_headers := hdrs;
                         rq_cookies := cks; rq_params := params |} ;;
     if status_code resp =? 200 then
       log INFO "apify_client" "Returning data for url" ;;;
       ret (VStr (text resp))
     else
       log INFO "apify_client" "Unable to get data for url. Status" ;;;
       ret VNone)
    (fun e =>
       match e with
       | HTTPError =>
           log INFO "apify_client" "Unable to get data for url. Error" ;;;
           ret VNone
       | _ => raise e
       end).

(** The request of [requests.post(url, headers={}, params={}, cookies={}, json=...)]. *)
Definition post_request (url : string) : request :=
  {| rq_url := url; rq_headers := VDict ∅; rq_cookies := VDict ∅; rq_params := VDict ∅ |}.

(** [input_data_to_api(url, json=json_data)]: headers, params and cookies take
    their default [{}].  The 422 branch assigns a local and falls off the end
    of the function, so the call evaluates to [None]. *)
Definition input_data_to_api (url : string) (json_data : pyval) : M pyval :=
  try_except
    (resp <- http_post (post_request url) json_data ;;
     if status_code resp =? 200 then
       log INFO "apify_client" "Returning data for url" ;;;
       ret (VStr (text resp))
     else if status_code resp =? 422 then
       ret VNone
     else
       log INFO "apify_client" "Unable to get data for url. Status" ;;;
       ret VNone)
    (fun e =>
       match e with
       | RequestException =>
           log INFO "apify_client" "Unable to get data for url. Error" ;;;
           ret VNone
       | _ => raise e
       end).

(* ===================================================================== *)
(** * src/components/input_api.py *)
(* ===================================================================== *)

(** [fill_profile_data(data)] *)
Definition fill_profile_data (data : pyval) : outcome pyval :=
  let! author_data := py_get data "author" (VDict ∅) in
  let! nickname := py_get author_data "nickname" (VStr "") in
  let! username := py_get author_data "uniqueId" (VStr "") in
  let! email_id := py_get author_data "uniqueId" (VStr "") in
  let! signature := py_get author_data "signature" (VStr "") in
  let! url_id := py_get author_data "uniqueId" (VStr "") in
  let! create_time := py_getitem data "create_time" in
  let! date_last_post := strftime_fromtimestamp create_time in
  let! follower_count := py_get author_data "followerCount" (VStr "") in
  let! engagement_rate := py_get data "engagement_rate" (VStr "") in
  Ret (VDict (list_to_map
    [ ("name", nickname);
      ("username", username);
      ("email", VStr (String.append (py_str repr_other email_id) "@gmail.com"));
      ("bio", signature);
      ("profile_url", VStr (String.append "https://www.tiktok.com/" (py_str repr_other url_id)));
      ("avatar_url", VStr "");
      ("location", VStr "");
      ("date_last_post", VStr date_last_post);
      ("fake_follower_rate", VInt 0);
      ("avg_engagement_by_day", VStr "");
      ("avg_posting_time", VStr "");
      ("platform_ids", VList [VStr "fa6b5bf2-5154-487a-9482-168fdacef1ae"]);
      ("category_ids", VList [VStr "9e7d2d14-6fbd-4930-ad69-72c851967f78"]);
      ("metrics", VDict (list_to_map
         [ ("follower_count", follower_count);
           ("engagement_rate", engagement_rate);
           ("active_status", VBool true) ]));
      ("platform_metrics", VList []) ])).

(* ===================================================================== *)
(** * src/components/scraper.py *)
(* ===================================================================== *)

(** [TikTokScraper.calculate_engagement_rate]: the condition of the
    conditional expression is evaluated first. *)
Definition calculate_engagement_rate (likes comments shares views : pyval) : outcome pyval :=
  let! positive := py_gt_int views 0 in
  if (positive : bool) then
    let! s1 := py_add likes comments in
    let! s2 := py_add s1 shares in
    let! q := py_truediv s2 views in
    py_mul q (VInt 100)
  else Ret (VInt 0).

(** The body of the [try] of [get_author_metadata]; [params] is the shared
    [params_keyword] in its current state. *)
Definition author_metadata_body (author_unique_id : pyval) : M pyval :=
  let url := String.append "https://www.tiktok.com/@" (py_str repr_other author_unique_id) in
  pk <- get_params_keyword ;;
  page <- get_request_data_async url (VDict headers) (VDict cookies) (VDict pk) ;;
  m <- lift (re_search_stats page) ;;
  g <- lift (match_group0 m) ;;
  lift (py_json_loads (VStr (String.append g "}"))).

(** [TikTokScraper.get_author_metadata] *)
Definition get_author_metadata (author_unique_id : pyval) : M pyval :=
  try_except
    (author_metadata_body author_unique_id)
    (fun e =>
       log ERROR "TikTokScraper" "Error fetching author metadata" ;;;
       ret (VDict ∅)).

(** [comment['user']['unique_id']]: the author identifier of a comment or of
    a reply. *)
Definition author_of (comment : pyval) : outcome pyval :=
  let! user := py_getitem comment "user" in
  py_getitem user "unique_id".

(** One element of the comprehension of [fetch_comment_replies]:
    [{**comment, 'is_author_reply': comment['user']['unique_id'] == unique_id}] *)
Definition mark_reply (unique_id comment : pyval) : outcome pyval :=
  let! d := py_as_mapping comment in
  let! author := author_of comment in
  Ret (VDict (<["is_author_reply" := VBool (py_eq author unique_id)]> d)).

(** [TikTokScraper.fetch_comment_replies]; [cursor] is the string the caller
    made with [str(cursor)]. *)
Definition fetch_comment_replies (comment_id video_id : pyval) (cursor : string)
    (unique_id : pyval) : M (list pyval * pyval) :=
  let params := <["cursor" := VStr cursor]>
                  (<["item_id" := video_id]>
                     (<["comment_id" := comment_id]> params_reply)) in
  data <- get_request_data_async "https://www.tiktok.com/api/comment/list/reply/"
            (VDict headers) (VDict cookies) (VDict params) ;;
  reply_data <- lift (py_json_loads data) ;;
  comments <- lift (py_get reply_data "comments" (VList [])) ;;
  items <- lift (py_iter comments) ;;
  processed_replies <- lift (traverse (mark_reply unique_id) items) ;;
  next <- lift (py_get reply_data "cursor" (VStr "")) ;;
  ret (processed_replies, next).

(** The [while True] loop of [extract_comment_replies]. *)
Fixpoint extract_comment_replies_loop (fuel : nat) (comment_id video_id unique_id : pyval)
    (replies : list pyval) (cursor : pyval) : M pyval :=
  match fuel with
  | O => diverge
  | S n =>
      r <- fetch_comment_replies comment_id video_id (py_str repr_other cursor) unique_id ;;
      match fst r with
      | [] => ret (VList replies)
      | _ :: _ =>
          next <- lift (py_add (snd r) (VInt 1)) ;;
          extract_comment_replies_loop n comment_id video_id unique_id
            (replies ++ fst r) next
      end
  end.

(** [TikTokScraper.extract_comment_replies] *)
Definition extract_comment_replies (fuel : nat) (comment unique_id : pyval) : M pyval :=
  comment_id <- lift (py_get comment "cid" (VStr "")) ;;
  video_id <- lift (py_get comment "aweme_id" (VStr "")) ;;
  reply_count <- lift (py_get comment "reply_comment_total" (VInt 0)) ;;
  few <- lift (py_le_int reply_count 4) ;;
  if (few : bool) then lift (py_get comment "reply_comment" (VList []))
  else extract_comment_replies_loop fuel comment_id video_id unique_id [] (VInt 0).

(** The [for comment in comments] loop of [extract_comment_batch]. *)
Fixpoint process_comments (fuel : nat) (unique_id : pyval) (comments : list pyval)
    : M (list pyval) :=
  match comments with
  | [] => ret []
  | comment :: rest =>
      author <- lift (author_of comment) ;;
      marked <- lift (py_setitem comment "is_author_reply" (VBool (py_eq author unique_id))) ;;
      replies <- extract_comment_replies fuel marked unique_id ;;
      final <- lift (py_setitem marked "replies" replies) ;;
      rest' <- process_comments fuel unique_id rest ;;
      ret (final :: rest')
  end.

(** [TikTokScraper.extract_comment_batch] *)
Definition extract_comment_batch (fuel : nat) (params : gmap string pyval)
    (unique_id : pyval) : M (list pyval) :=
  data <- get_request_data_async "https://www.tiktok.com/api/comment/list/"
            (VDict headers) (VDict cookies) (VDict params) ;;
  comment_data <- lift (py_json_loads data) ;;
  comments <- lift (py_get comment_data "comments" (VList [])) ;;
  items <- lift (py_iter comments) ;;
  process_comments fuel unique_id items.

(** The parameters of one comment page: [params_comment.copy()] updated. *)
Definition comment_params (video_id : pyval) (cursor : Z) : gmap string pyval :=
  <["limit" := VInt 20]>
    (<["cursor" := VInt cursor]>
       (<["aweme_id" := video_id]> params_comment)).

(** One iteration of the loop of [extract_comments], its [try] included. *)
Definition extract_comments_step (inner : nat) (video_id unique_id : pyval)
    (total_comments : list pyval) (cursor : Z) : M (step (list pyval * Z)) :=
  try_except
    (comments <- extract_comment_batch inner (comment_params video_id cursor) unique_id ;;
     match comments with
     | [] => ret (Break (total_comments, cursor))
     | _ :: _ =>
         let total_comments' := total_comments ++ comments in
         let cursor' := cursor + 20 in
         if 100 <=? Z.of_nat (length total_comments')
         then ret (Break (total_comments', cursor'))
         else ret (Continue (total_comments', cursor'))
     end)
    (fun e =>
       log ERROR "TikTokScraper" "Comment extraction error" ;;;
       ret (Break (total_comments, cursor))).

Fixpoint extract_comments_loop (inner fuel : nat) (video_id unique_id : pyval)
    (total_comments : list pyval) (cursor : Z) : M (list pyval) :=
  match fuel with
  | O => diverge
  | S n =>
      r <- extract_comments_step inner video_id unique_id total_comments cursor ;;
      match r with
      | Break (total, _) => ret total
      | Continue (total, cursor') =>
          extract_comments_loop inner n video_id unique_id total cursor'
      end
  end.

(** [TikTokScraper.extract_comments] *)
Definition extract_comments (fuel : nat) (video_id unique_id : pyval) : M (list pyval) :=
  extract_comments_loop fuel fuel video_id unique_id [] 0.

(** [TikTokScraper.push_data_to_api]: the result of [input_data_to_api] is
    dropped. *)
Definition push_data_to_api (json_data : pyval) : M unit :=
  input_data_to_api "https://dev.quokkaai.org/api/v1/influencers/" json_data ;;;
  ret tt.

(** [TikTokScraper._save_video_sync]; the line that is logged after the push
    reads [item['id']]. *)
Definition _save_video_sync (item : pyval) : M unit :=
  try_except
    (json_data <- lift (fill_profile_data item) ;;
     push_data_to_api json_data ;;;
     saved_id <- lift (py_getitem item "id") ;;
     log INFO "TikTokScraper" "Saved data successfully")
    (fun e => log ERROR "TikTokScraper" "Error saving video data").

(** [TikTokScraper.save_video_data] *)
Definition save_video_data (item : pyval) : M unit := _save_video_sync item.

(** The dict display that [process_video_item] binds to [processed_item].  In
    [{**item['author'], **author_stats}] the entries of [author_stats] win. *)
Definition build_record (item engagement_rate author_stats : pyval)
    : outcome (gmap string pyval) :=
  let! author := py_getitem item "author" in
  let! base := py_as_mapping author in
  let! extra := py_as_mapping author_stats in
  let! video := py_getitem item "video" in
  let! desc := py_getitem item "desc" in
  let! id := py_getitem item "id" in
  let! create_time := py_getitem item "createTime" in
  let! hashtags := py_get item "textExtra" (VList []) in
  let! stats := py_getitem item "stats" in
  Ret (list_to_map
         [ ("author", VDict (extra ∪ base));
           ("video", video);
           ("description", desc);
           ("id", id);
           ("create_time", create_time);
           ("hashtags", hashtags);
           ("engagement_rate", engagement_rate);
           ("stats", stats) ]).

(** The body of the [try] of [process_video_item]. *)
Definition process_video_body (fuel : nat) (item : pyval) : M unit :=
  stats_l <- lift (py_getitem item "stats") ;;
  likes <- lift (py_getitem stats_l "diggCount") ;;
  stats_s <- lift (py_getitem item "stats") ;;
  shares <- lift (py_getitem stats_s "shareCount") ;;
  stats_v <- lift (py_getitem item "stats") ;;
  views <- lift (py_getitem stats_v "playCount") ;;
  stats_c <- lift (py_getitem item "stats") ;;
  comment_count <- lift (py_getitem stats_c "commentCount") ;;
  engagement_rate <- lift (calculate_engagement_rate likes comment_count shares views) ;;
  author0 <- lift (py_getitem item "author") ;;
  author_id <- lift (py_get author0 "uniqueId" VNone) ;;
  author_stats <- get_author_metadata author_id ;;
  processed_item <- lift (build_record item engagement_rate author_stats) ;;
  video_id <- lift (py_getitem item "id") ;;
  author2 <- lift (py_getitem item "author") ;;
  unique_id <- lift (py_getitem author2 "uniqueId") ;;
  comments <- extract_comments fuel video_id unique_id ;;
  save_video_data (VDict (<["comments" := VList comments]> processed_item)).

(** [TikTokScraper.process_video_item] *)
Definition process_video_item (fuel : nat) (item : pyval) : M unit :=
  try_except
    (process_video_body fuel item)
    (fun e => log ERROR "TikTokScraper" "Video processing error").

(** The first half of the [try] of [extract_influencers]: update the shared
    [params_keyword], fetch one search page, parse it and read its items. *)
Definition search_fetch_parse : M (list pyval) :=
  self <- get_self ;;
  pk <- get_params_keyword ;;
  let pk' := <["limit" := VInt (limit self)]>
               (<["offset" := VInt (offset self)]>
                  (<["keyword" := VStr (kw self)]> pk)) in
  set_params_keyword pk' ;;;
  data <- get_request_data_async "https://www.tiktok.com/api/search/item/full/"
            (VDict headers) (VDict cookies) (VDict pk') ;;
  data_list <- lift (py_json_loads data) ;;
  item_list <- lift (py_getitem data_list "item_list") ;;
  lift (py_iter item_list).

(** One iteration of the loop of [extract_influencers], entered when
    [len(self.total_data) < self.max_influencers]. *)
Definition extract_influencers_step (inner : nat) : M (step unit) :=
  try_except
    (items <- search_fetch_parse ;;
     for_each (process_video_item inner) items ;;;
     self <- get_self ;;
     if max_influencers self <=? Z.of_nat (length (total_data self))
     then ret (Break tt)
     else
       set_self {| kw := kw self;
                   total_data := total_data self;
                   offset := offset self + limit self;
                   limit := limit self;
                   max_influencers := max_influencers self |} ;;;
       ret (Continue tt))
    (fun e =>
       log ERROR "TikTokScraper" "Data extraction error" ;;;
       ret (Break tt)).

Fixpoint extract_influencers_loop (inner fuel : nat) : M (list pyval) :=
  match fuel with
  | O => diverge
  | S n =>
      self <- get_self ;;
      if Z.of_nat (length (total_data self)) <? max_influencers self then
        r <- extract_influencers_step inner ;;
        match r with
        | Break _ => self' <- get_self ;; ret (total_data self')
        | Continue _ => extract_influencers_loop inner n
        end
      else ret (total_data self)
  end.

(** [TikTokScraper.extract_influencers] *)
Definition extract_influencers (fuel : nat) : M (list pyval) :=
  extract_influencers_loop fuel fuel.

End Pipeline.

Notation "x <- m ;; k" := (bind m (fun x => k))
  (at level 100, m at next level, right associativity).
Notation "m ;;; k" := (bind m (fun _ => k))
  (at level 100, right associativity).

(** The POST requests of a trace. *)
Definition pushes (tr : list event) : list event := filter (fun ev => is_post ev = true) tr.

(* ===================================================================== *)
(** * The helpers that the scraper does not call, and the entry point *)
(* ===================================================================== *)

Section Helpers.
Context `{P : Platform}.

(** [requests.get], which [scraper.py] never reaches: a second client on the
    same remote side. *)
Variable requests_get : request -> World -> outcome response * World.

Definition http_get_sync (rq : request) : M response :=
  fun st =>
    let '(r, w) := requests_get rq (st_world st) in
    Some (r, add_event (EvGet rq) (set_world w st)).

(** [get_request_data_sync(url, headers=..., cookies=..., params=...)] *)
Definition get_request_data_sync (url : string) (hdrs cks params : pyval) : M pyval :=
  try_except
    (resp <- http_get_sync {| rq_url := url; rq_headers := hdrs;
                              rq_cookies := cks; rq_params := params |} ;;
     if status_code resp =? 200 then
       log INFO "apify_client" "Returning data for url" ;;;
       ret (VStr (text resp))
     else
       log INFO "apify_client" "Unable to get data for url. Status" ;;;
       ret VNone)
    (fun e =>
       match e with
       | RequestException =>
           log INFO "apify_client" "Unable to get data for url. Error" ;;;
           ret VNone
       | _ => raise e
       end).

End Helpers.

Section Helpers_json.
Context `{P : Platform}.

(** [response_text.replace(sub, "").strip()]: only a string has [replace],
    and [replace] takes strings. *)
Definition replace_strip (response_text sub : pyval) : outcome string :=
  match response_text with
  | VStr s =>
      match sub with
      | VStr p => Ret (str_strip (str_remove p s))
      | _ => Raise TypeError
      end
  | _ => Raise AttributeError
  end.

(** [extract_json_data(response_text, sub)]; the bare [except] catches
    whatever the two statements raise. *)
Definition extract_json_data (response_text sub : pyval) : M pyval :=
  try_except
    (cleaned <- lift (replace_strip response_text sub) ;;
     data <- lift (py_json_loads (VStr cleaned)) ;;
     ret data)
    (fun e =>
       log ERROR "apify_client" "Unable to extract website of the club." ;;;
       ret VNone).

End Helpers_json.

(** ** src/src/main.py *)

(** The literal [{'keyword': 'k-beauty'}]. *)
Definition default_input : pyval := VDict {[ "keyword" := VStr "k-beauty" ]}.

(** The three statements of [main] that turn the value of
    [await Actor.get_input()] into the arguments of [TikTokScraper]:
    the keyword and [max_influencers]. *)
Definition main_arguments (got : pyval) : outcome (pyval * pyval) :=
  let actor_input := py_or got default_input in
  let! k := py_get actor_input "keyword" VNone in
  let! keyword := py_add (VStr "#") k in
  let! max_influencers := py_get actor_input "max_influencers" (VInt 50) in
  Ret (keyword, max_influencers).

(* ===================================================================== *)
(** * Vocabulary of the statements *)
(* ===================================================================== *)

Section Vocabulary.
Context `{P : Platform}.

(** A computation keeps the relation [R] between the state it starts from
    and the state it ends in. *)
Definition preserves {A} (R : State -> State -> Prop) (m : M A) : Prop :=
  forall st r st', m st = Some (r, st') -> R st st'.

(** Three instances: the scraper object is left alone, nothing is pushed, and
    the trace only grows. *)
Definition same_self (st st' : State) : Prop := st_self st' = st_self st.
Definition same_pushes (st st' : State) : Prop :=
  pushes (st_trace st') = pushes (st_trace st).
Definition trace_extends (st st' : State) : Prop :=
  exists rest, st_trace st' = st_trace st ++ rest.


(** A computation whose exceptions come before any push. *)
Definition raises_quietly {A} (m : M A) : Prop :=
  forall st e st1, m st = Some (Raise e, st1) -> same_pushes st st1.

(** A reply carries the mark: [is_author_reply] holds whether its author
    identifier equals [uid]. *)
Definition tagged (uid r : pyval) : Prop :=
  exists d author,
    author_of (VDict d) = Ret author
    /\ r = VDict (<["is_author_reply" := VBool (py_eq author uid)]> d).

(** The request of one reply page. *)
Definition reply_request (cid vid : pyval) (cursor : string) : request :=
  {| rq_url := "https://www.tiktok.com/api/comment/list/reply/";
     rq_headers := VDict headers;
     rq_cookies := VDict cookies;
     rq_params := VDict (<["cursor" := VStr cursor]>
                           (<["item_id" := vid]> (<["comment_id" := cid]> params_reply))) |}.

(** The request for the profile page of an author. *)
Definition profile_request (id : pyval) (pk : gmap string pyval) : request :=
  {| rq_url := String.append "https://www.tiktok.com/@" (py_str repr_other id);
     rq_headers := VDict headers;
     rq_cookies := VDict cookies;
     rq_params := VDict pk |}.

(** What the three parsing statements of [get_author_metadata] make of a
    fetched page. *)
Definition parse_stats (page : pyval) : outcome pyval :=
  let! m := re_search_stats page in
  let! g := match_group0 m in
  py_json_loads (VStr (String.append g "}")).

Definition metadata_error : event :=
  EvLog ERROR "TikTokScraper" "Error fetching author metadata".

Definition processing_error : event :=
  EvLog ERROR "TikTokScraper" "Video processing error".

Definition extraction_error : event :=
  EvLog ERROR "TikTokScraper" "Data extraction error".

(** The scraper after [self.offset += self.limit]. *)
Definition next_page (s : scraper) : scraper :=
  {| kw := kw s;
     total_data := total_data s;
     offset := offset s + limit s;
     limit := limit s;
     max_influencers := max_influencers s |}.

Definition with_self (s : scraper) (st : State) : State :=
  {| st_world := st_world st;
     st_trace := st_trace st;
     st_params_keyword := st_params_keyword st;
     st_self := s |}.

End Vocabulary.

(** The double 20.0: [5629499534213120 * 2^-48]. *)
Definition twenty : spec_float := S754_finite false 5629499534213120 (-48).

(** ** What is sent, what is logged *)

Definition is_log (ev : event) : Prop :=
  match ev with
  | EvLog _ _ _ => True
  | _ => False
  end.

(** The parameters of the GET requests of a trace that went to [url]. *)
Definition gets_to (url : string) (tr : list event) : list pyval :=
  omap (fun ev => match ev with
                  | EvGet rq => if String.eqb (rq_url rq) url then Some (rq_params rq) else None
                  | _ => None
                  end) tr.

Definition search_endpoint : string := "https://www.tiktok.com/api/search/item/full/".
Definition comment_endpoint : string := "https://www.tiktok.com/api/comment/list/".
Definition reply_endpoint : string := "https://www.tiktok.com/api/comment/list/reply/".
Definition ingest_endpoint : string := "https://dev.quokkaai.org/api/v1/influencers/".

Definition saved_event : event := EvLog INFO "TikTokScraper" "Saved data successfully".
Definition save_error : event := EvLog ERROR "TikTokScraper" "Error saving video data".
Definition comment_error : event := EvLog ERROR "TikTokScraper" "Comment extraction error".

Section Observations.
Context `{P : Platform}.

(** A computation sends at most [n] POST requests, all of them to the
    ingestion endpoint with the default headers, cookies and parameters. *)
Definition pushes_at_most {A} (n : nat) (m : M A) : Prop :=
  forall st r st',
    m st = Some (r, st') ->
    exists sent,
      pushes (st_trace st') = pushes (st_trace st) ++ sent
      /\ (length sent <= n)%nat
      /\ Forall (fun ev => exists body, ev = EvPost (post_request ingest_endpoint) body) sent.

(** The pages that the reply loop fetches from [cursor] on, starting in
    state [st]: the non-empty batches in the order of their fetches, up to
    the first empty page, and the state that the fetch of the empty page
    leaves.  Each cursor but the first is the cursor of the page before,
    plus one. *)
Inductive reply_pages (cid vid uid : pyval)
    : pyval -> State -> list (list pyval) -> State -> Prop :=
| reply_pages_end cursor st next st1 :
    fetch_comment_replies cid vid (py_str repr_other cursor) uid st
    = Some (Ret ([], next), st1) ->
    reply_pages cid vid uid cursor st [] st1
| reply_pages_more cursor st batch next st1 next' batches st' :
    fetch_comment_replies cid vid (py_str repr_other cursor) uid st
    = Some (Ret (batch, next), st1) ->
    batch <> [] ->
    py_add next (VInt 1) = Ret next' ->
    reply_pages cid vid uid next' st1 batches st' ->
    reply_pages cid vid uid cursor st (batch :: batches) st'.

(** The engagement rate of a search item: the call of
    [calculate_engagement_rate] in [process_video_item], with its four
    arguments read in the order the source writes them. *)
Definition item_rate (item : pyval) : outcome pyval :=
  let! stats_l := py_getitem item "stats" in
  let! likes := py_getitem stats_l "diggCount" in
  let! stats_s := py_getitem item "stats" in
  let! shares := py_getitem stats_s "shareCount" in
  let! stats_v := py_getitem item "stats" in
  let! views := py_getitem stats_v "playCount" in
  let! stats_c := py_getitem item "stats" in
  let! comment_count := py_getitem stats_c "commentCount" in
  calculate_engagement_rate likes comment_count shares views.

(** [item['author'].get('uniqueId')] *)
Definition item_author_id (item : pyval) : outcome pyval :=
  let! author := py_getitem item "author" in
  py_get author "uniqueId" VNone.

(** What [process_video_item] goes on to do with the rate and the author
    identifier: the rest of the body of its [try]. *)
Definition process_video_rest (fuel : nat) (item rate id : pyval) : M unit :=
  author_stats <- get_author_metadata id ;;
  processed_item <- lift (build_record item rate author_stats) ;;
  video_id <- lift (py_getitem item "id") ;;
  author2 <- lift (py_getitem item "author") ;;
  unique_id <- lift (py_getitem author2 "uniqueId") ;;
  comments <- extract_comments fuel video_id unique_id ;;
  save_video_data (VDict (<["comments" := VList comments]> processed_item)).

(** [params_keyword] after the [update] of [extract_influencers]. *)
Definition search_params (pk : gmap string pyval) (s : scraper) : gmap string pyval :=
  <["limit" := VInt (limit s)]>
    (<["offset" := VInt (offset s)]>
       (<["keyword" := VStr (kw s)]> pk)).

(** What [extract_influencers] makes of the body of a search page: the
    elements of its [item_list]. *)
Definition parse_search (data : pyval) : outcome (list pyval) :=
  let! data_list := py_json_loads data in
  let! item_list := py_getitem data_list "item_list" in
  py_iter item_list.

Definition with_params_keyword (pk : gmap string pyval) (st : State) : State :=
  {| st_world := st_world st;
     st_trace := st_trace st;
     st_params_keyword := pk;
     st_self := st_self st |}.

(** The request of one search page. *)
Definition search_request (pk : gmap string pyval) : request :=
  {| rq_url := search_endpoint;
     rq_headers := VDict headers;
     rq_cookies := VDict cookies;
     rq_params := VDict pk |}.

(** The request of one comment page. *)
Definition comment_request (video_id : pyval) (cursor : Z) : request :=
  {| rq_url := comment_endpoint;
     rq_headers := VDict headers;
     rq_cookies := VDict cookies;
     rq_params := VDict (comment_params video_id cursor) |}.

(** Every event that a computation adds to the trace satisfies [Q]. *)
Definition emits (Q : event -> Prop) {A} (m : M A) : Prop :=
  forall st r st',
    m st = Some (r, st') ->
    exists new, st_trace st' = st_trace st ++ new /\ Forall Q new.

(** The events that the processing of one search item can add: log lines,
    the GET of a profile page, of a comment page, of a reply page, and the
    POST to the ingestion endpoint. *)
Definition item_event (ev : event) : Prop :=
  match ev with
  | EvLog _ _ _ => True
  | EvGet rq =>
      (exists id pk, rq = profile_request id pk)
      \/ (exists video_id cursor, rq = comment_request video_id cursor)
      \/ (exists comment_id video_id cursor, rq = reply_request comment_id video_id cursor)
  | EvPost rq _ => rq = post_request ingest_endpoint
  end.

(** With the GET of a search page: the events of the whole scraper. *)
Definition scraper_event (ev : event) : Prop :=
  item_event ev \/ exists pk, ev = EvGet (search_request pk).

(** The scraper after [i] rounds of [self.offset += self.limit]. *)
Definition page (s : scraper) (i : nat) : scraper :=
  {| kw := kw s;
     total_data := total_data s;
     offset := offset s + Z.of_nat i * limit s;
     limit := limit s;
     max_influencers := max_influencers s |}.

(** An event that is no GET to [url]. *)
Definition off_url (url : string) (ev : event) : Prop := gets_to url [ev] = [].

Definition same_params_keyword (st st' : State) : Prop :=
  st_params_keyword st' = st_params_keyword st.

(** No GET to [url] between two states. *)
Definition same_gets_to (url : string) (st st' : State) : Prop :=
  gets_to url (st_trace st') = gets_to url (st_trace st).

End Observations.

(* ===================================================================== *)
(** * Concrete platforms for the examples *)
(* ===================================================================== *)

Module Fixtures.

Definition comma_join (parts : list string) : string :=
  match parts with
  | [] => EmptyString
  | p :: ps => fold_left (fun acc q => String.append acc (String.append "," q)) ps p
  end.

Definition quoted (s : string) : string :=
  String dquote (String.append s (String dquote EmptyString)).

(** The JSON text of a value, for values without floats and strings without
    quotes or backslashes: what a server sends for it, and what [json.loads]
    reads back as the same value. *)
Fixpoint json_text (v : pyval) : option string :=
  match v with
  | VNone => Some "null"
  | VBool true => Some "true"
  | VBool false => Some "false"
  | VInt z => Some (decimal z)
  | VFloat _ => None
  | VStr s => Some (quoted s)
  | VList l =>
      parts ← mapM json_text l;
      Some (String.append "[" (String.append (comma_join parts) "]"))
  | VDict d =>
      parts ← map_fold (fun k x acc =>
                          ps ← acc;
                          t ← json_text x;
                          Some (ps ++ [String.append (quoted k) (String.append ":" t)]))
                       (Some []) d;
      Some (String.append "{" (String.append (comma_join parts) "}"))
  end.

(** A parser that knows the values of [tbl]: it reads the JSON text of each
    and rejects every other string.  The examples only feed it texts of the
    table and strings that are not JSON. *)
Definition table_loads (tbl : list pyval) (s : string) : option pyval :=
  find (fun v => bool_decide (json_text v = Some s)) tbl.

(** A remote side given by two handlers; its state counts the requests. *)
Definition scripted (tbl : list pyval)
    (on_get : request -> nat -> outcome response)
    (on_post : request -> pyval -> nat -> outcome response) : Platform :=
  {| World := nat;
     client_get := fun rq n => (on_get rq n, S n);
     requests_post := fun rq body n => (on_post rq body n, S n);
     json_loads := table_loads tbl;
     strftime_fromtimestamp := fun v =>
       match v with
       | VInt _ => Ret "2024-01-01 00:00:00"%string
       | _ => Raise TypeError
       end;
     repr_other := fun _ => EmptyString;
     headers := ∅;
     cookies := ∅;
     params_keyword := ∅;
     params_comment := ∅;
     params_reply := ∅ |}.

Definition ok (v : pyval) : outcome response :=
  Ret {| status_code := 200; text := default EmptyString (json_text v) |}.

Definition status (code : Z) : outcome response :=
  Ret {| status_code := code; text := EmptyString |}.

Definition param (rq : request) (k : string) : option pyval :=
  match rq_params rq with
  | VDict d => d !! k
  | _ => None
  end.

(** The value of parameter [k] in each GET of a trace. *)
Definition fetched_with (k : string) (tr : list event) : list (option pyval) :=
  omap (fun ev => match ev with
                  | EvGet rq => Some (param rq k)
                  | _ => None
                  end) tr.

(** The state a run starts from: nothing sent yet, a scraper for [#k-beauty]
    with a target of one creator. *)
Definition fresh (P : Platform) (w : @World P) : @State P :=
  initial_state w (init "#k-beauty" 1).

Definition search_url : string := "https://www.tiktok.com/api/search/item/full/".
Definition comment_url : string := "https://www.tiktok.com/api/comment/list/".
Definition reply_url : string := "https://www.tiktok.com/api/comment/list/reply/".

Definition dict (l : list (string * pyval)) : pyval := VDict (list_to_map l).

(** ** A search that answers every page with an empty item list *)

Definition empty_page : pyval := dict [("item_list", VList [])].

Definition empty_search : Platform :=
  scripted [empty_page]
    (fun rq _ => if String.eqb (rq_url rq) search_url then ok empty_page else status 404)
    (fun _ _ _ => status 200).

(** ** A search whose first fetch fails *)

Definition search_down : Platform :=
  scripted [] (fun _ _ => status 500) (fun _ _ _ => status 200).

(** ** A remote side that cannot be reached *)

Definition offline : Platform :=
  scripted [] (fun _ _ => Raise HTTPError) (fun _ _ _ => Raise RequestException).

(** ** A comment with three stated replies, two of them inline, the first by
    the creator of the video *)

Definition creator_reply : pyval :=
  dict [("cid", VStr "r1"); ("user", dict [("unique_id", VStr "creator")])].

Definition fan_reply : pyval :=
  dict [("cid", VStr "r2"); ("user", dict [("unique_id", VStr "fan")])].

Definition comment_with_inline_replies : pyval :=
  dict [("cid", VStr "c1");
        ("aweme_id", VStr "v1");
        ("user", dict [("unique_id", VStr "fan")]);
        ("reply_comment_total", VInt 3);
        ("reply_comment", VList [creator_reply; fan_reply])].

(** ** A video whose first comment page holds 19 comments and the later ones 20 *)

Definition fan_comment : pyval := dict [("user", dict [("unique_id", VStr "fan")])].

Definition comment_page (n : nat) : pyval :=
  dict [("comments", VList (replicate n fan_comment))].

Definition long_thread : Platform :=
  scripted [comment_page 19; comment_page 20]
    (fun rq _ =>
       if String.eqb (rq_url rq) comment_url then
         match param rq "cursor" with
         | Some (VInt 0) => ok (comment_page 19)
         | _ => ok (comment_page 20)
         end
       else status 404)
    (fun _ _ _ => status 200).

(** ** A video with two comment pages of three comments, then an empty page *)

Definition short_thread : Platform :=
  scripted [comment_page 3; comment_page 0]
    (fun rq _ =>
       if String.eqb (rq_url rq) comment_url then
         match param rq "cursor" with
         | Some (VInt 0) | Some (VInt 20) => ok (comment_page 3)
         | _ => ok (comment_page 0)
         end
       else status 404)
    (fun _ _ _ => status 200).

(** ** Reply pages for a comment with seven stated replies *)

Definition busy_comment : pyval :=
  dict [("cid", VStr "c1");
        ("aweme_id", VStr "v1");
        ("user", dict [("unique_id", VStr "fan")]);
        ("reply_comment_total", VInt 7);
        ("reply_comment", VList [fan_reply])].

(** The server numbers its pages: the first answer carries the cursor 5. *)
Definition reply_page_int : pyval :=
  dict [("comments", VList [creator_reply]); ("cursor", VInt 5)].

Definition reply_page_end : pyval := dict [("comments", VList [])].

Definition numeric_cursor : Platform :=
  scripted [reply_page_int; reply_page_end]
    (fun rq _ =>
       if String.eqb (rq_url rq) reply_url then
         match param rq "cursor" with
         | Some (VStr "0") => ok reply_page_int
         | _ => ok reply_page_end
         end
       else status 404)
    (fun _ _ _ => status 200).

(** The server hands out a textual token. *)
Definition reply_page_token : pyval :=
  dict [("comments", VList [creator_reply]); ("cursor", VStr "tok")].

Definition textual_cursor : Platform :=
  scripted [reply_page_token]
    (fun rq _ => if String.eqb (rq_url rq) reply_url then ok reply_page_token else status 404)
    (fun _ _ _ => status 200).

(** ** Ingestion endpoints that answer with a fixed status *)

Definition ingest (code : Z) : Platform :=
  scripted [] (fun _ _ => status 404) (fun _ _ _ => status code).

(** A record as [process_video_item] hands it to the Persister. *)
Definition sample_record : pyval :=
  dict [("author", dict [("uniqueId", VStr "creator"); ("nickname", VStr "Creator")]);
        ("id", VStr "v1");
        ("create_time", VInt 1700000000);
        ("engagement_rate", VInt 0)].

Definition saved_log : event := EvLog INFO "TikTokScraper" "Saved data successfully".

(** ** A search item without the keys [process_video_item] reads *)

Definition bare_item : pyval := dict [("id", VStr "v1")].

(** ** A search item with all of them *)

Definition full_item : pyval :=
  dict [("id", VStr "v1");
        ("desc", VStr "a video");
        ("video", dict [("duration", VInt 15)]);
        ("createTime", VInt 1700000000);
        ("author", dict [("uniqueId", VStr "creator"); ("nickname", VStr "Creator")]);
        ("stats", dict [("diggCount", VInt 10); ("shareCount", VInt 5);
                        ("playCount", VInt 100); ("commentCount", VInt 5)])].

Definition search_page : pyval := dict [("item_list", VList [full_item])].

(** A search that answers every page with that one item; profile and comment
    pages are not found, the ingestion endpoint accepts. *)
Definition one_item_search : Platform :=
  scripted [search_page]
    (fun rq _ => if String.eqb (rq_url rq) search_url then ok search_page else status 404)
    (fun _ _ _ => status 200).

(** A search with one empty page at offset 0 and a failure behind it. *)
Definition one_page_search : Platform :=
  scripted [empty_page]
    (fun rq _ =>
       if String.eqb (rq_url rq) search_url then
         match param rq "offset" with
         | Some (VInt 0) => ok empty_page
         | _ => status 500
         end
       else status 404)
    (fun _ _ _ => status 200).

(** ** A search item whose author has no [uniqueId], with no views *)

Definition nameless_author : gmap string pyval :=
  list_to_map [("nickname", VStr "Nobody")].

Definition nameless_item : gmap string pyval :=
  list_to_map
    [("id", VStr "v2");
     ("author", VDict nameless_author);
     ("stats", dict [("diggCount", VInt 1); ("shareCount", VInt 1);
                     ("playCount", VInt 0); ("commentCount", VInt 1)])].

(** The fields of [sample_record], and the same with what else a record
    carries. *)
Definition sample_fields : gmap string pyval :=
  list_to_map
    [("author", dict [("uniqueId", VStr "creator"); ("nickname", VStr "Creator")]);
     ("id", VStr "v1");
     ("create_time", VInt 1700000000);
     ("engagement_rate", VInt 0)].

Definition sample_fields_with_comments : gmap string pyval :=
  <["comments" := VList [fan_comment]]> (<["description" := VStr "a video"]> sample_fields).

End Fixtures.

(* ===================================================================== *)
(** * Reasoning about computations *)
(* ===================================================================== *)

Section Monad.
Context `{P : Platform}.

Lemma bind_Some {A B} (m : M A) (k : A -> M B) st r st' :
  bind m k st = Some (r, st') ->
  (exists a st1, m st = Some (Ret a, st1) /\ k a st1 = Some (r, st'))
  \/ (exists e, m st = Some (Raise e, st') /\ r = Raise e).
Proof.
  unfold bind. destruct (m st) as [[[a | e] st1] |]; intros H.
  - left. eauto.
  - right. inversion H; subst. eauto.
  - discriminate.
Qed.

Lemma bind_Ret {A B} (m : M A) (k : A -> M B) st a st1 :
  m st = Some (Ret a, st1) -> bind m k st = k a st1.
Proof. intros H. unfold bind. now rewrite H. Qed.

Lemma bind_Some_eq {A B} (m : M A) (k : A -> M B) st r st1 :
  m st = Some (r, st1) ->
  bind m k st = match r with
                | Ret a => k a st1
                | Raise e => Some (Raise e, st1)
                end.
Proof. intros H. unfold bind. rewrite H. now destruct r. Qed.

Lemma try_except_Some {A} (body : M A) (handler : exn -> M A) st r st' :
  try_except body handler st = Some (r, st') ->
  (exists a, body st = Some (Ret a, st') /\ r = Ret a)
  \/ (exists e st1, body st = Some (Raise e, st1) /\ handler e st1 = Some (r, st')).
Proof.
  unfold try_except. destruct (body st) as [[[a | e] st1] |]; intros H.
  - left. inversion H; subst. eauto.
  - right. eauto.
  - discriminate.
Qed.

Lemma lift_Some {A} (x : outcome A) st r st' :
  lift x st = Some (r, st') -> x = r /\ st' = st.
Proof. unfold lift. intros H. inversion H. auto. Qed.

Lemma ret_Some {A} (a : A) st r st' :
  ret a st = Some (r, st') -> r = Ret a /\ st' = st.
Proof. unfold ret. intros H. inversion H. auto. Qed.

(** ** Relations between the state before and after *)

Create HintDb frame.

Section Frame.
Variable R : State -> State -> Prop.
Hypothesis R_refl : forall st, R st st.
Hypothesis R_trans : forall a b c, R a b -> R b c -> R a c.

Lemma preserves_ret {A} (a : A) : preserves R (ret a).
Proof. intros st r st' H. apply ret_Some in H as [_ ->]. apply R_refl. Qed.

Lemma preserves_raise {A} e : preserves R (@raise _ A e).
Proof. intros st r st' H. inversion H. apply R_refl. Qed.

Lemma preserves_lift {A} (x : outcome A) : preserves R (lift x).
Proof. intros st r st' H. apply lift_Some in H as [_ ->]. apply R_refl. Qed.

Lemma preserves_diverge {A} : preserves R (@diverge _ A).
Proof. intros st r st' H. discriminate. Qed.

Lemma preserves_bind {A B} (m : M A) (k : A -> M B) :
  preserves R m -> (forall a, preserves R (k a)) -> preserves R (bind m k).
Proof.
  intros Hm Hk st r st' H.
  apply bind_Some in H as [(a & st1 & H1 & H2) | (e & H1 & _)].
  - eapply R_trans; [eapply Hm | eapply Hk]; eauto.
  - eapply Hm; eauto.
Qed.

Lemma preserves_try_except {A} (body : M A) (handler : exn -> M A) :
  preserves R body -> (forall e, preserves R (handler e)) -> preserves R (try_except body handler).
Proof.
  intros Hb Hh st r st' H.
  apply try_except_Some in H as [(a & H1 & _) | (e & st1 & H1 & H2)].
  - eapply Hb; eauto.
  - eapply R_trans; [eapply Hb | eapply Hh]; eauto.
Qed.

Lemma preserves_get_params_keyword : preserves R get_params_keyword.
Proof. intros st r st' H. inversion H. apply R_refl. Qed.

Lemma preserves_get_self : preserves R get_self.
Proof. intros st r st' H. inversion H. apply R_refl. Qed.

Lemma preserves_for_each {A} (f : A -> M unit) l :
  (forall x, preserves R (f x)) -> preserves R (for_each f l).
Proof.
  intros Hf. induction l as [| x l IH]; simpl.
  - apply preserves_ret.
  - apply preserves_bind; auto.
Qed.

(** The part of the pipeline that only reads from the remote side: GET
    requests and log lines. *)
Hypothesis R_log : forall lvl name msg, preserves R (log lvl name msg).
Hypothesis R_get : forall rq, preserves R (http_get rq).

Ltac frame :=
  repeat first
    [ assumption
    | solve [ auto 1 with frame nocore ]
    | apply preserves_ret | apply preserves_raise | apply preserves_lift
    | apply preserves_diverge | apply preserves_get_params_keyword
    | apply preserves_get_self | apply R_log | apply R_get
    | apply preserves_bind; [| intros ? ]
    | apply preserves_try_except; [| intros ? ]
    | match goal with
      | |- preserves _ (match ?x with _ => _ end) => destruct x
      end ].

Lemma preserves_get_request_data_async url hdrs cks params :
  preserves R (get_request_data_async url hdrs cks params).
Proof. unfold get_request_data_async. frame. Qed.
Hint Resolve preserves_get_request_data_async : frame.

Lemma preserves_get_author_metadata id : preserves R (get_author_metadata id).
Proof. unfold get_author_metadata, author_metadata_body. frame. Qed.
Hint Resolve preserves_get_author_metadata : frame.

Lemma preserves_fetch_comment_replies cid vid cursor uid :
  preserves R (fetch_comment_replies cid vid cursor uid).
Proof. unfold fetch_comment_replies. frame. Qed.
Hint Resolve preserves_fetch_comment_replies : frame.

Lemma preserves_extract_comment_replies_loop fuel cid vid uid replies cursor :
  preserves R (extract_comment_replies_loop fuel cid vid uid replies cursor).
Proof.
  revert replies cursor. induction fuel as [| n IH]; intros replies cursor; simpl.
  - apply preserves_diverge.
  - apply preserves_bind; [apply preserves_fetch_comment_replies |].
    intros [batch next]. simpl. destruct batch; frame.
Qed.
Hint Resolve preserves_extract_comment_replies_loop : frame.

Lemma preserves_extract_comment_replies fuel comment uid :
  preserves R (extract_comment_replies fuel comment uid).
Proof. unfold extract_comment_replies. frame. Qed.
Hint Resolve preserves_extract_comment_replies : frame.

Lemma preserves_process_comments fuel uid comments :
  preserves R (process_comments fuel uid comments).
Proof. induction comments as [| c rest IH]; simpl; frame. Qed.
Hint Resolve preserves_process_comments : frame.

Lemma preserves_extract_comment_batch fuel params uid :
  preserves R (extract_comment_batch fuel params uid).
Proof. unfold extract_comment_batch. frame. Qed.
Hint Resolve preserves_extract_comment_batch : frame.

Lemma preserves_extract_comments_step inner vid uid total cursor :
  preserves R (extract_comments_step inner vid uid total cursor).
Proof. unfold extract_comments_step. frame. Qed.
Hint Resolve preserves_extract_comments_step : frame.

Lemma preserves_extract_comments_loop inner fuel vid uid total cursor :
  preserves R (extract_comments_loop inner fuel vid uid total cursor).
Proof.
  revert total cursor. induction fuel as [| n IH]; intros total cursor; simpl.
  - apply preserves_diverge.
  - apply preserves_bind; [apply preserves_extract_comments_step |].
    intros [[t c] | [t c]]; frame.
Qed.

Lemma preserves_extract_comments fuel vid uid :
  preserves R (extract_comments fuel vid uid).
Proof. apply preserves_extract_comments_loop. Qed.
Hint Resolve preserves_extract_comments : frame.

(** With the POST of the Persister as well. *)
Hypothesis R_post : forall rq body, preserves R (http_post rq body).

Lemma preserves_input_data_to_api url body : preserves R (input_data_to_api url body).
Proof. unfold input_data_to_api. frame; try apply R_post. Qed.
Hint Resolve preserves_input_data_to_api : frame.

Lemma preserves_save_video_data item : preserves R (save_video_data item).
Proof. unfold save_video_data, _save_video_sync, push_data_to_api. frame. Qed.
Hint Resolve preserves_save_video_data : frame.

Lemma preserves_process_video_item fuel item : preserves R (process_video_item fuel item).
Proof. unfold process_video_item, process_video_body. frame. Qed.

End Frame.

End Monad.

(** ** Facts about the three state relations *)

Section Relations.
Context `{P : Platform}.

Lemma same_self_refl st : same_self st st.
Proof. reflexivity. Qed.

Lemma same_self_trans a b c : same_self a b -> same_self b c -> same_self a c.
Proof. unfold same_self. congruence. Qed.

Lemma same_self_log lvl name msg : preserves same_self (log lvl name msg).
Proof. intros st r st' H. inversion H. reflexivity. Qed.

Lemma same_self_get rq : preserves same_self (http_get rq).
Proof.
  intros st r st' H. unfold http_get in H.
  destruct (client_get rq (st_world st)). inversion H. reflexivity.
Qed.

Lemma same_self_post rq body : preserves same_self (http_post rq body).
Proof.
  intros st r st' H. unfold http_post in H.
  destruct (requests_post rq body (st_world st)). inversion H. reflexivity.
Qed.

Lemma pushes_app tr tr' : pushes (tr ++ tr') = pushes tr ++ pushes tr'.
Proof. apply filter_app. Qed.

Lemma same_pushes_refl st : same_pushes st st.
Proof. reflexivity. Qed.

Lemma same_pushes_trans a b c : same_pushes a b -> same_pushes b c -> same_pushes a c.
Proof. unfold same_pushes. congruence. Qed.

Lemma same_pushes_log lvl name msg : preserves same_pushes (log lvl name msg).
Proof.
  intros st r st' H. inversion H. unfold same_pushes. simpl.
  rewrite pushes_app. simpl. apply app_nil_r.
Qed.

Lemma same_pushes_get rq : preserves same_pushes (http_get rq).
Proof.
  intros st r st' H. unfold http_get in H.
  destruct (client_get rq (st_world st)). inversion H. unfold same_pushes. simpl.
  rewrite pushes_app. simpl. apply app_nil_r.
Qed.

Lemma trace_extends_refl st : trace_extends st st.
Proof. exists []. now rewrite app_nil_r. Qed.

Lemma trace_extends_trans a b c : trace_extends a b -> trace_extends b c -> trace_extends a c.
Proof.
  intros [r1 H1] [r2 H2]. exists (r1 ++ r2). rewrite H2, H1. now rewrite app_assoc.
Qed.

Lemma trace_extends_log lvl name msg : preserves trace_extends (log lvl name msg).
Proof. intros st r st' H. inversion H. now eexists. Qed.

Lemma trace_extends_get rq : preserves trace_extends (http_get rq).
Proof.
  intros st r st' H. unfold http_get in H.
  destruct (client_get rq (st_world st)). inversion H. now eexists.
Qed.

End Relations.

(** Inversion of a run that ended with a value: [bind_lift] takes a pure
    step off the front, [bind_run] an effectful one. *)
Ltac bind_lift H x Hx :=
  apply bind_Some in H as [(x & ? & Hx & H) | (? & ? & ?)];
  [ apply lift_Some in Hx as [Hx ->] | discriminate ].

Ltac bind_run H x st Hx :=
  apply bind_Some in H as [(x & st & Hx & H) | (? & ? & ?)]; [| discriminate ].

(* ===================================================================== *)
(** * Properties of the pipeline *)
(* ===================================================================== *)

Section Engagement.

Lemma py_add_int (a b : Z) : py_add (VInt a) (VInt b) = Ret (VInt (a + b)).
Proof. reflexivity. Qed.

Lemma py_gt_int_pos (v : Z) : 0 < v -> py_gt_int (VInt v) 0 = Ret true.
Proof.
  intros H. unfold py_gt_int. simpl.
  destruct (Z.compare_spec v 0); try lia; reflexivity.
Qed.

(** C4.  On integer inputs [calculate_engagement_rate] is
    [(likes + comments + shares) / views * 100] in Python's arithmetic (the
    sum exact, the quotient and the product correctly rounded doubles) when
    [views > 0]; it is the integer 0 when [views = 0], whatever the other
    three arguments are; and on views=100, likes=10, comments=5, shares=5 it
    is the double [twenty], which is [float(20)] and whose value is exactly
    20. *)
Theorem calculate_engagement_rate_spec (likes comments shares views : Z) :
  (0 < views ->
   calculate_engagement_rate (VInt likes) (VInt comments) (VInt shares) (VInt views)
   = let! q := py_truediv (VInt (likes + comments + shares)) (VInt views) in
     py_mul q (VInt 100))
  /\ (views = 0 ->
      forall l c s : pyval, calculate_engagement_rate l c s (VInt views) = Ret (VInt 0))
  /\ calculate_engagement_rate (VInt 10) (VInt 5) (VInt 5) (VInt 100) = Ret (VFloat twenty)
  /\ float_of_int 20 = Ret twenty
  /\ float_compare_int twenty 20 = Some Eq.
Proof.
  split; [| split; [| split; [| split]]].
  - intros Hv. unfold calculate_engagement_rate.
    rewrite (py_gt_int_pos _ Hv). cbn [obind].
    now rewrite !py_add_int.
  - intros -> l c s. reflexivity.
  - vm_compute. reflexivity.
  - reflexivity.
  - reflexivity.
Qed.

Lemma calculate_engagement_rate_spec_witness :
  0 < 4
  /\ calculate_engagement_rate (VInt 1) (VInt 2) (VInt 3) (VInt 4)
     = (let! q := py_truediv (VInt (1 + 2 + 3)) (VInt 4) in py_mul q (VInt 100))
  /\ calculate_engagement_rate VNone (VStr "x") (VList []) (VInt 0) = Ret (VInt 0).
Proof.
  split; [lia | split].
  - apply (proj1 (calculate_engagement_rate_spec 1 2 3 4)). lia.
  - apply (proj1 (proj2 (calculate_engagement_rate_spec 0 0 0 0))). reflexivity.
Defined.

End Engagement.

Section Persister.
Context `{P : Platform}.

(** C9, as the code has it.  [input_data_to_api] sends one POST.  On status
    200 it logs and returns the response text; on 422 it does nothing more
    and returns [None]; on any other status it logs the status and returns
    [None]. *)
Theorem input_data_to_api_by_status url body st resp w :
  requests_post (post_request url) body (st_world st) = (Ret resp, w) ->
  let sent := add_event (EvPost (post_request url) body) (set_world w st) in
  input_data_to_api url body st
  = Some (if status_code resp =? 200 then
            (Ret (VStr (text resp)),
             add_event (EvLog INFO "apify_client" "Returning data for url") sent)
          else if status_code resp =? 422 then (Ret VNone, sent)
          else
            (Ret VNone,
             add_event (EvLog INFO "apify_client" "Unable to get data for url. Status") sent)).
Proof.
  intros Hpost sent.
  unfold input_data_to_api, try_except, bind, http_post. rewrite Hpost.
  destruct (status_code resp =? 200); [reflexivity |].
  destruct (status_code resp =? 422); reflexivity.
Qed.

End Persister.

(* ===================================================================== *)
(** ** Replies *)
(* ===================================================================== *)

Section Replies.
Context `{P : Platform}.

Lemma py_eq_str (x : pyval) (u : string) : py_eq x (VStr u) = true <-> x = VStr u.
Proof.
  destruct x; simpl; try (split; [discriminate | discriminate]).
  rewrite String.eqb_eq. split; congruence.
Qed.

Lemma traverse_Forall {A B} (f : A -> outcome B) (Q : B -> Prop) l out :
  (forall x y, f x = Ret y -> Q y) -> traverse f l = Ret out -> Forall Q out.
Proof.
  intros Hf. revert out. induction l as [| x l IH]; simpl; intros out H.
  - inversion H. constructor.
  - destruct (f x) as [y |] eqn:Ex; simpl in H; [| discriminate].
    destruct (traverse f l) as [ys |]; simpl in H; [| discriminate].
    inversion H; subst. constructor; eauto.
Qed.

Lemma mark_reply_tagged uid c r : mark_reply uid c = Ret r -> tagged uid r.
Proof.
  unfold mark_reply. destruct c; simpl; try discriminate.
  destruct (author_of (VDict d)) as [author |] eqn:Ea; simpl; [| discriminate].
  intros H. inversion H. exists d, author. auto.
Qed.

Lemma py_json_loads_Ret data v :
  py_json_loads data = Ret v -> exists txt, data = VStr txt /\ json_loads txt = Some v.
Proof.
  unfold py_json_loads. destruct data; try discriminate.
  destruct (json_loads s) eqn:E; [| discriminate]. intros H. inversion H; subst. eauto.
Qed.

Lemma py_get_Ret v k dflt x :
  py_get v k dflt = Ret x -> exists d, v = VDict d /\ x = default dflt (d !! k).
Proof.
  unfold py_get. destruct v; try discriminate. intros H. inversion H.
  exists d. split; [reflexivity |]. now destruct (d !! k).
Qed.

Lemma get_request_data_async_sends url hdrs cks params st r st' :
  get_request_data_async url hdrs cks params st = Some (r, st') ->
  exists rest,
    st_trace st' = st_trace st
      ++ EvGet {| rq_url := url; rq_headers := hdrs; rq_cookies := cks; rq_params := params |}
      :: rest.
Proof.
  unfold get_request_data_async, try_except, bind, http_get.
  destruct (client_get _ (st_world st)) as [[resp | e] w]; simpl.
  - destruct (status_code resp =? 200); simpl; intros H; inversion H; simpl;
      rewrite <- app_assoc; eauto.
  - destruct e; simpl; intros H; inversion H; simpl;
      try rewrite <- app_assoc; simpl; eauto.
Qed.

Lemma get_request_data_async_total url hdrs cks params st :
  exists r st', get_request_data_async url hdrs cks params st = Some (r, st').
Proof.
  unfold get_request_data_async, try_except, bind, http_get.
  destruct (client_get _ (st_world st)) as [[resp | e] w]; simpl.
  - destruct (status_code resp =? 200); simpl; eauto.
  - destruct e; simpl; eauto.
Qed.

(** What a successful [fetch_comment_replies] returns: replies that all
    carry the mark, and the [cursor] entry of the parsed response, or the
    empty string when there is none. *)
Lemma fetch_comment_replies_inv cid vid cursor uid st batch next st1 :
  fetch_comment_replies cid vid cursor uid st = Some (Ret (batch, next), st1) ->
  Forall (tagged uid) batch
  /\ exists txt reply_data,
       json_loads txt = Some (VDict reply_data)
       /\ next = default (VStr "") (reply_data !! "cursor").
Proof.
  unfold fetch_comment_replies. intros H.
  bind_run H data st0 Hget.
  bind_lift H reply_data Hjson.
  bind_lift H comments Hcomments.
  bind_lift H items Hitems.
  bind_lift H processed Hmap.
  bind_lift H next' Hnext.
  apply ret_Some in H as [H _]. inversion H; subst. clear H.
  apply py_json_loads_Ret in Hjson as (txt & -> & Hjson).
  apply py_get_Ret in Hcomments as (d & -> & ->).
  apply py_get_Ret in Hnext as (d' & Hd & ->).
  inversion Hd; subst d'.
  split.
  - eapply traverse_Forall; [apply mark_reply_tagged | eassumption].
  - eauto.
Qed.

Lemma fetch_comment_replies_sends cid vid cursor uid st r st' :
  fetch_comment_replies cid vid cursor uid st = Some (r, st') ->
  exists rest, st_trace st' = st_trace st ++ EvGet (reply_request cid vid cursor) :: rest.
Proof.
  unfold fetch_comment_replies, bind. intros H.
  destruct (get_request_data_async _ _ _ _ st) as [[[data | e] s1] |] eqn:Hget;
    [| | discriminate].
  - apply get_request_data_async_sends in Hget.
    assert (st' = s1) as ->; [| exact Hget].
    unfold lift, ret in H.
    repeat match type of H with
           | context [match ?x with Ret _ => _ | Raise _ => _ end] => destruct x
           end; inversion H; reflexivity.
  - inversion H; subst. apply get_request_data_async_sends in Hget. exact Hget.
Qed.

End Replies.

Section ReplySource.
Context `{P : Platform}.

Lemma replies_loop_fetched fuel cid vid uid : forall replies cursor st v st',
  extract_comment_replies_loop fuel cid vid uid replies cursor st = Some (Ret v, st') ->
  exists fetched, v = VList (replies ++ fetched) /\ Forall (tagged uid) fetched.
Proof.
  induction fuel as [| n IH]; intros replies cursor st v st' H; simpl in H.
  - discriminate.
  - bind_run H r s1 Hfetch. destruct r as [batch next]. simpl in H.
    apply fetch_comment_replies_inv in Hfetch as [Hbatch _].
    destruct batch as [| b batch].
    + apply ret_Some in H as [H _]. inversion H. exists []. split.
      * now rewrite app_nil_r.
      * constructor.
    + bind_lift H next' Hadd.
      apply IH in H as (fetched & -> & Hfetched).
      exists ((b :: batch) ++ fetched). split.
      * now rewrite app_assoc.
      * apply Forall_app. auto.
Qed.

Lemma replies_loop_sends n cid vid uid replies cursor st r st' :
  extract_comment_replies_loop (S n) cid vid uid replies cursor st = Some (r, st') ->
  exists rest,
    st_trace st' = st_trace st
      ++ EvGet (reply_request cid vid (py_str repr_other cursor)) :: rest.
Proof.
  simpl. intros H.
  apply bind_Some in H as [(p & s1 & Hfetch & H) | (e & Hfetch & _)].
  - apply fetch_comment_replies_sends in Hfetch as [rest Hrest].
    assert (Hext : trace_extends s1 st').
    { destruct (fst p).
      - apply ret_Some in H as [_ ->]. apply trace_extends_refl.
      - apply bind_Some in H as [(x & s2 & Hl & H) | (e & Hl & _)];
          apply lift_Some in Hl as [_ ->].
        + eapply (preserves_extract_comment_replies_loop trace_extends);
            [ exact trace_extends_refl | exact trace_extends_trans
            | exact trace_extends_log | exact trace_extends_get | exact H ].
        + apply trace_extends_refl. }
    destruct Hext as [rest' Hext]. exists (rest ++ rest').
    rewrite Hext, Hrest. now rewrite <- app_assoc.
  - now apply fetch_comment_replies_sends in Hfetch.
Qed.

Lemma fetch_comment_replies_total cid vid cursor uid st :
  exists r st', fetch_comment_replies cid vid cursor uid st = Some (r, st').
Proof.
  unfold fetch_comment_replies, bind.
  destruct (get_request_data_async_total "https://www.tiktok.com/api/comment/list/reply/"
              (VDict headers) (VDict cookies)
              (VDict (<["cursor" := VStr cursor]>
                        (<["item_id" := vid]> (<["comment_id" := cid]> params_reply)))) st)
    as ([data | e] & s1 & ->); [| eauto].
  unfold lift, ret.
  repeat match goal with
         | |- context [match ?x with Ret _ => _ | Raise _ => _ end] => destruct x
         end; eauto.
Qed.

(** One round of the reply loop, by what its fetch gave. *)
Lemma replies_loop_step n cid vid uid replies cursor st page st1 :
  fetch_comment_replies cid vid (py_str repr_other cursor) uid st = Some (page, st1) ->
  extract_comment_replies_loop (S n) cid vid uid replies cursor st
  = match page with
    | Raise e => Some (Raise e, st1)
    | Ret ([], _) => Some (Ret (VList replies), st1)
    | Ret (batch, next) =>
        match py_add next (VInt 1) with
        | Ret next' => extract_comment_replies_loop n cid vid uid (replies ++ batch) next' st1
        | Raise e => Some (Raise e, st1)
        end
    end.
Proof.
  intros Hfetch. simpl. rewrite (bind_Some_eq _ _ _ _ _ Hfetch).
  destruct page as [[[| b batch] next] | e]; try reflexivity;
    simpl; unfold bind, lift; now destruct (py_add next (VInt 1)).
Qed.

(** A list that the loop returns is the accumulator followed by the batches
    of the pages it fetched. *)
Lemma replies_loop_pages fuel cid vid uid : forall replies cursor st v st',
  extract_comment_replies_loop fuel cid vid uid replies cursor st = Some (Ret v, st') ->
  exists batches,
    reply_pages cid vid uid cursor st batches st'
    /\ v = VList (replies ++ concat batches)
    /\ (length batches < fuel)%nat.
Proof.
  induction fuel as [| n IH]; intros replies cursor st v st' H; [discriminate |].
  destruct (fetch_comment_replies_total cid vid (py_str repr_other cursor) uid st)
    as (page & st1 & Hfetch).
  rewrite (replies_loop_step _ _ _ _ _ _ _ _ _ Hfetch) in H.
  destruct page as [[[| b batch] next] | e]; [| | discriminate].
  - inversion H; subst. exists []. split; [econstructor; eassumption |].
    split; [simpl; now rewrite app_nil_r | simpl; lia].
  - destruct (py_add next (VInt 1)) as [next' |] eqn:Hadd; [| discriminate].
    apply IH in H as (batches & Hpages & -> & Hlen).
    exists ((b :: batch) :: batches). split.
    + econstructor; try eassumption. discriminate.
    + split; [simpl; now rewrite <- app_assoc | simpl; lia].
Qed.

(** And with fuel for one round more than there are batches, the loop
    returns them. *)
Lemma reply_pages_returned cid vid uid cursor st batches st' :
  reply_pages cid vid uid cursor st batches st' ->
  forall fuel replies,
    (length batches < fuel)%nat ->
    extract_comment_replies_loop fuel cid vid uid replies cursor st
    = Some (Ret (VList (replies ++ concat batches)), st').
Proof.
  induction 1 as [cursor st next st1 Hfetch
                 | cursor st batch next st1 next' batches st' Hfetch Hne Hadd _ IH];
    intros fuel replies Hlen.
  - destruct fuel as [| n]; [simpl in Hlen; lia |].
    rewrite (replies_loop_step _ _ _ _ _ _ _ _ _ Hfetch). simpl. now rewrite app_nil_r.
  - destruct fuel as [| n]; [simpl in Hlen; lia |].
    rewrite (replies_loop_step _ _ _ _ _ _ _ _ _ Hfetch).
    destruct batch as [| b batch]; [congruence |].
    rewrite Hadd. rewrite IH by (simpl in Hlen; lia). simpl. now rewrite <- app_assoc.
Qed.

Lemma reply_pages_tagged cid vid uid cursor st batches st' :
  reply_pages cid vid uid cursor st batches st' -> Forall (Forall (tagged uid)) batches.
Proof.
  induction 1 as [| cursor st batch next st1 next' batches st' Hfetch _ _ _ IH];
    constructor; [| exact IH].
  now apply fetch_comment_replies_inv in Hfetch as [Hbatch _].
Qed.

(** C5.  When the stated reply count of a comment is at most 4,
    [extract_comment_replies] returns the comment's inline reply list ([[]]
    when it has none) and leaves the state as it was: no request, no log
    line.  When the count is above 4, the call is the paginated loop from
    the empty list and the cursor 0, and the inline list plays no part (any
    other inline list gives the same run).  The fetch of the first reply
    page, with cursor "0", takes place: it returns or raises, its GET is in
    the trace, and every run on some fuel goes on from the state it leaves,
    by what it gave.  The list that a run returns is the concatenation of
    the batches of the pages fetched, every reply of it marked by
    [fetch_comment_replies]; and with fuel for one round more than there
    are non-empty pages the run does return that list. *)
Theorem replies_inline_or_fetched fuel (d : gmap string pyval) uid st few :
  py_le_int (default (VInt 0) (d !! "reply_comment_total")) 4 = Ret few ->
  let cid := default (VStr "") (d !! "cid") in
  let vid := default (VStr "") (d !! "aweme_id") in
  if few then
    extract_comment_replies fuel (VDict d) uid st
    = Some (Ret (default (VList []) (d !! "reply_comment")), st)
  else
    extract_comment_replies fuel (VDict d) uid st
    = extract_comment_replies_loop fuel cid vid uid [] (VInt 0) st
    /\ (forall inline,
          extract_comment_replies fuel (VDict (<["reply_comment" := inline]> d)) uid st
          = extract_comment_replies fuel (VDict d) uid st)
    /\ (exists page st1 logs,
          fetch_comment_replies cid vid "0" uid st = Some (page, st1)
          /\ st_trace st1 = st_trace st ++ EvGet (reply_request cid vid "0") :: logs
          /\ forall n,
               extract_comment_replies (S n) (VDict d) uid st
               = match page with
                 | Raise e => Some (Raise e, st1)
                 | Ret ([], _) => Some (Ret (VList []), st1)
                 | Ret (batch, next) =>
                     match py_add next (VInt 1) with
                     | Ret next' =>
                         extract_comment_replies_loop n cid vid uid batch next' st1
                     | Raise e => Some (Raise e, st1)
                     end
                 end)
    /\ (forall v st',
          extract_comment_replies fuel (VDict d) uid st = Some (Ret v, st') ->
          exists batches,
            reply_pages cid vid uid (VInt 0) st batches st'
            /\ v = VList (concat batches)
            /\ Forall (Forall (tagged uid)) batches
            /\ (length batches < fuel)%nat)
    /\ (forall batches st',
          reply_pages cid vid uid (VInt 0) st batches st' ->
          (length batches < fuel)%nat ->
          extract_comment_replies fuel (VDict d) uid st
          = Some (Ret (VList (concat batches)), st'))
    /\ (forall r st',
          extract_comment_replies fuel (VDict d) uid st = Some (r, st') ->
          (exists rest,
              st_trace st' = st_trace st ++ EvGet (reply_request cid vid "0") :: rest)
          /\ forall v, r = Ret v ->
               exists fetched, v = VList fetched /\ Forall (tagged uid) fetched).
Proof.
  intros Hfew cid vid.
  assert (Hrun : forall fuel' (d' : gmap string pyval),
             d' !! "cid" = d !! "cid" ->
             d' !! "aweme_id" = d !! "aweme_id" ->
             d' !! "reply_comment_total" = d !! "reply_comment_total" ->
             extract_comment_replies fuel' (VDict d') uid st
             = if few then Some (Ret (default (VList []) (d' !! "reply_comment")), st)
               else extract_comment_replies_loop fuel' cid vid uid [] (VInt 0) st).
  { intros fuel' d' Hc Hv Ht. unfold extract_comment_replies, bind, lift, py_get.
    rewrite Hc, Hv, Ht.
    replace (match d !! "reply_comment_total" with Some x => x | None => VInt 0 end)
      with (default (VInt 0) (d !! "reply_comment_total"))
      by (now destruct (d !! "reply_comment_total")).
    rewrite Hfew. unfold cid, vid.
    destruct few.
    - now destruct (d' !! "reply_comment").
    - now destruct (d !! "cid"), (d !! "aweme_id"). }
  destruct few; [now rewrite Hrun |].
  split; [now apply Hrun |]. split; [| split; [| split; [| split]]].
  - intros inline. rewrite (Hrun fuel d) by reflexivity.
    apply Hrun; now rewrite lookup_insert_ne.
  - destruct (fetch_comment_replies_total cid vid "0" uid st) as (page & st1 & Hfetch).
    destruct (fetch_comment_replies_sends _ _ _ _ _ _ _ Hfetch) as [logs Hlogs].
    exists page, st1, logs. split; [exact Hfetch |]. split; [exact Hlogs |].
    intros n. rewrite (Hrun (S n) d) by reflexivity.
    apply (replies_loop_step n cid vid uid [] (VInt 0) st page st1 Hfetch).
  - intros v st'. rewrite (Hrun fuel d) by reflexivity. intros H.
    apply replies_loop_pages in H as (batches & Hpages & -> & Hlen).
    exists batches. split; [exact Hpages |]. split; [reflexivity |].
    split; [now apply reply_pages_tagged in Hpages | exact Hlen].
  - intros batches st' Hpages Hlen. rewrite (Hrun fuel d) by reflexivity.
    apply (reply_pages_returned _ _ _ _ _ _ _ Hpages fuel [] Hlen).
  - intros r st'. rewrite (Hrun fuel d) by reflexivity. intros H. split.
    + destruct fuel as [| n]; [discriminate |].
      apply replies_loop_sends in H. exact H.
    + intros v ->. apply replies_loop_fetched in H as (fetched & -> & Hf).
      eauto.
Qed.

(** C6, as the code has it.  After a fetch that returned a non-empty batch
    and the cursor [next], the loop computes [next + 1]: it goes on with that
    value, or ends with the exception the addition raises.  [next] is the
    [cursor] entry of the parsed response, or [''] when it has none.  On a
    string the addition raises [TypeError]; on an integer [k] it gives
    [k + 1], and the following fetch is sent with its decimal text. *)
Theorem reply_cursor_advance n cid vid uid replies cursor st batch next st1 :
  fetch_comment_replies cid vid (py_str repr_other cursor) uid st
  = Some (Ret (batch, next), st1) ->
  batch <> [] ->
  extract_comment_replies_loop (S n) cid vid uid replies cursor st
  = match py_add next (VInt 1) with
    | Ret next' =>
        extract_comment_replies_loop n cid vid uid (replies ++ batch) next' st1
    | Raise e => Some (Raise e, st1)
    end
  /\ (exists txt reply_data,
         json_loads txt = Some (VDict reply_data)
         /\ next = default (VStr "") (reply_data !! "cursor"))
  /\ (forall s, next = VStr s -> py_add next (VInt 1) = Raise TypeError)
  /\ (forall k, next = VInt k ->
        py_add next (VInt 1) = Ret (VInt (k + 1))
        /\ py_str repr_other (VInt (k + 1)) = decimal (k + 1)).
Proof.
  intros Hfetch Hne. split; [| split; [| split]].
  - simpl. rewrite (bind_Ret _ _ _ _ _ Hfetch). simpl.
    destruct batch as [| b batch]; [congruence |].
    unfold bind, lift. now destruct (py_add next (VInt 1)).
  - now apply fetch_comment_replies_inv in Hfetch as [_ H].
  - now intros s ->.
  - now intros k ->.
Qed.

(** The mark on the comments of a batch: [is_author_reply] of each processed
    comment holds whether its author identifier equals [uid]. *)
Lemma process_comments_tagged fuel uid : forall comments st out st',
  process_comments fuel uid comments st = Some (Ret out, st') ->
  Forall2 (fun c o => exists author,
               author_of c = Ret author
               /\ py_getitem o "is_author_reply" = Ret (VBool (py_eq author uid)))
          comments out.
Proof.
  induction comments as [| c rest IH]; intros st out st' H; simpl in H.
  - apply ret_Some in H as [H _]. inversion H. constructor.
  - bind_lift H author Hauthor.
    bind_lift H marked Hmarked.
    bind_run H replies s1 Hreplies.
    bind_lift H final Hfinal.
    bind_run H rest' s2 Hrest.
    apply ret_Some in H as [H _]. inversion H; subst out.
    constructor; [| eapply IH; eassumption].
    exists author. split; [assumption |].
    destruct c; simpl in Hmarked; try discriminate.
    inversion Hmarked; subst marked. simpl in Hfinal. inversion Hfinal; subst final.
    simpl. rewrite lookup_insert_ne by discriminate.
    now rewrite lookup_insert_eq.
Qed.

End ReplySource.

(* ===================================================================== *)
(** ** Comment pages *)
(* ===================================================================== *)

Section Comments.
Context `{P : Platform}.

(** The two ways one iteration of the comment loop can go: the batch was
    fetched, or fetching it raised and the handler logged the error. *)
Lemma extract_comments_step_cases inner vid uid total cursor st r st1 :
  extract_comments_step inner vid uid total cursor st = Some (r, st1) ->
  (exists batch,
      extract_comment_batch inner (comment_params vid cursor) uid st = Some (Ret batch, st1)
      /\ r = Ret (match batch with
                  | [] => Break (total, cursor)
                  | _ :: _ =>
                      if 100 <=? Z.of_nat (length (total ++ batch))
                      then Break (total ++ batch, cursor + 20)
                      else Continue (total ++ batch, cursor + 20)
                  end))
  \/ (exists e s,
         extract_comment_batch inner (comment_params vid cursor) uid st = Some (Raise e, s)
         /\ st1 = add_event (EvLog ERROR "TikTokScraper" "Comment extraction error") s
         /\ r = Ret (Break (total, cursor))).
Proof.
  unfold extract_comments_step, try_except, bind.
  destruct (extract_comment_batch _ _ _ st) as [[[batch | e] s] |]; [| | discriminate].
  - intros H. left. exists batch.
    destruct batch as [| c batch].
    + inversion H. auto.
    + destruct (100 <=? Z.of_nat (length (total ++ c :: batch))); inversion H; auto.
  - intros H. right. exists e, s. inversion H. auto.
Qed.

(** The comment loop ends with the first empty page: the result is the
    accumulator and the state is the one the fetch of that page left. *)
Lemma comments_stop_at_empty_page inner n vid uid total cursor st st1 :
  extract_comment_batch inner (comment_params vid cursor) uid st = Some (Ret [], st1) ->
  extract_comments_loop inner (S n) vid uid total cursor st = Some (Ret total, st1).
Proof.
  intros H. simpl. unfold extract_comments_step, try_except, bind. now rewrite H.
Qed.

(** So does the reply loop. *)
Lemma replies_stop_at_empty_page n cid vid uid replies cursor st next st1 :
  fetch_comment_replies cid vid (py_str repr_other cursor) uid st = Some (Ret ([], next), st1) ->
  extract_comment_replies_loop (S n) cid vid uid replies cursor st
  = Some (Ret (VList replies), st1).
Proof. intros H. simpl. now rewrite (bind_Ret _ _ _ _ _ H). Qed.

(** C3, as the code has it.  [extract_comments] never raises, and the cap is
    checked after a batch is appended and before the next page is fetched:
    the returned list is shorter than 100, or it is an accumulator shorter
    than 100 followed by one whole batch, and the run ended in the state the
    fetch of that batch left.  The batch is not cut: when no page holds more
    than 20 comments the list has at most 119. *)
Theorem comments_cap_checked_before_next_fetch inner fuel vid uid :
  forall total cursor st r st',
    extract_comments_loop inner fuel vid uid total cursor st = Some (r, st') ->
    (length total < 100)%nat ->
    exists l,
      r = Ret l
      /\ ((length l < 100)%nat
          \/ exists pre batch cur st1,
               l = pre ++ batch
               /\ (length pre < 100)%nat
               /\ extract_comment_batch inner (comment_params vid cur) uid st1
                  = Some (Ret batch, st'))
      /\ ((forall cur st1 batch st2,
              extract_comment_batch inner (comment_params vid cur) uid st1
              = Some (Ret batch, st2) ->
              (length batch <= 20)%nat) ->
          (length l <= 119)%nat).
Proof.
  assert (Hbound : forall (l : list pyval) st',
             ((length l < 100)%nat
              \/ exists pre batch cur st1,
                   l = pre ++ batch
                   /\ (length pre < 100)%nat
                   /\ extract_comment_batch inner (comment_params vid cur) uid st1
                      = Some (Ret batch, st')) ->
             (forall cur st1 batch st2,
                 extract_comment_batch inner (comment_params vid cur) uid st1
                 = Some (Ret batch, st2) ->
                 (length batch <= 20)%nat) ->
             (length l <= 119)%nat).
  { intros l st' [Hshort | (pre & batch & cur & st1 & -> & Hpre & Hbatch)] Hpage.
    - lia.
    - apply Hpage in Hbatch. rewrite length_app. lia. }
  induction fuel as [| n IH]; intros total cursor st r st' H Hlen; simpl in H.
  - discriminate.
  - apply bind_Some in H as [(s & st1 & Hstep & H) | (e & Hstep & _)].
    + apply extract_comments_step_cases in Hstep
        as [(batch & Hbatch & Hs) | (e & s0 & Hbatch & -> & Hs)];
        inversion Hs; subst s; clear Hs.
      * destruct batch as [| c batch].
        -- apply ret_Some in H as [-> ->]. exists total.
           split; [reflexivity |]. split; [auto |]. intros _. lia.
        -- destruct (100 <=? Z.of_nat (length (total ++ c :: batch))) eqn:Hcap.
           ++ apply ret_Some in H as [-> ->].
              exists (total ++ c :: batch). split; [reflexivity |].
              assert (Hsplit : exists pre batch0 cur s0,
                         total ++ c :: batch = pre ++ batch0
                         /\ (length pre < 100)%nat
                         /\ extract_comment_batch inner (comment_params vid cur) uid s0
                            = Some (Ret batch0, st1))
                by (exists total, (c :: batch), cursor, st; auto).
              split; [right; exact Hsplit |].
              apply (Hbound _ st1). right. exact Hsplit.
           ++ apply IH in H; [exact H |]. apply Z.leb_gt in Hcap. lia.
      * apply ret_Some in H as [-> ->]. exists total.
        split; [reflexivity |]. split; [auto |]. intros _. lia.
    + apply extract_comments_step_cases in Hstep
        as [(batch & _ & Hs) | (e' & s0 & _ & _ & Hs)]; discriminate.
Qed.

End Comments.

(* ===================================================================== *)
(** ** One search item *)
(* ===================================================================== *)

Section VideoProcessor.
Context `{P : Platform}.

(** A failed fetch is [None] to the caller, and [None] does not parse. *)
Lemma get_request_data_async_failure url hdrs cks params st resp w :
  client_get {| rq_url := url; rq_headers := hdrs; rq_cookies := cks; rq_params := params |}
             (st_world st) = (resp, w) ->
  match resp with
  | Ret r => status_code r <> 200
  | Raise e => e = HTTPError
  end ->
  exists st1, get_request_data_async url hdrs cks params st = Some (Ret VNone, st1).
Proof.
  intros Hget Hfail.
  unfold get_request_data_async, try_except, bind, http_get. rewrite Hget.
  destruct resp as [r | e]; simpl.
  - apply Z.eqb_neq in Hfail. rewrite Hfail. simpl. eauto.
  - subst e. simpl. eauto.
Qed.

(** Any other exception of the client passes through. *)
Lemma get_request_data_async_raises url hdrs cks params st e w :
  client_get {| rq_url := url; rq_headers := hdrs; rq_cookies := cks; rq_params := params |}
             (st_world st) = (Raise e, w) ->
  e <> HTTPError ->
  exists st1, get_request_data_async url hdrs cks params st = Some (Raise e, st1).
Proof.
  intros Hget Hne.
  unfold get_request_data_async, try_except, bind, http_get. rewrite Hget.
  destruct e; simpl; eauto. congruence.
Qed.

(** How a run of [get_author_metadata] goes, by the result of its fetch. *)
Lemma get_author_metadata_run id st :
  get_author_metadata id st
  = match get_request_data_async (rq_url (profile_request id ∅)) (VDict headers)
            (VDict cookies) (VDict (st_params_keyword st)) st with
    | None => None
    | Some (Ret page, st1) =>
        match parse_stats page with
        | Ret stats => Some (Ret stats, st1)
        | Raise _ => Some (Ret (VDict ∅), add_event metadata_error st1)
        end
    | Some (Raise _, st1) => Some (Ret (VDict ∅), add_event metadata_error st1)
    end.
Proof.
  unfold get_author_metadata, author_metadata_body, try_except, bind,
    get_params_keyword, parse_stats. simpl.
  destruct (get_request_data_async _ _ _ _ st) as [[[page | e] st1] |]; try reflexivity.
  unfold lift.
  destruct (re_search_stats page) as [m |]; simpl; [| reflexivity].
  destruct (match_group0 m) as [g |]; simpl; [| reflexivity].
  now destruct (py_json_loads (VStr (String.append g "}"))).
Qed.

(** C8.  [get_author_metadata] always returns a value, never an exception:
    the parsed stats when the page was fetched and parsed, and the empty
    dict on every failure: the client raised, the status was not 200, the
    page has no anchor, the fragment after it is not JSON.  With the empty
    dict for the stats, the record built by [process_video_item] has the
    author dict of the item as its [author] and the rate computed before as
    its [engagement_rate]. *)
Theorem get_author_metadata_never_fails id st :
  (exists v st',
      get_author_metadata id st = Some (Ret v, st')
      /\ (forall page st1,
             get_request_data_async (rq_url (profile_request id ∅)) (VDict headers)
               (VDict cookies) (VDict (st_params_keyword st)) st = Some (Ret page, st1) ->
             match parse_stats page with
             | Ret stats => v = stats
             | Raise _ => v = VDict ∅
             end)
      /\ (forall resp w,
             client_get (profile_request id (st_params_keyword st)) (st_world st) = (resp, w) ->
             match resp with
             | Ret r => status_code r <> 200
             | Raise _ => True
             end ->
             v = VDict ∅)
      /\ (forall r w s,
             client_get (profile_request id (st_params_keyword st)) (st_world st)
             = (Ret r, w) ->
             status_code r = 200 ->
             text r = s ->
             match text_after stats_anchor s with
             | None => v = VDict ∅
             | Some rest =>
                 match json_loads (String.append (span_no_brace rest) "}") with
                 | None => v = VDict ∅
                 | Some stats => v = stats
                 end
             end))
  /\ (forall item rate rec,
         build_record item rate (VDict ∅) = Ret rec ->
         exists base,
           py_getitem item "author" = Ret (VDict base)
           /\ rec !! "author" = Some (VDict base)
           /\ rec !! "engagement_rate" = Some rate).
Proof.
  split.
  - assert (Hv : exists v st',
               get_author_metadata id st = Some (Ret v, st')
               /\ (forall page st1,
                      get_request_data_async (rq_url (profile_request id ∅)) (VDict headers)
                        (VDict cookies) (VDict (st_params_keyword st)) st
                      = Some (Ret page, st1) ->
                      match parse_stats page with
                      | Ret stats => v = stats
                      | Raise _ => v = VDict ∅
                      end)
               /\ (forall e st1,
                      get_request_data_async (rq_url (profile_request id ∅)) (VDict headers)
                        (VDict cookies) (VDict (st_params_keyword st)) st
                      = Some (Raise e, st1) ->
                      v = VDict ∅)).
    { rewrite get_author_metadata_run.
      destruct (get_request_data_async_total (rq_url (profile_request id ∅)) (VDict headers)
                  (VDict cookies) (VDict (st_params_keyword st)) st) as (r & st1 & Hget).
      rewrite Hget. destruct r as [page | e].
      - destruct (parse_stats page) as [stats | e] eqn:Hparse.
        + exists stats, st1. split; [reflexivity | split].
          * intros page' st1' H. inversion H; subst. now rewrite Hparse.
          * intros e st1' H. discriminate.
        + exists (VDict ∅), (add_event metadata_error st1). split; [reflexivity | split].
          * intros page' st1' H. inversion H; subst. now rewrite Hparse.
          * reflexivity.
      - exists (VDict ∅), (add_event metadata_error st1). split; [reflexivity | split].
        + intros page st1' H. discriminate.
        + reflexivity. }
    destruct Hv as (v & st' & Hrun & Hpage & Hexn).
    exists v, st'. split; [exact Hrun |]. split; [exact Hpage |]. split.
    + intros resp w Hclient Hfail.
      destruct resp as [r | e].
      * destruct (get_request_data_async_failure _ _ _ _ st (Ret r) w Hclient Hfail)
          as [st1 Hget].
        now apply Hpage in Hget.
      * destruct e;
          try (destruct (get_request_data_async_raises _ _ _ _ st _ w Hclient
                           ltac:(discriminate)) as [st1 Hget];
               now apply Hexn in Hget).
        destruct (get_request_data_async_failure _ _ _ _ st (Raise HTTPError) w Hclient
                    eq_refl) as [st1 Hget].
        now apply Hpage in Hget.
    + intros r w s Hclient Hok Htext.
      assert (Hget : exists st1,
                 get_request_data_async (rq_url (profile_request id ∅)) (VDict headers)
                   (VDict cookies) (VDict (st_params_keyword st)) st
                 = Some (Ret (VStr s), st1)).
      { unfold get_request_data_async, try_except, bind, http_get.
        change {| rq_url := rq_url (profile_request id ∅); rq_headers := VDict headers;
                  rq_cookies := VDict cookies;
                  rq_params := VDict (st_params_keyword st) |}
          with (profile_request id (st_params_keyword st)).
        rewrite Hclient. apply Z.eqb_eq in Hok. rewrite Hok. simpl.
        rewrite Htext. eauto. }
      destruct Hget as [st1 Hget]. apply Hpage in Hget.
      unfold parse_stats in Hget. simpl in Hget.
      destruct (text_after stats_anchor s) as [rest |]; simpl in Hget; [| exact Hget].
      now destruct (json_loads (String.append (span_no_brace rest) "}")).
  - intros item rate rec H. unfold build_record in H.
    destruct (py_getitem item "author") as [author |] eqn:Ha; simpl in H; [| discriminate].
    destruct author; simpl in H; try discriminate.
    repeat match type of H with
           | obind ?x _ = _ => destruct x; simpl in H; [| discriminate]
           end.
    inversion H; subst rec. exists d. split; [reflexivity | split].
    + rewrite (left_id_L ∅ (∪)). reflexivity.
    + reflexivity.
Qed.

End VideoProcessor.

Section VideoItem.
Context `{P : Platform}.

Lemma input_data_to_api_total url body st :
  exists r st', input_data_to_api url body st = Some (r, st').
Proof.
  unfold input_data_to_api, try_except, bind, http_post.
  destruct (requests_post _ body (st_world st)) as [[resp | e] w]; simpl.
  - destruct (status_code resp =? 200); simpl; eauto.
    destruct (status_code resp =? 422); simpl; eauto.
  - destruct e; simpl; eauto.
Qed.

(** The Persister step always returns, and never with an exception. *)
Lemma save_video_data_total item st :
  exists st', save_video_data item st = Some (Ret tt, st').
Proof.
  unfold save_video_data, _save_video_sync, try_except, bind, lift, push_data_to_api, bind.
  destruct (fill_profile_data item) as [json_data | e]; simpl; [| eauto].
  destruct (input_data_to_api_total "https://dev.quokkaai.org/api/v1/influencers/"
              json_data st) as ([v | e] & st1 & ->); simpl; [| eauto].
  destruct (py_getitem item "id"); simpl; eauto.
Qed.

Lemma raises_quietly_bind {A B} (m : M A) (k : A -> M B) :
  preserves same_pushes m -> (forall a, raises_quietly (k a)) -> raises_quietly (bind m k).
Proof.
  intros Hm Hk st e st1 H.
  apply bind_Some in H as [(a & s & Hrun & H) | (e' & Hrun & _)].
  - eapply same_pushes_trans; [eapply Hm | eapply Hk]; eauto.
  - eapply Hm; eauto.
Qed.

Lemma raises_quietly_save item : raises_quietly (save_video_data item).
Proof.
  intros st e st1 H.
  destruct (save_video_data_total item st) as [st' H']. congruence.
Qed.

Ltac quiet :=
  first [ apply preserves_lift; exact same_pushes_refl
        | apply preserves_get_author_metadata;
          [ exact same_pushes_refl | exact same_pushes_trans
          | exact same_pushes_log | exact same_pushes_get ]
        | apply preserves_extract_comments;
          [ exact same_pushes_refl | exact same_pushes_trans
          | exact same_pushes_log | exact same_pushes_get ] ].

Lemma process_video_body_raises_quietly fuel item :
  raises_quietly (process_video_body fuel item).
Proof.
  unfold process_video_body.
  repeat (apply raises_quietly_bind; [quiet | intros ?]).
  apply raises_quietly_save.
Qed.

Lemma process_video_item_returns fuel item st r st' :
  process_video_item fuel item st = Some (r, st') -> r = Ret tt.
Proof.
  intros H. unfold process_video_item in H.
  apply try_except_Some in H as [([] & _ & ->) | (e & st1 & _ & H)]; [reflexivity |].
  now inversion H.
Qed.

(** C7.  A run of [process_video_item] never ends with an exception.  When
    its body raises, the handler logs the error and the call returns; up to
    that point the body has sent no POST, so the Persister has received
    nothing for this item. *)
Theorem process_video_item_never_raises fuel item st :
  (forall r st', process_video_item fuel item st = Some (r, st') -> r = Ret tt)
  /\ (forall e st1,
         process_video_body fuel item st = Some (Raise e, st1) ->
         process_video_item fuel item st = Some (Ret tt, add_event processing_error st1)
         /\ pushes (st_trace (add_event processing_error st1)) = pushes (st_trace st)).
Proof.
  split.
  - intros r st'. apply process_video_item_returns.
  - intros e st1 Hbody. split.
    + unfold process_video_item, try_except. now rewrite Hbody.
    + apply process_video_body_raises_quietly in Hbody.
      unfold same_pushes in Hbody. simpl. rewrite pushes_app, Hbody. apply app_nil_r.
Qed.

End VideoItem.

(* ===================================================================== *)
(** ** The search loop *)
(* ===================================================================== *)

Section Orchestrator.
Context `{P : Platform}.

Lemma process_video_item_same_self fuel item : preserves same_self (process_video_item fuel item).
Proof.
  apply preserves_process_video_item;
    [ exact same_self_refl | exact same_self_trans | exact same_self_log
    | exact same_self_get | exact same_self_post ].
Qed.

Lemma search_fetch_parse_same_self : preserves same_self search_fetch_parse.
Proof.
  unfold search_fetch_parse.
  intros st r st' H. unfold bind, get_self, get_params_keyword, set_params_keyword in H.
  simpl in H.
  match type of H with
  | context [get_request_data_async ?u ?h ?c ?p ?s] =>
      destruct (get_request_data_async u h c p s) as [[[data | e] s1] |] eqn:Hget
  end; [| | discriminate].
  - assert (Hs : same_self st s1).
    { apply (preserves_get_request_data_async same_self same_self_refl same_self_trans
               same_self_log same_self_get) in Hget. exact Hget. }
    assert (st' = s1) as ->; [| exact Hs].
    unfold lift in H.
    repeat match type of H with
           | context [match ?x with Ret _ => _ | Raise _ => _ end] => destruct x
           end; now inversion H.
  - inversion H; subst.
    apply (preserves_get_request_data_async same_self same_self_refl same_self_trans
             same_self_log same_self_get) in Hget. exact Hget.
Qed.

Lemma for_each_never_raises {A} (f : A -> M unit) l :
  (forall x st r st', f x st = Some (r, st') -> r = Ret tt) ->
  forall st r st', for_each f l st = Some (r, st') -> r = Ret tt.
Proof.
  intros Hf. induction l as [| x l IH]; simpl; intros st r st' H.
  - now apply ret_Some in H as [-> _].
  - apply bind_Some in H as [(a & s & _ & H) | (e & Hx & _)].
    + eapply IH; eauto.
    + apply Hf in Hx. discriminate.
Qed.

Lemma gather_same_self fuel items :
  preserves same_self (for_each (process_video_item fuel) items).
Proof.
  apply preserves_for_each; [exact same_self_refl | exact same_self_trans |].
  intros x. apply process_video_item_same_self.
Qed.

(** One iteration from a state whose accumulator is empty and whose target
    is positive: either the fetch-and-parse step raised and the loop is left,
    or the loop goes round again, the accumulator still empty. *)
Lemma extract_influencers_step_cases inner st r st' :
  total_data (st_self st) = [] ->
  0 < max_influencers (st_self st) ->
  extract_influencers_step inner st = Some (r, st') ->
  (exists e st2,
      search_fetch_parse st = Some (Raise e, st2)
      /\ st' = add_event extraction_error st2
      /\ r = Ret (Break tt))
  \/ (r = Ret (Continue tt)
      /\ exists items st1 st2,
           search_fetch_parse st = Some (Ret items, st1)
           /\ for_each (process_video_item inner) items st1 = Some (Ret tt, st2)
           /\ st' = with_self (next_page (st_self st)) st2).
Proof.
  intros Hempty Hmax H. unfold extract_influencers_step in H.
  apply try_except_Some in H as [(a & H & ->) | (e & st1 & H & Hh)].
  - right.
    bind_run H items s1 Hsearch.
    bind_run H u s2 Hgather.
    assert (Hself : st_self s2 = st_self st).
    { apply search_fetch_parse_same_self in Hsearch.
      apply gather_same_self in Hgather. unfold same_self in *. congruence. }
    unfold bind, get_self in H. rewrite Hself, Hempty in H. simpl in H.
    change (Z.of_nat 0) with 0 in H.
    destruct (max_influencers (st_self st) <=? 0) eqn:Hcmp.
    { apply Z.leb_le in Hcmp. lia. }
    unfold set_self, ret in H. inversion H; subst. split; [reflexivity |].
    destruct u. exists items, s1, s2. repeat split; try assumption.
    unfold with_self, next_page. now rewrite Hempty.
  - left.
    apply bind_Some in H as [(items & s1 & Hsearch & H) | (e' & Hsearch & He)].
    + exfalso.
      apply bind_Some in H as [(u & s2 & Hgather & H) | (e' & Hgather & _)].
      * unfold bind, get_self in H.
        destruct (max_influencers (st_self s2) <=? _); inversion H.
      * eapply for_each_never_raises in Hgather; [discriminate |].
        intros x s r0 s'. apply process_video_item_returns.
    + inversion He; subst e'. exists e, st1.
      inversion Hh. auto.
Qed.

(** The search loop goes on after an empty page: when the page just fetched
    has no items and the accumulator is below the target, the next iteration
    starts from the state the fetch left, with the offset moved on. *)
Lemma search_continues_after_empty_page inner n st st1 :
  search_fetch_parse st = Some (Ret [], st1) ->
  Z.of_nat (length (total_data (st_self st))) < max_influencers (st_self st) ->
  extract_influencers_loop inner (S n) st
  = extract_influencers_loop inner n (with_self (next_page (st_self st)) st1).
Proof.
  intros Hsearch Hlt. simpl.
  unfold bind at 1. unfold get_self at 1.
  apply Z.ltb_lt in Hlt. rewrite Hlt.
  assert (Hself : st_self st1 = st_self st) by (now apply search_fetch_parse_same_self in Hsearch).
  assert (Hstep : extract_influencers_step inner st
                  = Some (Ret (Continue tt), with_self (next_page (st_self st)) st1)).
  { unfold extract_influencers_step, try_except.
    rewrite (bind_Ret _ _ _ _ _ Hsearch). simpl.
    unfold bind, ret, get_self, set_self. rewrite Hself.
    apply Z.ltb_lt in Hlt.
    destruct (max_influencers (st_self st) <=? _) eqn:Hcmp.
    { apply Z.leb_le in Hcmp. lia. }
    reflexivity. }
  now rewrite (bind_Ret _ _ _ _ _ Hstep).
Qed.

(** C10.  No task touches the scraper object, so [total_data] stays as it is
    through every [process_video_item].  Started with an empty accumulator
    and a positive target, a run of the search loop that ends returns the
    empty list, and it ends in the handler of the [try]: the fetch-and-parse
    step of its last iteration raised. *)
Theorem total_data_never_filled inner :
  (forall item st r st',
      process_video_item inner item st = Some (r, st') -> st_self st' = st_self st)
  /\ forall fuel st r st',
       0 < max_influencers (st_self st) ->
       total_data (st_self st) = [] ->
       extract_influencers_loop inner fuel st = Some (r, st') ->
       r = Ret []
       /\ total_data (st_self st') = []
       /\ exists st1 e st2,
            search_fetch_parse st1 = Some (Raise e, st2)
            /\ st' = add_event extraction_error st2.
Proof.
  split.
  - intros item st r st' H. now apply process_video_item_same_self in H.
  - induction fuel as [| n IH]; intros st r st' Hmax Hempty H; simpl in H.
    + discriminate.
    + unfold bind at 1 in H. unfold get_self at 1 in H.
      rewrite Hempty in H. change (Z.of_nat (length [])) with 0 in H.
      destruct (0 <? max_influencers (st_self st)) eqn:Hlt;
        [| apply Z.ltb_ge in Hlt; lia].
      apply bind_Some in H as [(s & st1 & Hstep & H) | (e & Hstep & _)].
      * apply extract_influencers_step_cases in Hstep
          as [(e & st2 & Hsearch & -> & Hs) | (Hs & items & s1 & s2 & Hsearch & Hgather & ->)];
          try assumption; inversion Hs; subst s.
        -- unfold bind, get_self, ret in H. inversion H; subst.
           assert (Hself : st_self st2 = st_self st)
             by (now apply search_fetch_parse_same_self in Hsearch).
           simpl. rewrite Hself, Hempty. eauto 10.
        -- apply IH in H; [exact H | simpl; assumption | simpl; assumption].
      * apply extract_influencers_step_cases in Hstep
          as [(e' & st2 & _ & _ & Hs) | (Hs & _)]; try assumption; discriminate.
Qed.

End Orchestrator.

(* ===================================================================== *)
(** ** Further properties of the loops and of the marks *)
(* ===================================================================== *)

Section Further.
Context `{P : Platform}.

(** X1.  The comment loop and the reply loop end with the first empty page:
    the result is what was collected before it, and the run ends in the
    state that the fetch of the empty page left, so nothing is fetched after
    it. *)
Theorem comment_and_reply_loops_end_at_empty_page :
  (forall inner n vid uid total cursor st st1,
      extract_comment_batch inner (comment_params vid cursor) uid st = Some (Ret [], st1) ->
      extract_comments_loop inner (S n) vid uid total cursor st = Some (Ret total, st1))
  /\ (forall n cid vid uid replies cursor st next st1,
         fetch_comment_replies cid vid (py_str repr_other cursor) uid st
         = Some (Ret ([], next), st1) ->
         extract_comment_replies_loop (S n) cid vid uid replies cursor st
         = Some (Ret (VList replies), st1)).
Proof.
  split.
  - intros. now apply comments_stop_at_empty_page.
  - intros. now apply replies_stop_at_empty_page with (next := next).
Qed.

(** X2.  Every comment of a processed batch and every reply of a fetched
    reply page carries [is_author_reply], and it holds whether the author
    identifier of the comment or reply equals the identifier handed down
    from the video; against a string identifier that is: whether the author
    identifier is that string. *)
Theorem comments_and_fetched_replies_are_tagged :
  (forall fuel uid comments st out st',
      process_comments fuel uid comments st = Some (Ret out, st') ->
      Forall2 (fun c o => exists author,
                   author_of c = Ret author
                   /\ py_getitem o "is_author_reply" = Ret (VBool (py_eq author uid)))
              comments out)
  /\ (forall cid vid cursor uid st batch next st1,
         fetch_comment_replies cid vid cursor uid st = Some (Ret (batch, next), st1) ->
         Forall (fun r => exists d author,
                     author_of (VDict d) = Ret author
                     /\ r = VDict (<["is_author_reply" := VBool (py_eq author uid)]> d)
                     /\ py_getitem r "is_author_reply" = Ret (VBool (py_eq author uid)))
                batch)
  /\ (forall x u, py_eq x (VStr u) = true <-> x = VStr u).
Proof.
  split; [| split].
  - intros fuel uid comments st out st'. apply process_comments_tagged.
  - intros cid vid cursor uid st batch next st1 H.
    apply fetch_comment_replies_inv in H as [H _].
    eapply Forall_impl; [exact H |].
    intros r (d & author & Hauthor & ->). exists d, author.
    split; [exact Hauthor |]. split; [reflexivity |].
    simpl. now rewrite lookup_insert_eq.
  - apply py_eq_str.
Qed.

(** X3.  The comment loop needs at most 100 iterations: when every single
    iteration returns (the reply sequences under it end within the fuel
    [inner]), the loop returns on any fuel that covers what is missing to
    100 comments, and from the empty accumulator on a fuel of 100. *)
Theorem comments_loop_terminates inner vid uid :
  (forall total cursor st,
      extract_comments_step inner vid uid total cursor st <> None) ->
  (forall fuel total cursor st,
      (length total < 100)%nat ->
      (100 <= fuel + length total)%nat ->
      extract_comments_loop inner fuel vid uid total cursor st <> None)
  /\ forall st, extract_comments_loop inner 100 vid uid [] 0 st <> None.
Proof.
  intros Hstep.
  assert (Hloop : forall fuel total cursor st,
             (length total < 100)%nat ->
             (100 <= fuel + length total)%nat ->
             extract_comments_loop inner fuel vid uid total cursor st <> None).
  { induction fuel as [| n IH]; intros total cursor st Hlt Hfuel.
    - simpl in Hfuel. lia.
    - simpl.
      destruct (extract_comments_step inner vid uid total cursor st)
        as [[r st1] |] eqn:Hs; [| now apply Hstep in Hs].
      rewrite (bind_Some_eq _ _ _ _ _ Hs).
      apply extract_comments_step_cases in Hs
        as [(batch & _ & ->) | (e & s0 & _ & _ & ->)]; [| discriminate].
      destruct batch as [| c batch]; [discriminate |].
      destruct (100 <=? Z.of_nat (length (total ++ c :: batch))) eqn:Hcap;
        [discriminate |].
      apply Z.leb_gt in Hcap. apply IH.
      + lia.
      + rewrite length_app in *. simpl in *. lia. }
  split; [exact Hloop |].
  intros st. apply Hloop; simpl; lia.
Qed.

End Further.

(* ===================================================================== *)
(** ** The two fetching helpers *)
(* ===================================================================== *)

Section Transport.
Context `{P : Platform}.

Lemma one_log_after {A} (tr : list A) x y :
  (tr ++ [x]) ++ [y] = tr ++ x :: [y].
Proof. now rewrite <- app_assoc. Qed.

Ltac settle :=
  repeat split; try reflexivity; try discriminate; intros;
  repeat match goal with
         | H : exists _, _ |- _ => destruct H
         | H : _ /\ _ |- _ => destruct H
         | H : _ \/ _ |- _ => destruct H
         | H : Ret _ = Ret _ |- _ => inversion H; clear H; subst
         | H : Raise _ = Raise _ |- _ => inversion H; clear H; subst
         | H : VStr _ = VStr _ |- _ => inversion H; clear H; subst
         end;
  try discriminate; try contradiction; try congruence; eauto.

(** X4.  [get_request_data_async] always returns or re-raises, after exactly
    one GET and at most one log line, and it touches neither the scraper nor
    [params_keyword].  It returns a string exactly when the client answered
    with status 200, and then the text of the response; it returns [None]
    exactly when the status was another one or the client raised
    [httpx.HTTPError]; it raises exactly the other exceptions of the
    client. *)
Theorem get_request_data_async_contract url hdrs cks params st :
  let rq := {| rq_url := url; rq_headers := hdrs; rq_cookies := cks; rq_params := params |} in
  let answer := client_get rq (st_world st) in
  exists r st',
    get_request_data_async url hdrs cks params st = Some (r, st')
    /\ (exists logs, st_trace st' = st_trace st ++ EvGet rq :: logs
                     /\ Forall is_log logs /\ (length logs <= 1)%nat)
    /\ st_world st' = snd answer
    /\ st_self st' = st_self st
    /\ st_params_keyword st' = st_params_keyword st
    /\ (forall s, r = Ret (VStr s) <->
                  exists resp, fst answer = Ret resp /\ status_code resp = 200 /\ text resp = s)
    /\ (r = Ret VNone <->
        (exists resp, fst answer = Ret resp /\ status_code resp <> 200)
        \/ fst answer = Raise HTTPError)
    /\ (forall e, r = Raise e <-> fst answer = Raise e /\ e <> HTTPError).
Proof.
  intros rq answer. subst answer.
  unfold get_request_data_async, try_except, bind, http_get. fold rq.
  destruct (client_get rq (st_world st)) as [[resp | e] w]; simpl.
  - destruct (status_code resp =? 200) eqn:Hs; simpl;
      [apply Z.eqb_eq in Hs | apply Z.eqb_neq in Hs];
      (eexists _, _; split; [reflexivity |]; simpl; split;
       [eexists [_]; rewrite one_log_after; repeat split; [repeat constructor | simpl; lia]
       | settle ]).
  - assert (Hcases : e = HTTPError \/ e <> HTTPError)
      by (destruct e; auto; right; discriminate).
    destruct Hcases as [-> | Hne].
    + simpl. eexists _, _. split; [reflexivity |]. simpl. split.
      { eexists [_]. rewrite one_log_after. repeat split; [repeat constructor | simpl; lia]. }
      settle.
    + exists (Raise e), (add_event (EvGet rq) (set_world w st)).
      split; [destruct e; try reflexivity; congruence |]. simpl. split.
      { exists []. repeat split; [constructor | simpl; lia]. }
      settle.
Qed.

(** X5.  [get_request_data_sync] has the contract of the asynchronous
    helper, with [requests.get] as its client and
    [requests.RequestException] as the exception it turns into [None]: one
    GET, at most one log line, a string exactly on status 200, [None] exactly
    on another status or on [RequestException], and every other exception
    passed on.  When the two clients give the same response, the two helpers
    return the same value and leave the same state. *)
Theorem get_request_data_sync_contract
    (requests_get : request -> World -> outcome response * World) url hdrs cks params st :
  let rq := {| rq_url := url; rq_headers := hdrs; rq_cookies := cks; rq_params := params |} in
  let answer := requests_get rq (st_world st) in
  exists r st',
    get_request_data_sync requests_get url hdrs cks params st = Some (r, st')
    /\ (exists logs, st_trace st' = st_trace st ++ EvGet rq :: logs
                     /\ Forall is_log logs /\ (length logs <= 1)%nat)
    /\ st_world st' = snd answer
    /\ st_self st' = st_self st
    /\ st_params_keyword st' = st_params_keyword st
    /\ (forall s, r = Ret (VStr s) <->
                  exists resp, fst answer = Ret resp /\ status_code resp = 200 /\ text resp = s)
    /\ (r = Ret VNone <->
        (exists resp, fst answer = Ret resp /\ status_code resp <> 200)
        \/ fst answer = Raise RequestException)
    /\ (forall e, r = Raise e <-> fst answer = Raise e /\ e <> RequestException)
    /\ (forall resp w,
           answer = (Ret resp, w) ->
           client_get rq (st_world st) = (Ret resp, w) ->
           get_request_data_async url hdrs cks params st = Some (r, st')).
Proof.
  intros rq answer. subst answer.
  unfold get_request_data_sync, get_request_data_async, try_except, bind, http_get_sync,
    http_get.
  fold rq.
  destruct (requests_get rq (st_world st)) as [[resp | e] w]; simpl.
  - assert (Hagree : forall resp0 w0,
               (Ret resp, w) = (Ret resp0, w0) ->
               client_get rq (st_world st) = (Ret resp0, w0) ->
               (let '(r, w1) := client_get rq (st_world st) in
                Some (r, add_event (EvGet rq) (set_world w1 st)))
               = Some (Ret resp, add_event (EvGet rq) (set_world w st)))
      by (intros resp0 w0 Heq Hc; inversion Heq; subst; now rewrite Hc).
    destruct (status_code resp =? 200) eqn:Hs; simpl.
    + eexists _, _. split; [reflexivity |]. simpl. split.
      { eexists [_]. rewrite one_log_after. repeat split; [repeat constructor | simpl; lia]. }
      apply Z.eqb_eq in Hs.
      repeat split; try reflexivity; try discriminate.
      all: try (intros resp0 w0 Heq Hc; rewrite (Hagree _ _ Heq Hc); simpl;
                apply Z.eqb_eq in Hs; now rewrite Hs).
      all: settle.
    + eexists _, _. split; [reflexivity |]. simpl. split.
      { eexists [_]. rewrite one_log_after. repeat split; [repeat constructor | simpl; lia]. }
      apply Z.eqb_neq in Hs.
      repeat split; try reflexivity; try discriminate.
      all: try (intros resp0 w0 Heq Hc; rewrite (Hagree _ _ Heq Hc); simpl;
                apply Z.eqb_neq in Hs; now rewrite Hs).
      all: settle.
  - assert (Hcases : e = RequestException \/ e <> RequestException)
      by (destruct e; auto; right; discriminate).
    destruct Hcases as [-> | Hne].
    + simpl. eexists _, _. split; [reflexivity |]. simpl. split.
      { eexists [_]. rewrite one_log_after. repeat split; [repeat constructor | simpl; lia]. }
      settle.
    + exists (Raise e), (add_event (EvGet rq) (set_world w st)).
      split; [destruct e; try reflexivity; congruence |]. simpl. split.
      { exists []. repeat split; [constructor | simpl; lia]. }
      settle.
Qed.

End Transport.

(* ===================================================================== *)
(** ** The mapping to the ingestion form *)
(* ===================================================================== *)

Section Mapping.
Context `{P : Platform}.

Lemma fill_profile_data_agree (d d' : gmap string pyval) :
  d !! "author" = d' !! "author" ->
  d !! "create_time" = d' !! "create_time" ->
  d !! "engagement_rate" = d' !! "engagement_rate" ->
  fill_profile_data (VDict d) = fill_profile_data (VDict d').
Proof.
  intros Ha Ht He. unfold fill_profile_data, py_get, py_getitem.
  now rewrite Ha, Ht, He.
Qed.

Lemma fill_profile_data_skips k v (d : gmap string pyval) :
  k <> "author" -> k <> "create_time" -> k <> "engagement_rate" ->
  fill_profile_data (VDict (<[k := v]> d)) = fill_profile_data (VDict d).
Proof.
  intros H1 H2 H3. apply fill_profile_data_agree; now rewrite lookup_insert_ne.
Qed.

(** X6.  [fill_profile_data] reads three keys of the record: [author],
    [create_time] and [engagement_rate]; and four keys of the author:
    [nickname], [uniqueId], [signature] and [followerCount].  Two records
    that agree on the three keys give the same form or the same exception;
    setting any other key changes nothing, so the comments, the video, the
    description, the hashtags and the stats of a record have no part in
    what is sent. *)
Theorem fill_profile_data_reads_three_keys (d d' : gmap string pyval) :
  d !! "author" = d' !! "author" ->
  d !! "create_time" = d' !! "create_time" ->
  d !! "engagement_rate" = d' !! "engagement_rate" ->
  fill_profile_data (VDict d) = fill_profile_data (VDict d')
  /\ (forall k v,
         k <> "author" -> k <> "create_time" -> k <> "engagement_rate" ->
         fill_profile_data (VDict (<[k := v]> d)) = fill_profile_data (VDict d))
  /\ (forall comments,
         fill_profile_data (VDict (<["comments" := comments]> d)) = fill_profile_data (VDict d))
  /\ (forall a a' : gmap string pyval,
         a !! "nickname" = a' !! "nickname" ->
         a !! "uniqueId" = a' !! "uniqueId" ->
         a !! "signature" = a' !! "signature" ->
         a !! "followerCount" = a' !! "followerCount" ->
         fill_profile_data (VDict (<["author" := VDict a]> d))
         = fill_profile_data (VDict (<["author" := VDict a']> d))).
Proof.
  intros Ha Ht He. split; [now apply fill_profile_data_agree |]. split; [| split].
  - intros k v. apply fill_profile_data_skips.
  - intros comments. now apply fill_profile_data_skips.
  - intros a a' Hn Hu Hs Hf. unfold fill_profile_data, py_get, py_getitem.
    rewrite !lookup_insert_eq. rewrite !lookup_insert_ne by discriminate.
    cbv beta iota delta [obind]. now rewrite Hn, Hu, Hs, Hf.
Qed.

(** X7.  When [fill_profile_data] fails and what it fills in.  A record that
    is no dict, or whose [author] is present and no dict (JSON [null], say),
    gives [AttributeError]; a record without [create_time] gives [KeyError];
    an exception of the date conversion passes through.  Otherwise the form
    has its fifteen keys: the four author fields with the empty string for
    a missing one, the handle also inside [email] and [profile_url], the
    converted date, and the metrics with [active_status] true.  A record
    without [author] is mapped as one with an empty author. *)
Theorem fill_profile_data_defaults_and_errors :
  (forall data, (forall d, data <> VDict d) -> fill_profile_data data = Raise AttributeError)
  /\ (forall (d : gmap string pyval) v,
         d !! "author" = Some v -> (forall a, v <> VDict a) ->
         fill_profile_data (VDict d) = Raise AttributeError)
  /\ (forall (d : gmap string pyval) a,
         default (VDict ∅) (d !! "author") = VDict a ->
         d !! "create_time" = None ->
         fill_profile_data (VDict d) = Raise KeyError)
  /\ (forall (d : gmap string pyval) a t e,
         default (VDict ∅) (d !! "author") = VDict a ->
         d !! "create_time" = Some t ->
         strftime_fromtimestamp t = Raise e ->
         fill_profile_data (VDict d) = Raise e)
  /\ (forall (d : gmap string pyval) a t s,
         default (VDict ∅) (d !! "author") = VDict a ->
         d !! "create_time" = Some t ->
         strftime_fromtimestamp t = Ret s ->
         let handle := py_str repr_other (default (VStr "") (a !! "uniqueId")) in
         exists out metrics : gmap string pyval,
           fill_profile_data (VDict d) = Ret (VDict out)
           /\ size out = 15%nat
           /\ out !! "name" = Some (default (VStr "") (a !! "nickname"))
           /\ out !! "username" = Some (default (VStr "") (a !! "uniqueId"))
           /\ out !! "email" = Some (VStr (String.append handle "@gmail.com"))
           /\ out !! "bio" = Some (default (VStr "") (a !! "signature"))
           /\ out !! "profile_url"
              = Some (VStr (String.append "https://www.tiktok.com/" handle))
           /\ out !! "date_last_post" = Some (VStr s)
           /\ out !! "metrics" = Some (VDict metrics)
           /\ size metrics = 3%nat
           /\ metrics !! "follower_count" = Some (default (VStr "") (a !! "followerCount"))
           /\ metrics !! "engagement_rate"
              = Some (default (VStr "") (d !! "engagement_rate"))
           /\ metrics !! "active_status" = Some (VBool true))
  /\ (forall (d : gmap string pyval),
         d !! "author" = None ->
         fill_profile_data (VDict d) = fill_profile_data (VDict (<["author" := VDict ∅]> d))).
Proof.
  repeat split.
  - intros data Hd. destruct data; try reflexivity. now destruct (Hd d).
  - intros d v Hv Hnd. unfold fill_profile_data, py_get at 1. rewrite Hv. simpl.
    destruct v; try reflexivity. now destruct (Hnd d0).
  - intros d a Ha Ht. unfold fill_profile_data, py_get at 1.
    replace (match d !! "author" with Some x => x | None => VDict ∅ end) with (VDict a)
      by (now destruct (d !! "author")).
    unfold py_getitem. rewrite Ht. reflexivity.
  - intros d a t e Ha Ht He. unfold fill_profile_data, py_get at 1.
    replace (match d !! "author" with Some x => x | None => VDict ∅ end) with (VDict a)
      by (now destruct (d !! "author")).
    unfold py_getitem. rewrite Ht. simpl. rewrite He. reflexivity.
  - intros d a t s Ha Ht Hs handle. unfold fill_profile_data, py_get at 1.
    replace (match d !! "author" with Some x => x | None => VDict ∅ end) with (VDict a)
      by (now destruct (d !! "author")).
    unfold py_getitem. rewrite Ht. simpl. rewrite Hs. simpl.
    eexists _, _. split; [reflexivity |].
    repeat split; try reflexivity; now destruct (_ !! _).
  - intros d Ha. unfold fill_profile_data, py_get, py_getitem.
    rewrite Ha, lookup_insert_eq. now rewrite !lookup_insert_ne by discriminate.
Qed.

End Mapping.

(* ===================================================================== *)
(** ** The Persister *)
(* ===================================================================== *)

Section Saving.
Context `{P : Platform}.

(** X8.  What [save_video_data] does with a record that has an [id] (the log
    line reads it), as [process_video_item] builds it.  The call always
    returns.  When the mapping fails, nothing is sent and the error is
    logged.  Otherwise exactly one POST goes to the ingestion endpoint with
    the form as its body, and the record is logged as saved whatever the
    endpoint answered: any status, 200 or not, and
    [requests.RequestException] as well; only another exception of the
    client ends in the error line. *)
Theorem save_video_data_logs_saved_whatever_status item id st :
  py_getitem item "id" = Ret id ->
  exists st',
    save_video_data item st = Some (Ret tt, st')
    /\ st_self st' = st_self st
    /\ st_params_keyword st' = st_params_keyword st
    /\ match fill_profile_data item with
       | Raise _ => st' = add_event save_error st
       | Ret body =>
           let answer := requests_post (post_request ingest_endpoint) body (st_world st) in
           st_world st' = snd answer
           /\ exists logs,
                st_trace st'
                = st_trace st ++ EvPost (post_request ingest_endpoint) body :: logs
                /\ Forall is_log logs
                /\ (length logs <= 2)%nat
                /\ last logs = Some (match fst answer with
                                     | Ret _ | Raise RequestException => saved_event
                                     | Raise _ => save_error
                                     end)
       end.
Proof.
  intros Hid.
  unfold save_video_data, _save_video_sync, push_data_to_api, input_data_to_api,
    try_except, bind, lift, http_post, ingest_endpoint.
  rewrite Hid.
  destruct (fill_profile_data item) as [body | e]; [| eexists; repeat split; reflexivity].
  destruct (requests_post _ body (st_world st)) as [[resp | e] w]; simpl.
  - destruct (status_code resp =? 200); simpl;
      [| destruct (status_code resp =? 422); simpl];
      (eexists; repeat split;
       first [ solve [ eexists [_; _]; simpl; repeat rewrite <- app_assoc; simpl;
                       repeat split; [repeat constructor | lia] ]
             | solve [ eexists [_]; simpl; repeat rewrite <- app_assoc; simpl;
                       repeat split; [repeat constructor | lia] ] ]).
  - assert (Hcases : e = RequestException \/ e <> RequestException)
      by (destruct e; auto; right; discriminate).
    destruct Hcases as [-> | Hne]; simpl.
    + eexists; repeat split. eexists [_; _]. simpl. repeat rewrite <- app_assoc. simpl.
      repeat split; [repeat constructor | lia].
    + exists (add_event save_error (add_event (EvPost (post_request ingest_endpoint) body)
                                      (set_world w st))).
      split; [destruct e; try reflexivity; congruence |].
      repeat split. exists [save_error]. simpl. rewrite <- app_assoc. simpl.
      repeat split; [repeat constructor | lia | destruct e; try reflexivity; congruence].
Qed.

End Saving.

(* ===================================================================== *)
(** ** One search item *)
(* ===================================================================== *)

Section Item.
Context `{P : Platform}.

Lemma bind_lift_eq {A B} (x : outcome A) (k : A -> M B) st :
  bind (lift x) k st = match x with
                       | Ret a => k a st
                       | Raise e => Some (Raise e, st)
                       end.
Proof. unfold bind, lift. now destruct x. Qed.

(** The body of [process_video_item] splits into the two pure steps and the
    rest. *)
Lemma process_video_body_eq fuel item st :
  process_video_body fuel item st
  = match item_rate item with
    | Raise e => Some (Raise e, st)
    | Ret rate =>
        match item_author_id item with
        | Raise e => Some (Raise e, st)
        | Ret id => process_video_rest fuel item rate id st
        end
    end.
Proof.
  unfold process_video_body, item_rate, item_author_id, process_video_rest.
  repeat (rewrite bind_lift_eq; cbv beta iota;
          try match goal with
              | |- match ?x with Ret _ => _ | Raise _ => _ end = _ =>
                  destruct x; cbn [obind]; [| reflexivity]
              end).
  reflexivity.
Qed.

Lemma trace_extends_post rq body : preserves trace_extends (http_post rq body).
Proof.
  intros st r st' H. unfold http_post in H.
  destruct (requests_post rq body (st_world st)). inversion H. now eexists.
Qed.

Ltac extends_side :=
  first [ exact trace_extends_refl | exact trace_extends_trans | exact trace_extends_log
        | exact trace_extends_get | exact trace_extends_post ].

Lemma get_author_metadata_sends id st r st' :
  get_author_metadata id st = Some (r, st') ->
  exists rest,
    st_trace st' = st_trace st ++ EvGet (profile_request id (st_params_keyword st)) :: rest.
Proof.
  rewrite get_author_metadata_run. intros H.
  destruct (get_request_data_async _ _ _ _ st) as [[[page | e] s1] |] eqn:Hget;
    [| | discriminate];
    apply get_request_data_async_sends in Hget as [rest Hrest].
  - destruct (parse_stats page); inversion H; subst; simpl.
    + exists rest. exact Hrest.
    + exists (rest ++ [metadata_error]). rewrite Hrest, <- app_assoc. reflexivity.
  - inversion H; subst; simpl.
    exists (rest ++ [metadata_error]). rewrite Hrest, <- app_assoc. reflexivity.
Qed.

Lemma process_video_rest_sends fuel item rate id st r st' :
  process_video_rest fuel item rate id st = Some (r, st') ->
  exists rest,
    st_trace st' = st_trace st ++ EvGet (profile_request id (st_params_keyword st)) :: rest.
Proof.
  unfold process_video_rest. intros H.
  apply bind_Some in H as [(stats & s1 & Hmeta & H) | (e & Hmeta & _)].
  - apply get_author_metadata_sends in Hmeta as [rest Hrest].
    assert (Hext : trace_extends s1 st').
    { revert H. generalize s1 r st'. 
      change (preserves trace_extends
                (processed_item <- lift (build_record item rate stats) ;;
                 video_id <- lift (py_getitem item "id") ;;
                 author2 <- lift (py_getitem item "author") ;;
                 unique_id <- lift (py_getitem author2 "uniqueId") ;;
                 comments <- extract_comments fuel video_id unique_id ;;
                 save_video_data (VDict (<["comments" := VList comments]> processed_item)))).
      repeat first
        [ apply preserves_bind; [extends_side | | intros ?]
        | apply preserves_lift; extends_side
        | apply preserves_extract_comments; extends_side
        | apply preserves_save_video_data; extends_side ]. }
    destruct Hext as [more Hmore]. exists (rest ++ more).
    rewrite Hmore, Hrest, <- app_assoc. reflexivity.
  - now apply get_author_metadata_sends in Hmeta.
Qed.

Lemma process_video_item_first_request fuel item rate id st r st' :
  item_rate item = Ret rate ->
  item_author_id item = Ret id ->
  process_video_item fuel item st = Some (r, st') ->
  exists rest,
    st_trace st' = st_trace st ++ EvGet (profile_request id (st_params_keyword st)) :: rest.
Proof.
  intros Hrate Hid. unfold process_video_item, try_except.
  rewrite process_video_body_eq, Hrate, Hid. intros H.
  destruct (process_video_rest fuel item rate id st) as [[[[] | e] s1] |] eqn:Hrest;
    [| | discriminate].
  - inversion H; subst. now apply process_video_rest_sends in Hrest.
  - inversion H; subst. apply process_video_rest_sends in Hrest as [rest Hrest].
    exists (rest ++ [processing_error]). simpl. rewrite Hrest, <- app_assoc. reflexivity.
Qed.

(** X9.  Whether [process_video_item] sends anything is decided by the item
    alone.  An item from which the engagement rate cannot be computed (no
    [stats], a counter missing, a counter that is no number while the views
    are positive) or that has no [author] dict is given up with one error
    line: no request is sent for it, no profile is fetched and nothing is
    pushed.  Every other item starts with the GET of the profile page of
    its author. *)
Theorem unusable_item_sends_nothing fuel item st :
  match item_rate item, item_author_id item with
  | Ret rate, Ret id =>
      forall r st',
        process_video_item fuel item st = Some (r, st') ->
        exists rest,
          st_trace st'
          = st_trace st ++ EvGet (profile_request id (st_params_keyword st)) :: rest
  | _, _ => process_video_item fuel item st = Some (Ret tt, add_event processing_error st)
  end
  /\ (forall d : gmap string pyval,
         d !! "stats" = None -> item_rate (VDict d) = Raise KeyError)
  /\ (forall (d stats : gmap string pyval) k,
         d !! "stats" = Some (VDict stats) ->
         k ∈ ["diggCount"; "shareCount"; "playCount"; "commentCount"] ->
         stats !! k = None ->
         item_rate (VDict d) = Raise KeyError)
  /\ (forall d : gmap string pyval,
         d !! "author" = None -> item_author_id (VDict d) = Raise KeyError)
  /\ (forall d : gmap string pyval,
         d !! "author" = Some VNone -> item_author_id (VDict d) = Raise AttributeError).
Proof.
  split; [| split; [| split; [| split]]].
  - destruct (item_rate item) as [rate | e] eqn:Hrate.
    + destruct (item_author_id item) as [id | e] eqn:Hid.
      * intros r st'. now apply process_video_item_first_request with (rate := rate).
      * unfold process_video_item, try_except.
        now rewrite process_video_body_eq, Hrate, Hid.
    + unfold process_video_item, try_except. now rewrite process_video_body_eq, Hrate.
  - intros d Hd. unfold item_rate, py_getitem. now rewrite Hd.
  - intros d stats k Hd Hk Hs. unfold item_rate, py_getitem. rewrite Hd. cbn [obind].
    repeat (apply elem_of_cons in Hk as [-> | Hk]); [.. | now apply elem_of_nil in Hk];
      (destruct (stats !! "diggCount") eqn:E1; cbn [obind]; [| reflexivity];
       destruct (stats !! "shareCount") eqn:E2; cbn [obind]; [| reflexivity];
       destruct (stats !! "playCount") eqn:E3; cbn [obind]; [| reflexivity];
       destruct (stats !! "commentCount") eqn:E4; cbn [obind]; [| reflexivity];
       congruence).
  - intros d Hd. unfold item_author_id, py_getitem. now rewrite Hd.
  - intros d Hd. unfold item_author_id, py_getitem. now rewrite Hd.
Qed.

End Item.

(* ===================================================================== *)
(** ** What reaches the ingestion endpoint *)
(* ===================================================================== *)

Section Pushes.
Context `{P : Platform}.

Lemma pushes_at_most_quiet {A} (m : M A) n :
  preserves same_pushes m -> pushes_at_most n m.
Proof.
  intros H st r st' Hrun. exists []. rewrite app_nil_r.
  split; [exact (H _ _ _ Hrun) |]. split; [simpl; lia | constructor].
Qed.

Lemma pushes_at_most_bind {A B} a b (m : M A) (k : A -> M B) :
  pushes_at_most a m -> (forall x, pushes_at_most b (k x)) ->
  pushes_at_most (a + b) (bind m k).
Proof.
  intros Hm Hk st r st' H.
  apply bind_Some in H as [(x & s1 & Hrun & H) | (e & Hrun & _)].
  - apply Hm in Hrun as (l1 & E1 & L1 & F1). apply Hk in H as (l2 & E2 & L2 & F2).
    exists (l1 ++ l2). rewrite E2, E1, <- app_assoc. split; [reflexivity |].
    split; [rewrite length_app; lia | now apply Forall_app].
  - apply Hm in Hrun as (l1 & E1 & L1 & F1). exists l1. repeat split; [exact E1 | lia | exact F1].
Qed.

Lemma pushes_at_most_try_except {A} a b (body : M A) handler :
  pushes_at_most a body -> (forall e, pushes_at_most b (handler e)) ->
  pushes_at_most (a + b) (try_except body handler).
Proof.
  intros Hb Hh st r st' H.
  apply try_except_Some in H as [(x & Hrun & _) | (e & s1 & Hrun & H)].
  - apply Hb in Hrun as (l1 & E1 & L1 & F1). exists l1. repeat split; [exact E1 | lia | exact F1].
  - apply Hb in Hrun as (l1 & E1 & L1 & F1). apply Hh in H as (l2 & E2 & L2 & F2).
    exists (l1 ++ l2). rewrite E2, E1, <- app_assoc. split; [reflexivity |].
    split; [rewrite length_app; lia | now apply Forall_app].
Qed.

(** The POST of [save_video_data]: one, with the form as its body, when the
    mapping succeeds, and none when it fails. *)
Lemma save_video_data_pushes item st r st' :
  save_video_data item st = Some (r, st') ->
  pushes (st_trace st')
  = pushes (st_trace st)
    ++ match fill_profile_data item with
       | Ret body => [EvPost (post_request ingest_endpoint) body]
       | Raise _ => []
       end.
Proof.
  unfold save_video_data, _save_video_sync, push_data_to_api, input_data_to_api,
    try_except, bind, lift, http_post, ingest_endpoint.
  destruct (fill_profile_data item) as [body | e].
  - destruct (requests_post _ body (st_world st)) as [[resp | e] w]; simpl.
    + destruct (status_code resp =? 200); simpl;
        [| destruct (status_code resp =? 422); simpl];
        destruct (py_getitem item "id"); simpl;
        intros H; inversion H; subst; simpl;
        rewrite !pushes_app; simpl; now rewrite ?app_nil_r.
    + destruct e; simpl; try destruct (py_getitem item "id"); simpl;
        intros H; inversion H; subst; simpl;
        rewrite !pushes_app; simpl; now rewrite ?app_nil_r.
  - intros H. inversion H; subst. simpl. rewrite pushes_app. reflexivity.
Qed.

Lemma pushes_at_most_save item : pushes_at_most 1 (save_video_data item).
Proof.
  intros st r st' H. apply save_video_data_pushes in H.
  eexists. split; [exact H |].
  destruct (fill_profile_data item); simpl; split; try lia; repeat constructor. eauto.
Qed.

Ltac pushes_side :=
  first [ exact same_pushes_refl | exact same_pushes_trans | exact same_pushes_log
        | exact same_pushes_get ].

Ltac no_push :=
  apply pushes_at_most_quiet;
  first [ apply preserves_lift; pushes_side
        | apply preserves_get_author_metadata; pushes_side
        | apply preserves_extract_comments; pushes_side
        | apply preserves_get_self; pushes_side
        | apply preserves_ret; pushes_side ].

Lemma pushes_at_most_item fuel item : pushes_at_most 1 (process_video_item fuel item).
Proof.
  unfold process_video_item.
  apply (pushes_at_most_try_except 1 0).
  - unfold process_video_body.
    repeat (apply (pushes_at_most_bind 0 1); [no_push | intros ?]).
    apply pushes_at_most_save.
  - intros e. apply pushes_at_most_quiet. apply same_pushes_log.
Qed.

Lemma pushes_at_most_for_each fuel items :
  pushes_at_most (length items) (for_each (process_video_item fuel) items).
Proof.
  induction items as [| item items IH]; simpl.
  - apply pushes_at_most_quiet. apply preserves_ret. exact same_pushes_refl.
  - apply (pushes_at_most_bind 1 (length items)); [apply pushes_at_most_item | intros _; exact IH].
Qed.

End Pushes.

Section PushedForm.
Context `{P : Platform}.

(** X10.  One search item costs at most one POST: [save_video_data] sends at
    most one, [process_video_item] at most one, and the tasks gathered for a
    search page at most as many as the page has items.  Every POST goes to
    the ingestion endpoint, with the default (empty) headers, cookies and
    parameters. *)
Theorem at_most_one_push_per_item fuel :
  (forall item, pushes_at_most 1 (save_video_data item))
  /\ (forall item, pushes_at_most 1 (process_video_item fuel item))
  /\ (forall items,
         pushes_at_most (length items) (for_each (process_video_item fuel) items)).
Proof.
  split; [| split].
  - apply pushes_at_most_save.
  - apply pushes_at_most_item.
  - apply pushes_at_most_for_each.
Qed.

Ltac quiet_side :=
  first [ exact same_pushes_refl | exact same_pushes_trans | exact same_pushes_log
        | exact same_pushes_get ].

(** X11.  What a POST of [process_video_item] carries.  When a run for an
    item has sent a POST, the rate and the author identifier of the item
    were computed, [get_author_metadata] returned stats, the record was
    built from the item, the rate and the stats, and the body of the POST
    is the form of that record as it is before the comments are attached:
    the comments that were fetched for the video have no part in it. *)
Theorem pushed_form_ignores_comments fuel item st r st' rq body :
  process_video_item fuel item st = Some (r, st') ->
  pushes (st_trace st') = pushes (st_trace st) ++ [EvPost rq body] ->
  exists rate id stats s1 rec,
    item_rate item = Ret rate
    /\ item_author_id item = Ret id
    /\ get_author_metadata id st = Some (Ret stats, s1)
    /\ build_record item rate stats = Ret rec
    /\ fill_profile_data (VDict rec) = Ret body
    /\ rq = post_request ingest_endpoint.
Proof.
  intros Hrun Hsent. unfold process_video_item in Hrun.
  apply try_except_Some in Hrun as [([] & Hbody & _) | (e & s0 & Hbody & Hlog)].
  - rewrite process_video_body_eq in Hbody.
    destruct (item_rate item) as [rate | e]; [| discriminate].
    destruct (item_author_id item) as [id | e]; [| discriminate].
    unfold process_video_rest in Hbody.
    bind_run Hbody stats s1 Hmeta.
    bind_lift Hbody rec Hrec.
    bind_lift Hbody video_id Hvid.
    bind_lift Hbody author2 Hauthor.
    bind_lift Hbody unique_id Huid.
    bind_run Hbody comments s2 Hcomments.
    apply save_video_data_pushes in Hbody.
    assert (H1 : same_pushes st s1).
    { revert Hmeta. apply preserves_get_author_metadata; quiet_side. }
    assert (H2 : same_pushes s1 s2).
    { revert Hcomments. apply preserves_extract_comments; quiet_side. }
    unfold same_pushes in H1, H2. rewrite H2, H1, Hsent in Hbody.
    apply app_inv_head in Hbody.
    rewrite fill_profile_data_skips in Hbody by discriminate.
    exists rate, id, stats, s1, rec.
    destruct (fill_profile_data (VDict rec)) as [body' | e]; [| discriminate].
    inversion Hbody; subst. repeat split; assumption.
  - exfalso. apply process_video_body_raises_quietly in Hbody.
    inversion Hlog; subst. simpl in Hsent. rewrite pushes_app in Hsent. simpl in Hsent.
    unfold same_pushes in Hbody. rewrite Hbody, app_nil_r in Hsent.
    apply (f_equal length) in Hsent. rewrite length_app in Hsent. simpl in Hsent. lia.
Qed.

End PushedForm.

(* ===================================================================== *)
(** ** The events of a run *)
(* ===================================================================== *)

Section Emits.
Context `{P : Platform}.
Variable Q : event -> Prop.

Lemma emits_same_trace {A} (m : M A) :
  (forall st r st', m st = Some (r, st') -> st_trace st' = st_trace st) -> emits Q m.
Proof.
  intros H st r st' Hrun. exists []. rewrite app_nil_r. split; [eauto | constructor].
Qed.

Lemma emits_ret {A} (a : A) : emits Q (ret a).
Proof. apply emits_same_trace. intros st r st' H. now inversion H. Qed.

Lemma emits_raise {A} e : emits Q (@raise _ A e).
Proof. apply emits_same_trace. intros st r st' H. now inversion H. Qed.

Lemma emits_lift {A} (x : outcome A) : emits Q (lift x).
Proof. apply emits_same_trace. intros st r st' H. now inversion H. Qed.

Lemma emits_diverge {A} : emits Q (@diverge _ A).
Proof. intros st r st' H. discriminate. Qed.

Lemma emits_get_self : emits Q get_self.
Proof. apply emits_same_trace. intros st r st' H. now inversion H. Qed.

Lemma emits_set_self s : emits Q (set_self s).
Proof. apply emits_same_trace. intros st r st' H. now inversion H. Qed.

Lemma emits_get_params_keyword : emits Q get_params_keyword.
Proof. apply emits_same_trace. intros st r st' H. now inversion H. Qed.

Lemma emits_set_params_keyword d : emits Q (set_params_keyword d).
Proof. apply emits_same_trace. intros st r st' H. now inversion H. Qed.

Lemma emits_bind {A B} (m : M A) (k : A -> M B) :
  emits Q m -> (forall a, emits Q (k a)) -> emits Q (bind m k).
Proof.
  intros Hm Hk st r st' H.
  apply bind_Some in H as [(a & s1 & H1 & H2) | (e & H1 & _)].
  - apply Hm in H1 as (n1 & E1 & F1). apply Hk in H2 as (n2 & E2 & F2).
    exists (n1 ++ n2). rewrite E2, E1, <- app_assoc. split; [reflexivity | now apply Forall_app].
  - eapply Hm; eauto.
Qed.

Lemma emits_try_except {A} (body : M A) (handler : exn -> M A) :
  emits Q body -> (forall e, emits Q (handler e)) -> emits Q (try_except body handler).
Proof.
  intros Hb Hh st r st' H.
  apply try_except_Some in H as [(a & H1 & _) | (e & s1 & H1 & H2)].
  - eapply Hb; eauto.
  - apply Hb in H1 as (n1 & E1 & F1). apply Hh in H2 as (n2 & E2 & F2).
    exists (n1 ++ n2). rewrite E2, E1, <- app_assoc. split; [reflexivity | now apply Forall_app].
Qed.

Lemma emits_for_each {A} (f : A -> M unit) l :
  (forall x, emits Q (f x)) -> emits Q (for_each f l).
Proof.
  intros Hf. induction l as [| x l IH]; simpl.
  - apply emits_ret.
  - apply emits_bind; auto.
Qed.

Lemma emits_http_get rq : Q (EvGet rq) -> emits Q (http_get rq).
Proof.
  intros HQ st r st' H. unfold http_get in H.
  destruct (client_get rq (st_world st)). inversion H; subst. simpl.
  eexists. split; [reflexivity | now repeat constructor].
Qed.

Lemma emits_http_post rq body : Q (EvPost rq body) -> emits Q (http_post rq body).
Proof.
  intros HQ st r st' H. unfold http_post in H.
  destruct (requests_post rq body (st_world st)). inversion H; subst. simpl.
  eexists. split; [reflexivity | now repeat constructor].
Qed.

Hypothesis Q_log : forall lvl name msg, Q (EvLog lvl name msg).

Lemma emits_log lvl name msg : emits Q (log lvl name msg).
Proof.
  intros st r st' H. inversion H; subst. simpl.
  eexists. split; [reflexivity | now repeat constructor].
Qed.


Ltac emitting :=
  repeat first
    [ assumption
    | solve [ auto 2 with nocore ]
    | apply emits_ret | apply emits_raise | apply emits_lift | apply emits_diverge
    | apply emits_get_self | apply emits_set_self
    | apply emits_get_params_keyword | apply emits_set_params_keyword
    | apply emits_log
    | apply emits_bind; [| intros ? ]
    | apply emits_try_except; [| intros ? ]
    | match goal with
      | |- emits _ (match ?x with _ => _ end) => destruct x
      | |- emits _ (if ?x then _ else _) => destruct x
      end ].

Lemma emits_get_request_data_async url hdrs cks params :
  Q (EvGet {| rq_url := url; rq_headers := hdrs; rq_cookies := cks; rq_params := params |}) ->
  emits Q (get_request_data_async url hdrs cks params).
Proof.
  intros HQ. unfold get_request_data_async.
  apply emits_try_except; [apply emits_bind; [now apply emits_http_get |] |]; intros ?; emitting.
Qed.

Lemma emits_get_author_metadata id :
  (forall pk, Q (EvGet (profile_request id pk))) -> emits Q (get_author_metadata id).
Proof.
  intros HQ. unfold get_author_metadata, author_metadata_body.
  apply emits_try_except; [| intros ?; emitting].
  apply emits_bind; [apply emits_get_params_keyword |]. intros pk.
  apply emits_bind; [apply emits_get_request_data_async; apply HQ |]. intros ?. emitting.
Qed.

(** The threads of replies. *)
Hypothesis Q_reply : forall cid vid cursor, Q (EvGet (reply_request cid vid cursor)).

Lemma emits_fetch_comment_replies cid vid cursor uid :
  emits Q (fetch_comment_replies cid vid cursor uid).
Proof.
  unfold fetch_comment_replies.
  apply emits_bind; [apply emits_get_request_data_async; apply Q_reply |]. intros ?. emitting.
Qed.

Lemma emits_extract_comment_replies_loop fuel cid vid uid replies cursor :
  emits Q (extract_comment_replies_loop fuel cid vid uid replies cursor).
Proof.
  revert replies cursor. induction fuel as [| n IH]; intros replies cursor; simpl.
  - apply emits_diverge.
  - apply emits_bind; [apply emits_fetch_comment_replies |].
    intros [batch next]. simpl. destruct batch; emitting.
Qed.

Lemma emits_extract_comment_replies fuel comment uid :
  emits Q (extract_comment_replies fuel comment uid).
Proof.
  unfold extract_comment_replies.
  repeat (apply emits_bind; [apply emits_lift | intros ?]).
  match goal with |- emits _ (if ?x then _ else _) => destruct x end;
    [apply emits_lift | apply emits_extract_comment_replies_loop].
Qed.

Lemma emits_process_comments fuel uid comments :
  emits Q (process_comments fuel uid comments).
Proof.
  induction comments as [| c rest IH]; simpl; [apply emits_ret |].
  apply emits_bind; [apply emits_lift | intros ?].
  apply emits_bind; [apply emits_lift | intros ?].
  apply emits_bind; [apply emits_extract_comment_replies | intros ?].
  apply emits_bind; [apply emits_lift | intros ?].
  apply emits_bind; [exact IH | intros ?]. apply emits_ret.
Qed.

(** The pages of comments. *)
Hypothesis Q_comment : forall vid cursor, Q (EvGet (comment_request vid cursor)).

Lemma emits_extract_comment_batch fuel vid cursor uid :
  emits Q (extract_comment_batch fuel (comment_params vid cursor) uid).
Proof.
  unfold extract_comment_batch.
  apply emits_bind; [apply emits_get_request_data_async; apply Q_comment | intros ?].
  repeat (apply emits_bind; [apply emits_lift | intros ?]).
  apply emits_process_comments.
Qed.

Lemma emits_extract_comments_step inner vid uid total cursor :
  emits Q (extract_comments_step inner vid uid total cursor).
Proof.
  unfold extract_comments_step.
  apply emits_try_except; [| intros ?; emitting].
  apply emits_bind; [apply emits_extract_comment_batch | intros ?]. emitting.
Qed.

Lemma emits_extract_comments_loop inner fuel vid uid total cursor :
  emits Q (extract_comments_loop inner fuel vid uid total cursor).
Proof.
  revert total cursor. induction fuel as [| n IH]; intros total cursor; simpl.
  - apply emits_diverge.
  - apply emits_bind; [apply emits_extract_comments_step |].
    intros [[t c] | [t c]]; [apply emits_ret | apply IH].
Qed.

(** The Persister. *)
Hypothesis Q_post : forall body, Q (EvPost (post_request ingest_endpoint) body).

Lemma emits_save_video_data item : emits Q (save_video_data item).
Proof.
  unfold save_video_data, _save_video_sync, push_data_to_api, input_data_to_api.
  apply emits_try_except; [| intros ?; emitting].
  apply emits_bind; [apply emits_lift | intros ?].
  apply emits_bind; [| intros ?; emitting].
  apply emits_bind; [| intros ?; emitting].
  apply emits_try_except; [| intros ?; emitting].
  apply emits_bind; [apply emits_http_post; apply Q_post | intros ?]. emitting.
Qed.

(** One search item. *)
Hypothesis Q_profile : forall id pk, Q (EvGet (profile_request id pk)).

Lemma emits_process_video_item fuel item : emits Q (process_video_item fuel item).
Proof.
  unfold process_video_item, process_video_body.
  apply emits_try_except; [| intros ?; emitting].
  repeat (apply emits_bind; [apply emits_lift | intros ?]).
  apply emits_bind; [apply emits_get_author_metadata; intros pk; apply Q_profile | intros ?].
  repeat (apply emits_bind; [apply emits_lift | intros ?]).
  apply emits_bind; [apply emits_extract_comments_loop | intros ?].
  apply emits_save_video_data.
Qed.

(** The search loop. *)
Hypothesis Q_search : forall pk, Q (EvGet (search_request pk)).

Lemma emits_search_fetch_parse : emits Q search_fetch_parse.
Proof.
  unfold search_fetch_parse.
  apply emits_bind; [apply emits_get_self | intros ?].
  apply emits_bind; [apply emits_get_params_keyword | intros ?].
  apply emits_bind; [apply emits_set_params_keyword | intros ?].
  apply emits_bind; [apply emits_get_request_data_async; apply Q_search | intros ?].
  emitting.
Qed.

Lemma emits_extract_influencers_step inner : emits Q (extract_influencers_step inner).
Proof.
  unfold extract_influencers_step.
  apply emits_try_except; [| intros ?; emitting].
  apply emits_bind; [apply emits_search_fetch_parse | intros ?].
  apply emits_bind; [apply emits_for_each; intros ?; apply emits_process_video_item | intros ?].
  emitting.
Qed.

Lemma emits_extract_influencers_loop inner fuel : emits Q (extract_influencers_loop inner fuel).
Proof.
  induction fuel as [| n IH]; simpl.
  - apply emits_diverge.
  - apply emits_bind; [apply emits_get_self | intros self].
    destruct (_ <? _); [| apply emits_ret].
    apply emits_bind; [apply emits_extract_influencers_step | intros [[] | []]].
    + emitting.
    + exact IH.
Qed.

End Emits.

Section Endpoints.
Context `{P : Platform}.

(** X12.  The events of a run are of five kinds.  Processing one search item
    adds log lines, GETs of a profile page, of comment pages and of reply
    pages, and POSTs to the ingestion endpoint; the search loop adds the
    GETs of search pages and nothing else.  So every GET of a run carries
    the [headers] and [cookies] of [constants.py] and goes to one of four
    addresses, and every POST goes to the ingestion endpoint with empty
    headers, cookies and parameters. *)
Theorem scraper_events_are_known inner fuel :
  (forall item, emits item_event (process_video_item inner item))
  /\ emits scraper_event (extract_influencers_loop inner fuel)
  /\ (forall ev,
         scraper_event ev ->
         match ev with
         | EvLog _ _ _ => True
         | EvGet rq =>
             rq_headers rq = VDict headers
             /\ rq_cookies rq = VDict cookies
             /\ (rq_url rq = search_endpoint
                 \/ rq_url rq = comment_endpoint
                 \/ rq_url rq = reply_endpoint
                 \/ exists id,
                      rq_url rq
                      = String.append "https://www.tiktok.com/@" (py_str repr_other id))
         | EvPost rq _ => rq = post_request ingest_endpoint
         end).
Proof.
  split; [| split].
  - intros item. apply emits_process_video_item; simpl; eauto 6.
  - apply emits_extract_influencers_loop; unfold scraper_event; simpl; eauto 8.
  - intros [rq | rq body | lvl name msg]; unfold scraper_event; simpl; [| | trivial].
    + intros [[(id & pk & ->) | [(vid & c & ->) | (cid & vid & c & ->)]] | (pk & Hpk)];
        [| | | inversion Hpk; subst rq]; simpl; eauto 8.
    + intros [H | (pk & Hpk)]; [exact H | discriminate].
Qed.

End Endpoints.

(* ===================================================================== *)
(** ** Pagination and the shared search parameters *)
(* ===================================================================== *)

Section Pagination.
Context `{P : Platform}.

Lemma gets_to_app url tr tr' : gets_to url (tr ++ tr') = gets_to url tr ++ gets_to url tr'.
Proof. apply omap_app. Qed.

Lemma gets_to_off url new : Forall (off_url url) new -> gets_to url new = [].
Proof.
  induction 1 as [| ev new Hev _ IH]; [reflexivity |].
  change (ev :: new) with ([ev] ++ new). rewrite gets_to_app, Hev, IH. reflexivity.
Qed.

Lemma gets_to_logs url logs : Forall is_log logs -> gets_to url logs = [].
Proof.
  intros H. apply gets_to_off. eapply Forall_impl; [exact H |].
  intros [| |]; simpl; try contradiction. reflexivity.
Qed.

Lemma emits_off_url {A} url (m : M A) st r st' :
  emits (off_url url) m -> m st = Some (r, st') -> same_gets_to url st st'.
Proof.
  intros Hm Hrun. apply Hm in Hrun as (new & E & F). unfold same_gets_to.
  rewrite E, gets_to_app, (gets_to_off _ _ F). apply app_nil_r.
Qed.

(** A fetch adds its GET and then log lines only; it changes neither the
    scraper nor [params_keyword]. *)
Lemma get_request_data_async_trace url hdrs cks params st r st' :
  get_request_data_async url hdrs cks params st = Some (r, st') ->
  (exists logs,
      st_trace st' = st_trace st
        ++ EvGet {| rq_url := url; rq_headers := hdrs; rq_cookies := cks; rq_params := params |}
        :: logs
      /\ Forall is_log logs)
  /\ st_params_keyword st' = st_params_keyword st
  /\ st_self st' = st_self st.
Proof.
  unfold get_request_data_async, try_except, bind, http_get.
  destruct (client_get _ (st_world st)) as [[resp | e] w]; simpl.
  - destruct (status_code resp =? 200); simpl; intros H; inversion H; subst; simpl;
      (split; [| split; reflexivity]); eexists [_]; rewrite <- app_assoc;
      (split; [reflexivity | repeat constructor]).
  - destruct e; simpl; intros H; inversion H; subst; simpl;
      (split; [| split; reflexivity]);
      first [ exists []; split; [reflexivity | constructor]
            | eexists [_]; rewrite <- app_assoc; split; [reflexivity | repeat constructor] ].
Qed.

(** How a run of the first half of the search iteration goes. *)
Lemma search_fetch_parse_run st :
  search_fetch_parse st
  = let pk := search_params (st_params_keyword st) (st_self st) in
    match get_request_data_async search_endpoint (VDict headers) (VDict cookies) (VDict pk)
            (with_params_keyword pk st) with
    | None => None
    | Some (Ret data, s1) => Some (parse_search data, s1)
    | Some (Raise e, s1) => Some (Raise e, s1)
    end.
Proof.
  unfold search_fetch_parse, bind, get_self, get_params_keyword, set_params_keyword,
    search_params, with_params_keyword, search_endpoint, parse_search. simpl.
  match goal with
  | |- context [get_request_data_async ?u ?h ?c ?p ?s] =>
      destruct (get_request_data_async u h c p s) as [[[data | e] s1] |]
  end; try reflexivity.
  unfold lift.
  destruct (py_json_loads data) as [data_list |]; simpl; [| reflexivity].
  destruct (py_getitem data_list "item_list") as [item_list |]; simpl; [| reflexivity].
  now destruct (py_iter item_list).
Qed.

(** What the fetch of a search page leaves behind, whatever its result. *)
Lemma search_fetch_parse_effect st r st1 :
  search_fetch_parse st = Some (r, st1) ->
  let pk := search_params (st_params_keyword st) (st_self st) in
  st_params_keyword st1 = pk
  /\ st_self st1 = st_self st
  /\ exists logs,
       st_trace st1 = st_trace st ++ EvGet (search_request pk) :: logs /\ Forall is_log logs.
Proof.
  rewrite search_fetch_parse_run. intros H pk. cbv zeta in H. fold pk in H.
  destruct (get_request_data_async search_endpoint (VDict headers) (VDict cookies) (VDict pk)
              (with_params_keyword pk st)) as [[[data | e] s1] |] eqn:Hget;
    [| | discriminate];
    apply get_request_data_async_trace in Hget as ((logs & Htr & Hlogs) & Hpk & Hself);
    inversion H; subst; eauto.
Qed.

Lemma same_params_keyword_refl st : same_params_keyword st st.
Proof. reflexivity. Qed.

Lemma same_params_keyword_trans a b c :
  same_params_keyword a b -> same_params_keyword b c -> same_params_keyword a c.
Proof. unfold same_params_keyword. congruence. Qed.

Lemma same_params_keyword_log lvl name msg : preserves same_params_keyword (log lvl name msg).
Proof. intros st r st' H. inversion H. reflexivity. Qed.

Lemma same_params_keyword_get rq : preserves same_params_keyword (http_get rq).
Proof.
  intros st r st' H. unfold http_get in H.
  destruct (client_get rq (st_world st)). inversion H. reflexivity.
Qed.

Lemma same_params_keyword_post rq body : preserves same_params_keyword (http_post rq body).
Proof.
  intros st r st' H. unfold http_post in H.
  destruct (requests_post rq body (st_world st)). inversion H. reflexivity.
Qed.

Lemma process_video_item_same_params_keyword fuel item :
  preserves same_params_keyword (process_video_item fuel item).
Proof.
  apply preserves_process_video_item;
    [ exact same_params_keyword_refl | exact same_params_keyword_trans
    | exact same_params_keyword_log | exact same_params_keyword_get
    | exact same_params_keyword_post ].
Qed.

Lemma gather_same_params_keyword fuel items :
  preserves same_params_keyword (for_each (process_video_item fuel) items).
Proof.
  apply preserves_for_each;
    [exact same_params_keyword_refl | exact same_params_keyword_trans |].
  intros x. apply process_video_item_same_params_keyword.
Qed.

(** X13.  [params_keyword] is one dict for the whole module, and the profile
    requests are sent with it.  After the fetch of a search page it holds
    the keyword, the offset and the limit of that page, no task changes it,
    and so every profile page fetched for an item of the page is requested
    with the search parameters of the page. *)
Theorem profile_requests_carry_search_params inner st items st1 :
  search_fetch_parse st = Some (Ret items, st1) ->
  let pk := search_params (st_params_keyword st) (st_self st) in
  st_params_keyword st1 = pk
  /\ pk !! "keyword" = Some (VStr (kw (st_self st)))
  /\ pk !! "offset" = Some (VInt (offset (st_self st)))
  /\ pk !! "limit" = Some (VInt (limit (st_self st)))
  /\ (exists logs, st_trace st1 = st_trace st ++ EvGet (search_request pk) :: logs)
  /\ forall before item after r s,
       items = before ++ item :: after ->
       for_each (process_video_item inner) before st1 = Some (r, s) ->
       st_params_keyword s = pk
       /\ forall rate id r' s',
            item_rate item = Ret rate ->
            item_author_id item = Ret id ->
            process_video_item inner item s = Some (r', s') ->
            st_params_keyword s' = pk
            /\ exists rest,
                 st_trace s' = st_trace s ++ EvGet (profile_request id pk) :: rest.
Proof.
  intros Hsearch pk.
  apply search_fetch_parse_effect in Hsearch as (Hpk & _ & logs & Htr & _). fold pk in Hpk, Htr.
  split; [exact Hpk |].
  split; [unfold pk, search_params;
          now rewrite !lookup_insert_ne, lookup_insert_eq by discriminate |].
  split; [unfold pk, search_params;
          now rewrite lookup_insert_ne, lookup_insert_eq by discriminate |].
  split; [unfold pk, search_params; now rewrite lookup_insert_eq |].
  split; [eauto |].
  intros before item after r s _ Hbefore.
  apply gather_same_params_keyword in Hbefore. unfold same_params_keyword in Hbefore.
  rewrite Hpk in Hbefore. split; [exact Hbefore |].
  intros rate id r' s' Hrate Hid Hrun. split.
  - apply process_video_item_same_params_keyword in Hrun.
    unfold same_params_keyword in Hrun. congruence.
  - rewrite <- Hbefore. eapply process_video_item_first_request; eauto.
Qed.

Lemma search_params_again pk s s' :
  search_params (search_params pk s) s' = search_params pk s'.
Proof.
  unfold search_params. apply map_eq. intros i.
  destruct (decide (i = "limit")) as [-> | Hl]; [now rewrite !lookup_insert_eq |].
  rewrite !(lookup_insert_ne _ "limit") by congruence.
  destruct (decide (i = "offset")) as [-> | Ho]; [now rewrite !lookup_insert_eq |].
  rewrite !(lookup_insert_ne _ "offset") by congruence.
  destruct (decide (i = "keyword")) as [-> | Hk]; [now rewrite !lookup_insert_eq |].
  now rewrite !lookup_insert_ne by congruence.
Qed.

Lemma page_0 s : page s 0 = s.
Proof. destruct s. unfold page. simpl. f_equal. lia. Qed.

Lemma page_next s i : page (next_page s) i = page s (S i).
Proof. unfold page, next_page. simpl. f_equal. lia. Qed.

Lemma gets_to_search_request pk : gets_to search_endpoint [EvGet (search_request pk)] = [VDict pk].
Proof. reflexivity. Qed.

Lemma gets_to_comment_request vid cursor :
  gets_to comment_endpoint [EvGet (comment_request vid cursor)]
  = [VDict (comment_params vid cursor)].
Proof. reflexivity. Qed.

(** No task of a search page sends a GET to the search endpoint. *)
Lemma gather_sends_no_search fuel items st r st' :
  for_each (process_video_item fuel) items st = Some (r, st') ->
  same_gets_to search_endpoint st st'.
Proof.
  apply emits_off_url. apply emits_for_each. intros item.
  apply emits_process_video_item; intros; reflexivity.
Qed.

Lemma search_fetch_parse_gets st r st1 :
  search_fetch_parse st = Some (r, st1) ->
  gets_to search_endpoint (st_trace st1)
  = gets_to search_endpoint (st_trace st)
    ++ [VDict (search_params (st_params_keyword st) (st_self st))].
Proof.
  intros H. apply search_fetch_parse_effect in H as (_ & _ & logs & Htr & Hlogs).
  rewrite Htr, gets_to_app.
  change (EvGet ?rq :: logs) with ([EvGet rq] ++ logs).
  now rewrite gets_to_app, gets_to_search_request, (gets_to_logs _ _ Hlogs).
Qed.

Lemma map_seq_S {A} (f : nat -> A) n : map f (seq 0 (S n)) = f 0%nat :: map (fun i => f (S i)) (seq 0 n).
Proof. simpl. f_equal. rewrite <- seq_shift, map_map. reflexivity. Qed.

(** X14.  The search pages of a run are requested one after the other,
    without a gap and without a repeat: started with an empty accumulator
    and a positive target, a run of the search loop that ends has sent the
    GETs of the pages at offset, offset + limit, offset + 2 limit, and so
    on, each with the keyword and the limit of the scraper on top of the
    constants in [params_keyword]; there is at least one, and the scraper
    is left at the offset of the last one. *)
Theorem search_pages_are_consecutive inner fuel st r st' :
  0 < max_influencers (st_self st) ->
  total_data (st_self st) = [] ->
  extract_influencers_loop inner fuel st = Some (r, st') ->
  exists n,
    gets_to search_endpoint (st_trace st')
    = gets_to search_endpoint (st_trace st)
      ++ map (fun i => VDict (search_params (st_params_keyword st) (page (st_self st) i)))
           (seq 0 (S n))
    /\ st_self st' = page (st_self st) n.
Proof.
  revert st r st'. induction fuel as [| k IH]; intros st r st' Hmax Hempty H; simpl in H.
  - discriminate.
  - unfold bind at 1 in H. unfold get_self at 1 in H.
    rewrite Hempty in H. change (Z.of_nat (length [])) with 0 in H.
    destruct (0 <? max_influencers (st_self st)) eqn:Hlt; [| apply Z.ltb_ge in Hlt; lia].
    apply bind_Some in H as [(s & st1 & Hstep & H) | (e & Hstep & _)].
    + apply extract_influencers_step_cases in Hstep
        as [(e & st2 & Hsearch & -> & Hs) | (Hs & items & s1 & s2 & Hsearch & Hgather & ->)];
        try assumption; inversion Hs; subst s.
      * unfold bind, get_self, ret in H. inversion H; subst. exists 0%nat.
        pose proof (search_fetch_parse_gets _ _ _ Hsearch) as Hgets.
        apply search_fetch_parse_effect in Hsearch as (_ & Hself & _).
        simpl. rewrite gets_to_app, Hgets, page_0. simpl. rewrite app_nil_r.
        split; [reflexivity | exact Hself].
      * apply IH in H as (n & Hgets & Hself); [| assumption | assumption].
        change (st_trace (with_self (next_page (st_self st)) s2)) with (st_trace s2) in Hgets.
        change (st_params_keyword (with_self (next_page (st_self st)) s2))
          with (st_params_keyword s2) in Hgets.
        change (st_self (with_self (next_page (st_self st)) s2))
          with (next_page (st_self st)) in Hgets, Hself.
        exists (S n).
        pose proof (search_fetch_parse_gets _ _ _ Hsearch) as Hfirst.
        apply search_fetch_parse_effect in Hsearch as (Hpk & _ & _).
        pose proof (gather_sends_no_search _ _ _ _ _ Hgather) as Hnone.
        apply gather_same_params_keyword in Hgather.
        unfold same_params_keyword in Hgather. unfold same_gets_to in Hnone.
        rewrite Hgets, Hnone, Hfirst, Hgather, Hpk, <- app_assoc.
        split.
        -- f_equal. rewrite (map_seq_S _ (S n)). rewrite page_0.
           change ([?x] ++ ?l) with (x :: l). f_equal.
           apply map_ext. intros i. now rewrite search_params_again, page_next.
        -- now rewrite Hself, page_next.
    + apply extract_influencers_step_cases in Hstep
        as [(e' & st2 & _ & _ & Hs) | (Hs & _)]; try assumption; discriminate.
Qed.

(** A batch sends one GET to the comment endpoint, the one of its page. *)
Lemma extract_comment_batch_gets inner vid cursor uid st r st1 :
  extract_comment_batch inner (comment_params vid cursor) uid st = Some (r, st1) ->
  gets_to comment_endpoint (st_trace st1)
  = gets_to comment_endpoint (st_trace st) ++ [VDict (comment_params vid cursor)].
Proof.
  unfold extract_comment_batch. intros H.
  apply bind_Some in H as [(data & s1 & Hget & H) | (e & Hget & _)];
    apply get_request_data_async_trace in Hget as ((logs & Htr & Hlogs) & _).
  - assert (Hrest : same_gets_to comment_endpoint s1 st1).
    { revert H. apply emits_off_url.
      repeat (apply emits_bind; [apply emits_lift | intros ?]).
      apply emits_process_comments; intros; reflexivity. }
    unfold same_gets_to in Hrest. rewrite Hrest, Htr, gets_to_app.
    change (EvGet ?rq :: logs) with ([EvGet rq] ++ logs).
    rewrite gets_to_app, (gets_to_logs _ _ Hlogs), app_nil_r. reflexivity.
  - rewrite Htr, gets_to_app.
    change (EvGet ?rq :: logs) with ([EvGet rq] ++ logs).
    rewrite gets_to_app, (gets_to_logs _ _ Hlogs), app_nil_r. reflexivity.
Qed.

(** X15.  The comment pages of a video are requested one after the other: a
    run of the comment loop that ends has sent the GETs of the pages at
    cursor, cursor + 20, cursor + 40, and so on, each for the video and with
    the limit 20; there is at least one, and from the empty accumulator
    there are at most 100. *)
Theorem comment_pages_are_consecutive inner fuel vid uid total cursor st r st' :
  extract_comments_loop inner fuel vid uid total cursor st = Some (r, st') ->
  exists n,
    gets_to comment_endpoint (st_trace st')
    = gets_to comment_endpoint (st_trace st)
      ++ map (fun i => VDict (comment_params vid (cursor + 20 * Z.of_nat i))) (seq 0 (S n))
    /\ (n <= 99 - length total)%nat.
Proof.
  revert total cursor st. induction fuel as [| k IH]; intros total cursor st H; simpl in H.
  - discriminate.
  - assert (Hone : forall s,
               gets_to comment_endpoint (st_trace s)
               = gets_to comment_endpoint (st_trace st) ++ [VDict (comment_params vid cursor)] ->
               gets_to comment_endpoint (st_trace s)
               = gets_to comment_endpoint (st_trace st)
                 ++ map (fun i => VDict (comment_params vid (cursor + 20 * Z.of_nat i)))
                      (seq 0 1)).
    { intros s ->. simpl. now rewrite Z.add_0_r. }
    apply bind_Some in H as [(s & s1 & Hstep & H) | (e & Hstep & _)].
    + apply extract_comments_step_cases in Hstep
        as [(batch & Hbatch & Hs) | (e & s0 & Hbatch & -> & Hs)]; inversion Hs; subst s.
      * apply extract_comment_batch_gets in Hbatch.
        destruct batch as [| c batch].
        { apply ret_Some in H as [_ ->]. exists 0%nat. split; [now apply Hone | lia]. }
        destruct (100 <=? Z.of_nat (length (total ++ c :: batch))) eqn:Hcap.
        { apply ret_Some in H as [_ ->]. exists 0%nat. split; [now apply Hone | lia]. }
        apply Z.leb_gt in Hcap.
        apply IH in H as (n & Hgets & Hn). exists (S n). split.
        -- rewrite Hgets, Hbatch, <- app_assoc. f_equal. rewrite (map_seq_S _ (S n)).
           change ([?x] ++ ?l) with (x :: l). simpl Z.of_nat. rewrite Z.add_0_r. f_equal.
           apply map_ext. intros i. f_equal. f_equal. lia.
        -- rewrite length_app in *. simpl in *. lia.
      * apply ret_Some in H as [_ ->]. apply extract_comment_batch_gets in Hbatch.
        exists 0%nat. split; [| lia]. apply Hone. simpl. rewrite gets_to_app, Hbatch. simpl.
        apply app_nil_r.
    + apply extract_comments_step_cases in Hstep
        as [(batch & _ & Hs) | (e' & s0 & _ & _ & Hs)]; discriminate.
Qed.

End Pagination.

(* ===================================================================== *)
(** ** Comment pages that fail, and what a batch keeps *)
(* ===================================================================== *)

Section Batches.
Context `{P : Platform}.

(** X16.  A comment page that cannot be fetched or read ends the pagination
    of its video and costs nothing of what was collected before.  When the
    client answers the GET of the page with another status than 200 or
    raises, or answers 200 with a body that is no JSON, the loop returns the
    accumulator as it was, after that one GET, the log line of the helper
    (if any) and the error line of [extract_comments]; no further page is
    requested. *)
Theorem failed_comment_page_keeps_earlier_comments inner n vid uid total cursor st resp w :
  client_get (comment_request vid cursor) (st_world st) = (resp, w) ->
  match resp with
  | Ret r => status_code r <> 200 \/ json_loads (text r) = None
  | Raise _ => True
  end ->
  exists logs,
    extract_comments_loop inner (S n) vid uid total cursor st
    = Some (Ret total,
            {| st_world := w;
               st_trace := st_trace st ++ EvGet (comment_request vid cursor) :: logs;
               st_params_keyword := st_params_keyword st;
               st_self := st_self st |})
    /\ Forall is_log logs
    /\ last logs = Some comment_error.
Proof.
  intros Hget Hfail. simpl.
  unfold extract_comments_step, extract_comment_batch, get_request_data_async,
    try_except, bind, http_get.
  change {| rq_url := "https://www.tiktok.com/api/comment/list/";
            rq_headers := VDict headers; rq_cookies := VDict cookies;
            rq_params := VDict (comment_params vid cursor) |}
    with (comment_request vid cursor).
  rewrite Hget.
  destruct resp as [r | e].
  - destruct Hfail as [Hne | Hjson].
    + apply Z.eqb_neq in Hne. rewrite Hne. simpl.
      eexists [_; _]. unfold add_event, set_world. simpl.
      rewrite <- !app_assoc. simpl. repeat split; repeat constructor.
    + destruct (status_code r =? 200); simpl; [rewrite Hjson; simpl |];
        eexists [_; _]; unfold add_event, set_world; simpl;
        rewrite <- !app_assoc; simpl; repeat split; repeat constructor.
  - destruct e; simpl;
      first [ eexists [_; _]; unfold add_event, set_world; simpl;
              rewrite <- !app_assoc; simpl; split; [reflexivity |];
              split; [repeat constructor | reflexivity]
            | eexists [_]; unfold add_event, set_world; simpl;
              rewrite <- !app_assoc; simpl; split; [reflexivity |];
              split; [repeat constructor | reflexivity] ].
Qed.

(** X17.  A processed batch is the page, comment by comment and in the
    order of the page: each entry is the comment it was made from with
    [is_author_reply] and [replies] set, where [replies] is what
    [extract_comment_replies] returned for the marked comment, and with
    every other key as the page had it.  No comment is dropped, added or
    reordered. *)
Theorem processed_comments_keep_their_fields fuel uid comments st out st' :
  process_comments fuel uid comments st = Some (Ret out, st') ->
  length out = length comments
  /\ Forall2 (fun c o =>
                exists (d : gmap string pyval) author replies s1 s2,
                  c = VDict d
                  /\ author_of c = Ret author
                  /\ extract_comment_replies fuel
                       (VDict (<["is_author_reply" := VBool (py_eq author uid)]> d)) uid s1
                     = Some (Ret replies, s2)
                  /\ o = VDict (<["replies" := replies]>
                                  (<["is_author_reply" := VBool (py_eq author uid)]> d))
                  /\ forall k, k <> "replies" -> k <> "is_author_reply" ->
                               py_get o k VNone = py_get c k VNone)
             comments out.
Proof.
  revert st out st'. induction comments as [| c rest IH]; intros st out st' H; simpl in H.
  - apply ret_Some in H as [H _]. inversion H. split; [reflexivity | constructor].
  - bind_lift H author Hauthor.
    bind_lift H marked Hmarked.
    bind_run H replies s1 Hreplies.
    bind_lift H final Hfinal.
    bind_run H rest' s2 Hrest.
    apply ret_Some in H as [H _]. inversion H; subst out.
    apply IH in Hrest as [Hlen Hall].
    split; [simpl; now rewrite Hlen |].
    constructor; [| exact Hall].
    destruct c; simpl in Hmarked; try discriminate. inversion Hmarked; subst marked.
    simpl in Hfinal. inversion Hfinal; subst final.
    exists d, author, replies, st, s1. repeat split; try assumption.
    intros k Hk1 Hk2. simpl. now rewrite !lookup_insert_ne by congruence.
Qed.

End Batches.

(* ===================================================================== *)
(** ** The stats fragment of a profile page *)
(* ===================================================================== *)

Section Fragment.

Local Open Scope string_scope.

(** [String.append] step by step. *)
Ltac sapp :=
  repeat first
    [ progress change (String.append EmptyString ?x) with x in *
    | progress change (String.append (String ?c ?a) ?b) with (String c (String.append a b)) in * ].

Lemma strip_prefix_Some p s rest : strip_prefix p s = Some rest <-> s = p ++ rest.
Proof.
  revert s. induction p as [| a p IH]; intros s; simpl.
  - split; [intros H; now inversion H | now intros ->].
  - destruct s as [| b s]; [split; discriminate |].
    destruct (Ascii.eqb a b) eqn:E.
    + apply Ascii.eqb_eq in E. subst b. rewrite IH.
      sapp. split; [now intros -> | intros H; now inversion H].
    + apply Ascii.eqb_neq in E. sapp. split; [discriminate | intros H; inversion H; congruence].
Qed.

(** [text_after] finds the leftmost occurrence. *)
Lemma text_after_Some needle s rest :
  text_after needle s = Some rest ->
  exists pre,
    s = pre ++ needle ++ rest
    /\ forall pre' rest', s = pre' ++ needle ++ rest' ->
                          (String.length pre <= String.length pre')%nat.
Proof.
  revert rest. induction s as [| c s IH]; intros rest; simpl.
  - destruct (strip_prefix needle "") as [r |] eqn:E; [| discriminate].
    intros H. inversion H; subst r. apply strip_prefix_Some in E.
    exists "". split; [exact E |]. intros; simpl; lia.
  - destruct (strip_prefix needle (String c s)) as [r |] eqn:E.
    + intros H. inversion H; subst r. apply strip_prefix_Some in E.
      exists "". split; [exact E |]. intros; simpl; lia.
    + intros H. apply IH in H as (pre & -> & Hleft).
      exists (String c pre). split; [reflexivity |].
      intros pre' rest' Heq. destruct pre' as [| c' pre'].
      * sapp. apply strip_prefix_Some in Heq. congruence.
      * sapp. inversion Heq. subst c'. simpl.
        apply le_n_S. eapply Hleft. eassumption.
Qed.

Lemma text_after_None needle s :
  text_after needle s = None <-> forall pre rest, s <> pre ++ needle ++ rest.
Proof.
  split.
  - induction s as [| c s IH]; simpl.
    + destruct (strip_prefix needle "") as [r |] eqn:E; [discriminate |].
      intros _ pre rest Heq. destruct pre; [| discriminate].
      sapp. apply strip_prefix_Some in Heq. congruence.
    + destruct (strip_prefix needle (String c s)) as [r |] eqn:E; [discriminate |].
      intros H pre rest Heq. destruct pre as [| c' pre].
      * sapp. apply strip_prefix_Some in Heq. congruence.
      * sapp. inversion Heq. eapply IH; eauto.
  - intros H. destruct (text_after needle s) as [rest |] eqn:E; [| reflexivity].
    apply text_after_Some in E as (pre & Heq & _). now apply H in Heq.
Qed.

(** [span_no_brace] cuts before the first closing brace. *)
Lemma span_no_brace_spec s :
  exists tail,
    s = span_no_brace s ++ tail
    /\ (forall a b, span_no_brace s <> a ++ "}" ++ b)
    /\ (tail = "" \/ exists t, tail = "}" ++ t).
Proof.
  induction s as [| c s (tail & Heq & Hno & Htail)]; simpl.
  - exists "". split; [reflexivity |]. split; [| now left].
    intros a b H. destruct a; discriminate.
  - destruct (Ascii.eqb c "}") eqn:E.
    + apply Ascii.eqb_eq in E. subst c. exists (String "}" s).
      split; [reflexivity |]. split; [| right; now exists s].
      intros a b H. destruct a; discriminate.
    + apply Ascii.eqb_neq in E. exists tail. split; [sapp; now rewrite <- Heq |].
      split; [| exact Htail].
      intros a b H. destruct a as [| x a]; sapp.
      * inversion H. congruence.
      * inversion H. eapply Hno. eassumption.
Qed.

(** X18.  What [get_author_metadata] cuts out of a profile page.  The search
    for the pattern fails exactly when the anchor ["stats":] does not occur
    in the page.  Otherwise the match is the text between the first
    occurrence of the anchor and the first closing brace behind it (or the
    end of the page): it holds no closing brace itself, so the text handed
    to [json.loads], the match followed by one brace, ends at the first
    brace of the stats object, wherever the object really ends.  A page that
    is no string gives [TypeError]. *)
Theorem stats_fragment_is_cut_at_first_brace :
  (forall s,
      re_search_stats (VStr s) = Ret None
      <-> forall pre rest, s <> pre ++ stats_anchor ++ rest)
  /\ (forall s g,
         re_search_stats (VStr s) = Ret (Some g) ->
         exists pre tail,
           s = pre ++ stats_anchor ++ g ++ tail
           /\ (forall pre' rest', s = pre' ++ stats_anchor ++ rest' ->
                                  (String.length pre <= String.length pre')%nat)
           /\ (forall a b, g <> a ++ "}" ++ b)
           /\ (tail = "" \/ exists t, tail = "}" ++ t))
  /\ (forall page, (forall s, page <> VStr s) -> re_search_stats page = Raise TypeError).
Proof.
  split; [| split].
  - intros s. unfold re_search_stats. rewrite <- text_after_None.
    destruct (text_after stats_anchor s); simpl; split; congruence.
  - intros s g. unfold re_search_stats.
    destruct (text_after stats_anchor s) as [rest |] eqn:E; simpl; [| discriminate].
    intros H. inversion H; subst g.
    apply text_after_Some in E as (pre & Heq & Hleft).
    destruct (span_no_brace_spec rest) as (tail & Hrest & Hno & Htail).
    exists pre, tail. split; [now rewrite <- Hrest |]. auto.
  - intros page Hpage. destruct page; try reflexivity. now destruct (Hpage s).
Qed.

End Fragment.

(* ===================================================================== *)
(** ** From the search item to the form *)
(* ===================================================================== *)

Section Record.
Context `{P : Platform}.

Lemma lookup_merged (extra base : gmap string pyval) k :
  default (VStr "") ((extra ∪ base) !! k)
  = match extra !! k with
    | Some v => v
    | None => default (VStr "") (base !! k)
    end.
Proof. rewrite lookup_union. now destruct (extra !! k), (base !! k). Qed.

(** X19.  What becomes of a search item on its way to the form.  When
    [process_video_item] can build its record, the item is a dict with an
    [author] dict and a [createTime], and the stats are a dict; the record
    has eight keys; and mapping it can only fail in the conversion of
    [createTime] to a date.  In the form, an author field comes from the
    stats of the profile page when they have it, else from the author of the
    item, else it is the empty string; the engagement rate is the one
    computed from the counters of the item. *)
Theorem built_record_maps_unless_the_date_fails item rate stats rec :
  build_record item rate stats = Ret rec ->
  exists (d base extra : gmap string pyval) t,
    item = VDict d
    /\ d !! "author" = Some (VDict base)
    /\ stats = VDict extra
    /\ d !! "createTime" = Some t
    /\ size rec = 8%nat
    /\ let pick := fun k => match extra !! k with
                            | Some v => v
                            | None => default (VStr "") (base !! k)
                            end in
       match strftime_fromtimestamp t with
       | Raise e => fill_profile_data (VDict rec) = Raise e
       | Ret s =>
           exists form metrics : gmap string pyval,
             fill_profile_data (VDict rec) = Ret (VDict form)
             /\ form !! "name" = Some (pick "nickname")
             /\ form !! "username" = Some (pick "uniqueId")
             /\ form !! "bio" = Some (pick "signature")
             /\ form !! "email"
                = Some (VStr (String.append (py_str repr_other (pick "uniqueId")) "@gmail.com"))
             /\ form !! "date_last_post" = Some (VStr s)
             /\ form !! "metrics" = Some (VDict metrics)
             /\ metrics !! "follower_count" = Some (pick "followerCount")
             /\ metrics !! "engagement_rate" = Some rate
       end.
Proof.
  unfold build_record. intros H.
  destruct item as [| | | | | | d]; try discriminate. unfold py_getitem, py_get in H.
  destruct (d !! "author") as [author |] eqn:Ha; [| discriminate]. cbn [obind] in H.
  destruct author as [| | | | | | base]; try discriminate.
  destruct stats as [| | | | | | extra]; try discriminate. cbn [obind py_as_mapping] in H.
  destruct (d !! "video") as [video |]; [| discriminate]. cbn [obind] in H.
  destruct (d !! "desc") as [desc |]; [| discriminate]. cbn [obind] in H.
  destruct (d !! "id") as [id |]; [| discriminate]. cbn [obind] in H.
  destruct (d !! "createTime") as [t |] eqn:Ht; [| discriminate]. cbn [obind] in H.
  destruct (d !! "stats") as [stats |]; [| discriminate]. cbn [obind] in H.
  injection H as Hrec.
  assert (Hauthor : rec !! "author" = Some (VDict (extra ∪ base))) by now subst rec.
  assert (Hcreate : rec !! "create_time" = Some t) by now subst rec.
  assert (Hrate : rec !! "engagement_rate" = Some rate) by now subst rec.
  assert (Hsize : size rec = 8%nat) by now subst rec.
  clear Hrec.
  exists d, base, extra, t. repeat (split; [reflexivity || assumption |]).
  cbv zeta. unfold fill_profile_data, py_get, py_getitem.
  rewrite Hauthor, Hcreate, Hrate.
  cbv beta iota delta [obind].
  destruct (strftime_fromtimestamp t) as [s | e]; [| reflexivity].
  eexists _, _. split; [reflexivity |].
  pose proof (lookup_merged extra base) as Hm. unfold default in Hm.
  repeat split; try reflexivity;
    match goal with
    | |- _ !! _ = Some _ => etransitivity; [reflexivity |]
    end; now rewrite ?Hm.
Qed.

End Record.

(* ===================================================================== *)
(** ** The entry point and the JSON helper *)
(* ===================================================================== *)

Section Entry.
Context `{P : Platform}.

(** X20.  How [main] reads the actor input.  An input that counts as false
    ([None], an empty dict, ...) is replaced by the default: the keyword
    [#k-beauty] and a target of 50.  Any other input must be a dict with a
    string under [keyword]: the scraper then gets that string behind a [#],
    and [max_influencers] as given or 50.  A non-empty dict without
    [keyword], or with a keyword that is no string, raises [TypeError]
    before a scraper exists; a true value that is no dict raises
    [AttributeError]. *)
Theorem main_arguments_defaults_and_failures :
  (forall got,
      py_truthy got = false -> main_arguments got = Ret (VStr "#k-beauty", VInt 50))
  /\ (forall (d : gmap string pyval) k,
         d !! "keyword" = Some (VStr k) ->
         main_arguments (VDict d)
         = Ret (VStr (String "#" k), default (VInt 50) (d !! "max_influencers")))
  /\ (forall got keyword target,
         main_arguments got = Ret (keyword, target) ->
         exists k,
           keyword = VStr (String "#" k)
           /\ ((py_truthy got = false /\ k = "k-beauty"%string /\ target = VInt 50)
               \/ exists d : gmap string pyval,
                    got = VDict d
                    /\ d !! "keyword" = Some (VStr k)
                    /\ target = default (VInt 50) (d !! "max_influencers")))
  /\ (forall d : gmap string pyval,
         d <> ∅ -> d !! "keyword" = None -> main_arguments (VDict d) = Raise TypeError)
  /\ (forall (d : gmap string pyval) v,
         d !! "keyword" = Some v -> (forall k, v <> VStr k) ->
         main_arguments (VDict d) = Raise TypeError)
  /\ (forall got,
         py_truthy got = true -> (forall d, got <> VDict d) ->
         main_arguments got = Raise AttributeError).
Proof.
  assert (Hdict : forall (d : gmap string pyval) k,
             d !! "keyword" = Some (VStr k) ->
             main_arguments (VDict d)
             = Ret (VStr (String "#" k), default (VInt 50) (d !! "max_influencers"))).
  { intros d k Hk. unfold main_arguments, py_or.
    assert (Hne : d <> ∅) by (intros ->; now rewrite lookup_empty in Hk).
    simpl. rewrite bool_decide_eq_false_2 by exact Hne. simpl. rewrite Hk. simpl.
    now destruct (d !! "max_influencers"). }
  assert (Hfalse : forall got,
             py_truthy got = false -> main_arguments got = Ret (VStr "#k-beauty", VInt 50)).
  { intros got Hgot. unfold main_arguments, py_or. now rewrite Hgot. }
  split; [exact Hfalse |]. split; [exact Hdict |]. split; [| split; [| split]].
  - intros got keyword target H.
    destruct (py_truthy got) eqn:Hgot.
    + destruct got as [| | | | | | d];
        try (unfold main_arguments, py_or in H; rewrite Hgot in H; discriminate).
      destruct (d !! "keyword") as [v |] eqn:Hk.
      * destruct v as [| | | | k | |];
          try (unfold main_arguments, py_or in H; rewrite Hgot in H; simpl in H;
               rewrite Hk in H; discriminate).
        rewrite (Hdict d k Hk) in H. inversion H; subst. exists k. split; [reflexivity |].
        right. exists d. auto.
      * unfold main_arguments, py_or in H. rewrite Hgot in H. simpl in H.
        rewrite Hk in H. discriminate.
    + rewrite (Hfalse got Hgot) in H. inversion H; subst. exists "k-beauty"%string.
      split; [reflexivity |]. left. auto.
  - intros d Hne Hk. unfold main_arguments, py_or. simpl.
    rewrite bool_decide_eq_false_2 by exact Hne. simpl. now rewrite Hk.
  - intros d v Hk Hv. unfold main_arguments, py_or. simpl.
    assert (Hne : d <> ∅) by (intros ->; now rewrite lookup_empty in Hk).
    rewrite bool_decide_eq_false_2 by exact Hne. simpl. rewrite Hk. simpl.
    destruct v; try reflexivity. now destruct (Hv s).
  - intros got Hgot Hnd. unfold main_arguments, py_or. rewrite Hgot.
    destruct got; try reflexivity. now destruct (Hnd d).
Qed.

Lemma text_after_strip_prefix needle s :
  text_after needle s = None -> strip_prefix needle s = None.
Proof. destruct s; simpl; now destruct (strip_prefix needle _). Qed.

Lemma remove_all_absent sub steps s :
  text_after sub s = None -> remove_all steps sub s = s.
Proof.
  revert s. induction steps as [| n IH]; intros s H; simpl; [reflexivity |].
  destruct s as [| c s]; [reflexivity |].
  rewrite (text_after_strip_prefix _ _ H).
  simpl in H. destruct (strip_prefix sub (String c s)); [discriminate |].
  now rewrite IH.
Qed.

Lemma strip_prefix_app p s : strip_prefix p (String.append p s) = Some s.
Proof.
  induction p as [| a p IH]; [reflexivity |].
  change (String.append (String a p) s) with (String a (String.append p s)).
  simpl. now rewrite Ascii.eqb_refl.
Qed.

(** Removing a prefix that occurs nowhere else gives back the rest. *)
Lemma str_remove_prefix sub body :
  sub <> EmptyString -> text_after sub body = None ->
  str_remove sub (String.append sub body) = body.
Proof.
  intros Hsub Habsent. destruct sub as [| a sub]; [contradiction |].
  unfold str_remove.
  change (String.append (String a sub) body) with (String a (String.append sub body)).
  cbn [String.length remove_all].
  change (String a (String.append sub body)) with (String.append (String a sub) body).
  rewrite strip_prefix_app. now apply remove_all_absent.
Qed.

Lemma strip_prefix_length p s rest :
  strip_prefix p s = Some rest ->
  String.length s = (String.length p + String.length rest)%nat.
Proof.
  revert s. induction p as [| a p IH]; intros s; simpl.
  - intros H. now inversion H.
  - destruct s as [| b s]; [discriminate |].
    destruct (Ascii.eqb a b); [| discriminate]. intros H. simpl. now rewrite (IH _ H).
Qed.

(** The scan of [str_remove] is given steps enough: more change nothing. *)
Lemma remove_all_enough sub : sub <> EmptyString ->
  forall n m s,
    (String.length s <= n)%nat -> (String.length s <= m)%nat ->
    remove_all n sub s = remove_all m sub s.
Proof.
  intros Hsub. induction n as [| n IH]; intros m s Hn Hm.
  - destruct s; [now destruct m | simpl in Hn; lia].
  - destruct m as [| m]; [destruct s; [reflexivity | simpl in Hm; lia] |].
    simpl. destruct s as [| c s]; [reflexivity |].
    destruct (strip_prefix sub (String c s)) as [rest |] eqn:E.
    + apply strip_prefix_length in E. simpl in Hn, Hm, E.
      assert (0 < String.length sub)%nat by (destruct sub; [contradiction | simpl; lia]).
      apply IH; lia.
    + simpl in Hn, Hm. f_equal. apply IH; lia.
Qed.

(** X21.  [extract_json_data] never raises and sends nothing.  It returns
    the parsed value, without a log line, exactly when both arguments are
    strings and the text left after removing [sub] and stripping the white
    space parses; in every other case it logs one error and returns [None].
    When [sub] is a non-empty prefix of the text and does not occur behind
    it, what is parsed is the rest of the text, stripped; with the empty
    [sub] it is the text, stripped.  The scan that removes [sub] has steps
    enough: with more it gives the same. *)
Theorem extract_json_data_never_raises :
  (forall response_text sub st,
      (exists v,
          extract_json_data response_text sub st = Some (Ret v, st)
          /\ exists s p,
               response_text = VStr s /\ sub = VStr p
               /\ json_loads (str_strip (str_remove p s)) = Some v)
      \/ (extract_json_data response_text sub st
          = Some (Ret VNone,
                  add_event
                    (EvLog ERROR "apify_client" "Unable to extract website of the club.") st)
          /\ forall s p,
               response_text = VStr s -> sub = VStr p ->
               json_loads (str_strip (str_remove p s)) = None))
  /\ (forall p body,
         p <> EmptyString -> text_after p body = None ->
         replace_strip (VStr (String.append p body)) (VStr p) = Ret (str_strip body))
  /\ (forall s, replace_strip (VStr s) (VStr EmptyString) = Ret (str_strip s))
  /\ (forall sub s n,
         sub <> EmptyString -> (String.length s <= n)%nat ->
         remove_all n sub s = str_remove sub s).
Proof.
  split; [| split; [| split]].
  - intros response_text sub st.
    unfold extract_json_data, try_except, bind, lift, replace_strip.
    destruct response_text as [| | | | s | |];
      try (right; split; [reflexivity | intros; discriminate]).
    destruct sub as [| | | | p | |];
      try (right; split; [reflexivity | intros; discriminate]).
    simpl. destruct (json_loads (str_strip (str_remove p s))) as [v |] eqn:Hjson; simpl.
    + left. exists v. split; [reflexivity |]. eauto.
    + right. split; [reflexivity |]. intros s' p' Hs Hp. inversion Hs; inversion Hp; subst.
      exact Hjson.
  - intros p body Hp Habsent. unfold replace_strip. now rewrite str_remove_prefix.
  - reflexivity.
  - intros sub s n Hsub Hn. unfold str_remove.
    destruct sub as [| a sub]; [contradiction |].
    now apply remove_all_enough.
Qed.

End Entry.

(* ===================================================================== *)
(** ** The arithmetic of the engagement rate *)
(* ===================================================================== *)

Section Rounding.

Lemma digits2_pos_size p : digits2_pos p = Pos.size p.
Proof. induction p as [p IH | p IH |]; simpl; now rewrite ?IH. Qed.

Lemma Zdigits2_log2 m : 0 < m -> Zdigits2 m = Z.log2 m + 1.
Proof.
  destruct m as [| p | p]; try lia. intros _. simpl.
  rewrite digits2_pos_size. destruct p; simpl; lia.
Qed.

Lemma shr_1_m mrs : 0 <= shr_m mrs -> shr_m (shr_1 mrs) = Z.div2 (shr_m mrs).
Proof.
  destruct mrs as [m r s]. simpl. destruct m as [| [p | p |] | p]; simpl; try reflexivity; lia.
Qed.

Lemma iter_pos_shr_m p : forall mrs,
  0 <= shr_m mrs -> shr_m (SpecFloat.iter_pos shr_1 p mrs) = Z.shiftr (shr_m mrs) (Zpos p).
Proof.
  induction p as [p IH | p IH |]; intros mrs Hm; simpl SpecFloat.iter_pos.
  - assert (H1 : 0 <= shr_m (shr_1 mrs))
      by (rewrite shr_1_m, Z.div2_spec by exact Hm; now apply Z.shiftr_nonneg).
    assert (H2 : 0 <= shr_m (SpecFloat.iter_pos shr_1 p (shr_1 mrs)))
      by (rewrite IH by exact H1; now apply Z.shiftr_nonneg).
    rewrite IH, IH, shr_1_m, Z.div2_spec by assumption.
    rewrite !Z.shiftr_shiftr by lia. f_equal. lia.
  - assert (H2 : 0 <= shr_m (SpecFloat.iter_pos shr_1 p mrs))
      by (rewrite IH by exact Hm; now apply Z.shiftr_nonneg).
    rewrite IH, IH by assumption.
    rewrite Z.shiftr_shiftr by lia. f_equal. lia.
  - rewrite shr_1_m, Z.div2_spec by exact Hm. reflexivity.
Qed.

Lemma shr_record_of_loc_m m l : shr_m (shr_record_of_loc m l) = m.
Proof. destruct l as [| []]; reflexivity. Qed.

(** Shifting to the canonical exponent keeps a mantissa non-negative. *)
Lemma shr_fexp_nonneg m e l : 0 <= m -> 0 <= shr_m (fst (shr_fexp prec emax m e l)).
Proof.
  intros Hm. unfold shr_fexp, shr.
  destruct (fexp prec emax (Zdigits2 m + e) - e) as [| p | p]; simpl;
    rewrite ?iter_pos_shr_m, shr_record_of_loc_m; rewrite ?shr_record_of_loc_m;
    try assumption.
  now apply Z.shiftr_nonneg.
Qed.

(** It keeps a positive mantissa positive when the number is not below the
    least exponent, and then the sum of digits and exponent stays. *)
Lemma shr_fexp_pos m e l :
  0 < m -> SpecFloat.emin prec emax < Zdigits2 m + e ->
  0 < shr_m (fst (shr_fexp prec emax m e l))
  /\ Zdigits2 (shr_m (fst (shr_fexp prec emax m e l))) + snd (shr_fexp prec emax m e l)
     = Zdigits2 m + e.
Proof.
  intros Hm Hmin. unfold shr_fexp, shr.
  destruct (fexp prec emax (Zdigits2 m + e) - e) as [| p | p] eqn:Hn; simpl;
    rewrite ?shr_record_of_loc_m; try (split; [assumption | reflexivity]).
  rewrite iter_pos_shr_m, shr_record_of_loc_m by (rewrite shr_record_of_loc_m; lia).
  assert (Hd : Zdigits2 m = Z.log2 m + 1) by now apply Zdigits2_log2.
  assert (Hp : Zpos p <= Z.log2 m).
  { unfold fexp, SpecFloat.emin, prec, emax in *. lia. }
  assert (Hlog : Z.log2 (Z.shiftr m (Zpos p)) = Z.log2 m - Zpos p).
  { rewrite Z.log2_shiftr by exact Hm. lia. }
  assert (Hpos : 0 < Z.shiftr m (Zpos p)).
  { rewrite Z.shiftr_div_pow2 by lia. apply Z.div_str_pos. split; [lia |].
    transitivity (2 ^ Z.log2 m).
    - apply Z.pow_le_mono_r; lia.
    - now apply Z.log2_spec. }
  split; [exact Hpos |]. rewrite (Zdigits2_log2 _ Hpos), Hlog, Hd. lia.
Qed.

Lemma round_nearest_even_bounds m l :
  m <= round_nearest_even m l <= m + 1.
Proof. destruct l as [| []]; simpl; try lia. destruct (Z.even m); lia. Qed.

(** The shapes of a rounded result: from a non-negative mantissa never NaN
    and with the sign asked for; from a positive mantissa of a number that
    is not below the least exponent never zero either. *)
Lemma binary_round_aux_nonneg s m e l :
  0 <= m ->
  binary_round_aux prec emax s m e l = S754_zero s
  \/ binary_round_aux prec emax s m e l = S754_infinity s
  \/ exists m' e', binary_round_aux prec emax s m e l = S754_finite s m' e'.
Proof.
  intros Hm. unfold binary_round_aux.
  pose proof (shr_fexp_nonneg m e l Hm) as H1.
  destruct (shr_fexp prec emax m e l) as [mrs' e']. simpl in H1.
  pose proof (round_nearest_even_bounds (shr_m mrs') (loc_of_shr_record mrs')) as Hr.
  pose proof (shr_fexp_nonneg (round_nearest_even (shr_m mrs') (loc_of_shr_record mrs')) e'
                loc_Exact ltac:(lia)) as H2.
  destruct (shr_fexp prec emax _ e' loc_Exact) as [mrs'' e'']. simpl in H2.
  destruct (shr_m mrs'') as [| p | p]; [auto | | lia].
  destruct (e'' <=? emax - prec); eauto.
Qed.

Lemma binary_round_aux_pos s m e l :
  0 < m -> SpecFloat.emin prec emax < Zdigits2 m + e ->
  binary_round_aux prec emax s m e l = S754_infinity s
  \/ exists m' e', binary_round_aux prec emax s m e l = S754_finite s m' e'.
Proof.
  intros Hm Hmin. unfold binary_round_aux.
  pose proof (shr_fexp_pos m e l Hm Hmin) as [H1 D1].
  destruct (shr_fexp prec emax m e l) as [mrs' e']. simpl in H1, D1.
  pose proof (round_nearest_even_bounds (shr_m mrs') (loc_of_shr_record mrs')) as Hr.
  set (m2 := round_nearest_even (shr_m mrs') (loc_of_shr_record mrs')) in *.
  assert (Hm2 : 0 < m2) by lia.
  assert (Hdig : Zdigits2 (shr_m mrs') <= Zdigits2 m2).
  { rewrite !Zdigits2_log2 by lia. apply Z.add_le_mono_r. apply Z.log2_le_mono. lia. }
  pose proof (shr_fexp_pos m2 e' loc_Exact Hm2 ltac:(lia)) as [H2 _].
  destruct (shr_fexp prec emax m2 e' loc_Exact) as [mrs'' e'']. simpl in H2.
  destruct (shr_m mrs'') as [| p | p]; try lia.
  destruct (e'' <=? emax - prec); eauto.
Qed.

(** [float(z)] of a positive integer is a positive double, if it is one. *)
Lemma float_of_int_pos z :
  0 < z ->
  float_of_int z = Raise OverflowError
  \/ exists m e, float_of_int z = Ret (S754_finite false m e).
Proof.
  intros Hz. destruct z as [| p | p]; try lia.
  unfold float_of_int, binary_normalize, binary_round.
  destruct (shl_align p 0 (fexp prec emax (Z.pos (digits2_pos p) + 0))) as [mz ez] eqn:Ha.
  assert (Hmin : SpecFloat.emin prec emax < Zdigits2 (Zpos mz) + ez).
  { unfold shl_align in Ha. simpl Zdigits2.
    pose proof (Pos2Z.is_pos (digits2_pos mz)) as Hpos.
    pose proof (Pos2Z.is_pos (digits2_pos p)) as Hpos'.
    destruct (fexp prec emax (Z.pos (digits2_pos p) + 0) - 0) eqn:Hd;
      inversion Ha; subst; unfold fexp, SpecFloat.emin, prec, emax in *; lia. }
  destruct (binary_round_aux_pos false (Zpos mz) ez loc_Exact ltac:(lia) Hmin)
    as [-> | (m' & e' & ->)]; eauto.
Qed.

End Rounding.

Section RateErrors.

Lemma num_to_float_raises n e : num_to_float n = Raise e -> e = OverflowError.
Proof.
  destruct n as [z | f]; simpl; [| discriminate].
  unfold float_of_int. destruct (binary_normalize prec emax z 0 false); congruence.
Qed.

Lemma py_add_raises a b e :
  py_add a b = Raise e -> e = TypeError \/ e = OverflowError.
Proof.
  unfold py_add.
  destruct (as_num a) as [[x | f] |] eqn:Ea, (as_num b) as [[y | g] |] eqn:Eb;
    try discriminate;
    try (destruct a, b; intros H; inversion H; auto; fail);
    try (simpl; intros H;
         repeat match type of H with
                | obind ?m _ = _ =>
                    let E := fresh "E" in
                    destruct m eqn:E; simpl in H;
                    [| inversion H; subst;
                       first [ apply num_to_float_raises in E
                             | apply (num_to_float_raises (NInt _)) in E ];
                       auto ]
                end; discriminate).
Qed.

(** A value that compares greater than 0 is a positive integer or a float
    that is no zero. *)
Lemma py_gt_int_true v :
  py_gt_int v 0 = Ret true ->
  (exists z, as_num v = Some (NInt z) /\ 0 < z)
  \/ (exists f, as_num v = Some (NFloat f) /\ float_is_zero f = false).
Proof.
  unfold py_gt_int. destruct (as_num v) as [[z | f] |]; [| | discriminate]; simpl.
  - destruct (z ?= 0) eqn:Hc; intros H; inversion H. left. exists z. split; [reflexivity |].
    now apply Z.compare_gt_iff.
  - intros H. right. exists f. split; [reflexivity |].
    destruct f; try reflexivity. simpl in H. discriminate.
Qed.

Lemma int_truediv_raises a b e :
  b <> 0 -> int_truediv a b = Raise e -> e = OverflowError.
Proof.
  intros Hb. unfold int_truediv. apply Z.eqb_neq in Hb. rewrite Hb.
  destruct (SFdiv prec emax (exact_int a) (exact_int b)); congruence.
Qed.

Lemma py_truediv_positive a v :
  py_gt_int v 0 = Ret true ->
  (exists q, py_truediv a v = Ret (VFloat q))
  \/ py_truediv a v = Raise TypeError
  \/ py_truediv a v = Raise OverflowError.
Proof.
  intros Hv. apply py_gt_int_true in Hv as [(z & Hz & Hpos) | (f & Hf & Hnz)];
    unfold py_truediv; [rewrite Hz | rewrite Hf].
  - destruct (as_num a) as [[x | g] |]; [| | auto].
    + destruct (int_truediv x z) as [q | e] eqn:E; simpl; [eauto |].
      apply int_truediv_raises in E; [subst; auto | lia].
    + simpl. destruct (float_of_int_pos z Hpos) as [-> | (m & ex & ->)]; simpl; eauto.
  - destruct (as_num a) as [[x | g] |]; [| | auto]; simpl.
    + destruct (float_of_int x) as [fx | e] eqn:E; simpl.
      * unfold float_truediv. rewrite Hnz. simpl. eauto.
      * apply (num_to_float_raises (NInt x)) in E. subst. auto.
    + unfold float_truediv. rewrite Hnz. simpl. eauto.
Qed.

Lemma float_of_int_100 : exists m e, float_of_int 100 = Ret (S754_finite false m e).
Proof. eexists _, _. vm_compute. reflexivity. Qed.

(** X22.  What [calculate_engagement_rate] can do, whatever its four
    arguments are.  It never raises [ZeroDivisionError]: the test on the
    views rules out a zero divisor, an integer as well as a float one.  The
    only exceptions are [TypeError], for an argument that is no number, and
    [OverflowError], for integers beyond the doubles.  What it returns is
    the integer 0 or a float. *)
Theorem calculate_engagement_rate_raises_only_type_or_overflow likes comments shares views :
  (forall e,
      calculate_engagement_rate likes comments shares views = Raise e ->
      e = TypeError \/ e = OverflowError)
  /\ calculate_engagement_rate likes comments shares views <> Raise ZeroDivisionError
  /\ (forall v,
         calculate_engagement_rate likes comments shares views = Ret v ->
         v = VInt 0 \/ exists f, v = VFloat f)
  /\ (as_num views = None ->
      calculate_engagement_rate likes comments shares views = Raise TypeError).
Proof.
  assert (Hshape :
            calculate_engagement_rate likes comments shares views = Ret (VInt 0)
            \/ (exists f, calculate_engagement_rate likes comments shares views = Ret (VFloat f))
            \/ calculate_engagement_rate likes comments shares views = Raise TypeError
            \/ calculate_engagement_rate likes comments shares views = Raise OverflowError).
  { unfold calculate_engagement_rate.
    destruct (py_gt_int views 0) as [[|] |] eqn:Hv; cbn [obind].
    - destruct (py_add likes comments) as [s1 |] eqn:E1; cbn [obind];
        [| apply py_add_raises in E1 as [-> | ->]; auto].
      destruct (py_add s1 shares) as [s2 |] eqn:E2; cbn [obind];
        [| apply py_add_raises in E2 as [-> | ->]; auto].
      destruct (py_truediv_positive s2 views Hv) as [(q & ->) | [-> | ->]]; cbn [obind]; auto.
      right. left. unfold py_mul. cbn [as_num num_to_float obind].
      destruct float_of_int_100 as (m & ex & ->). cbn [obind]. eauto.
    - auto.
    - right. right. left. unfold py_gt_int in Hv.
      destruct (as_num views); inversion Hv. reflexivity. }
  split; [| split; [| split]].
  - intros e H. destruct Hshape as [H' | [(f & H') | [H' | H']]]; rewrite H' in H;
      inversion H; auto.
  - intros H. destruct Hshape as [H' | [(f & H') | [H' | H']]]; rewrite H' in H; discriminate.
  - intros v H. destruct Hshape as [H' | [(f & H') | [H' | H']]]; rewrite H' in H;
      inversion H; eauto.
  - intros Hn. unfold calculate_engagement_rate, py_gt_int. now rewrite Hn.
Qed.

End RateErrors.

Section RateSign.

Lemma SFdiv_core_binary_nonneg m1 e1 m2 e2 :
  0 < m1 -> 0 < m2 -> 0 <= fst (fst (SFdiv_core_binary prec emax m1 e1 m2 e2)).
Proof.
  intros H1 H2. unfold SFdiv_core_binary.
  set (s := e1 - e2 - _).
  set (m' := match s with Z0 => m1 | Zpos _ => Z.shiftl m1 s | Zneg _ => 0 end).
  assert (Hm' : 0 <= m').
  { unfold m'. destruct s; try lia. apply Z.shiftl_nonneg. lia. }
  pose proof (Z.div_pos m' m2 Hm' H2) as Hq. unfold Z.div in Hq.
  destruct (Z.div_eucl m' m2) as [q r]. exact Hq.
Qed.

(** The quotient of a non-negative by a positive integer is a double that is
    neither negative nor NaN, if it is one. *)
Lemma int_truediv_nonneg a b :
  0 <= a -> 0 < b ->
  int_truediv a b = Raise OverflowError
  \/ int_truediv a b = Ret (S754_zero false)
  \/ exists m e, int_truediv a b = Ret (S754_finite false m e).
Proof.
  intros Ha Hb. unfold int_truediv.
  destruct (b =? 0) eqn:E; [apply Z.eqb_eq in E; lia |].
  destruct b as [| pb | pb]; try lia. destruct a as [| pa | pa]; try lia; simpl exact_int.
  - right. left. reflexivity.
  - unfold SFdiv.
    pose proof (SFdiv_core_binary_nonneg (Zpos pa) 0 (Zpos pb) 0 ltac:(lia) ltac:(lia)) as Hq.
    destruct (SFdiv_core_binary prec emax (Zpos pa) 0 (Zpos pb) 0) as [[mz ez] lz].
    simpl in Hq.
    destruct (binary_round_aux_nonneg (xorb false false) mz ez lz Hq)
      as [-> | [-> | (m & e & ->)]]; simpl; eauto.
Qed.

(** X23.  With counters that are not negative and views that are positive,
    all integers, the engagement rate is a float that is neither negative
    nor NaN: zero, a positive double or plus infinity (when the product with
    100 overflows); or the call raises [OverflowError], when the quotient
    itself is beyond the doubles. *)
Theorem calculate_engagement_rate_is_never_negative (likes comments shares views : Z) :
  0 <= likes -> 0 <= comments -> 0 <= shares -> 0 < views ->
  let rate := calculate_engagement_rate (VInt likes) (VInt comments) (VInt shares)
                (VInt views) in
  rate = Raise OverflowError
  \/ rate = Ret (VFloat (S754_zero false))
  \/ rate = Ret (VFloat (S754_infinity false))
  \/ exists m e, rate = Ret (VFloat (S754_finite false m e)).
Proof.
  intros Hl Hc Hs Hv rate. subst rate. unfold calculate_engagement_rate.
  rewrite (py_gt_int_pos _ Hv). cbn [obind].
  rewrite py_add_int. cbn [obind]. rewrite py_add_int. cbn [obind].
  unfold py_truediv. cbn [as_num].
  destruct float_of_int_100 as (m100 & e100 & H100).
  destruct (int_truediv_nonneg (likes + comments + shares) views ltac:(lia) Hv)
    as [-> | [-> | (m & e & ->)]]; cbn [obind]; [auto | |];
    unfold py_mul; cbn [as_num num_to_float obind]; rewrite H100; cbn [obind].
  - right. left. reflexivity.
  - unfold SFmul.
    destruct (binary_round_aux_nonneg (xorb false false) (Zpos (m * m100)) (e + e100) loc_Exact
                ltac:(lia)) as [-> | [-> | (m' & e' & ->)]]; simpl; eauto 6.
Qed.

End RateSign.

(* ===================================================================== *)
(** ** Two edges of the search loop and of an item *)
(* ===================================================================== *)

Section Edges.
Context `{P : Platform}.

Lemma get_author_metadata_returns id st :
  exists v st1, get_author_metadata id st = Some (Ret v, st1).
Proof.
  rewrite get_author_metadata_run.
  destruct (get_request_data_async_total (rq_url (profile_request id ∅)) (VDict headers)
              (VDict cookies) (VDict (st_params_keyword st)) st) as ([page | e] & st1 & ->).
  - destruct (parse_stats page); eauto.
  - eauto.
Qed.

(** X24.  An item whose author has no [uniqueId] costs a request and gives
    nothing.  [process_video_item] reads the handle once with [get], which
    yields [None], and fetches the profile page of [@None]; it reads it
    again with a subscript before the comments, which raises.  So whatever
    the profile fetch returns, the run ends in the error line right after
    [get_author_metadata]: no comment page is requested and nothing is
    pushed. *)
Theorem item_without_handle_costs_a_profile_request fuel (d a : gmap string pyval) rate st :
  d !! "author" = Some (VDict a) ->
  a !! "uniqueId" = None ->
  item_rate (VDict d) = Ret rate ->
  exists stats st1,
    get_author_metadata VNone st = Some (Ret stats, st1)
    /\ (exists rest,
           st_trace st1
           = st_trace st ++ EvGet (profile_request VNone (st_params_keyword st)) :: rest)
    /\ rq_url (profile_request VNone ∅) = "https://www.tiktok.com/@None"%string
    /\ process_video_item fuel (VDict d) st = Some (Ret tt, add_event processing_error st1)
    /\ pushes (st_trace (add_event processing_error st1)) = pushes (st_trace st).
Proof.
  intros Hauthor Hhandle Hrate.
  destruct (get_author_metadata_returns VNone st) as (stats & st1 & Hmeta).
  exists stats, st1. split; [exact Hmeta |].
  split; [now apply get_author_metadata_sends in Hmeta |].
  split; [reflexivity |].
  assert (Hid : item_author_id (VDict d) = Ret VNone).
  { unfold item_author_id, py_getitem. rewrite Hauthor. simpl. now rewrite Hhandle. }
  split.
  - unfold process_video_item, try_except.
    rewrite process_video_body_eq, Hrate, Hid. unfold process_video_rest.
    rewrite (bind_Ret _ _ _ _ _ Hmeta).
    unfold bind, lift.
    destruct (build_record (VDict d) rate stats); [| reflexivity].
    destruct (py_getitem (VDict d) "id"); [| reflexivity].
    unfold py_getitem. rewrite Hauthor, Hhandle. reflexivity.
  - assert (Hsame : same_pushes st st1).
    { revert Hmeta. apply preserves_get_author_metadata;
        [ exact same_pushes_refl | exact same_pushes_trans | exact same_pushes_log
        | exact same_pushes_get ]. }
    unfold same_pushes in Hsame. simpl. rewrite pushes_app, Hsame. apply app_nil_r.
Qed.

(** X25.  A scraper whose accumulator has reached its target (a target of 0
    or below, for one) does not enter the search loop: [extract_influencers]
    returns the accumulator at once, on any fuel but none, and the state,
    trace included, is as before: no request is sent. *)
Theorem reached_target_fetches_nothing inner n st :
  max_influencers (st_self st) <= Z.of_nat (length (total_data (st_self st))) ->
  extract_influencers_loop inner (S n) st = Some (Ret (total_data (st_self st)), st)
  /\ extract_influencers (S n) st = Some (Ret (total_data (st_self st)), st).
Proof.
  intros Hmax.
  assert (H : forall k, extract_influencers_loop k (S n) st
                        = Some (Ret (total_data (st_self st)), st)).
  { intros k. simpl. unfold bind, get_self.
    destruct (Z.of_nat (length (total_data (st_self st))) <? max_influencers (st_self st))
      eqn:Hlt; [apply Z.ltb_lt in Hlt; lia | reflexivity]. }
  split; [apply H |]. unfold extract_influencers. apply H.
Qed.

End Edges.

(* ===================================================================== *)
(** * The properties at concrete inputs *)
(* ===================================================================== *)

Import Fixtures.

(** On [empty_search] every search page is empty, whatever the state. *)
Lemma empty_search_page (st : @State empty_search) :
  exists st1, search_fetch_parse st = Some (Ret [], st1).
Proof.
  unfold search_fetch_parse, bind, get_self, get_params_keyword, set_params_keyword,
    get_request_data_async, try_except, bind, http_get.
  cbn [client_get empty_search scripted rq_url st_world]. simpl.
  match goal with
  | |- context [bool_decide ?p] =>
      replace (bool_decide p) with true by (vm_compute; reflexivity)
  end.
  simpl. eexists. reflexivity.
Qed.

Lemma empty_search_never_ends inner : forall fuel (st : @State empty_search),
  total_data (st_self st) = [] ->
  max_influencers (st_self st) = 1 ->
  extract_influencers_loop inner fuel st = None.
Proof.
  induction fuel as [| n IH]; intros st Hempty Hmax.
  - reflexivity.
  - destruct (empty_search_page st) as [st1 Hpage].
    rewrite (search_continues_after_empty_page inner n st st1 Hpage).
    + apply IH; simpl; assumption.
    + rewrite Hempty, Hmax. simpl. lia.
Qed.

(** C1, where the code departs from it.  The first search fetch returns an
    empty item list, and the target is one creator.  The first iteration ends
    with [Continue], and so does the second: two search pages have been
    fetched, at offsets 0 and 20, and nothing was pushed.  The loop never
    ends: whatever the fuel, it runs out. *)
Theorem search_refetches_after_empty_page :
  (exists st1 st2,
      extract_influencers_step 1 (fresh empty_search 0%nat) = Some (Ret (Continue tt), st1)
      /\ extract_influencers_step 1 st1 = Some (Ret (Continue tt), st2)
      /\ fetched_with "offset" (st_trace st2) = [Some (VInt 0); Some (VInt 20)]
      /\ pushes (st_trace st2) = [])
  /\ forall fuel, extract_influencers fuel (fresh empty_search 0%nat) = None.
Proof.
  split.
  - eexists. eexists. split; [vm_compute; reflexivity |].
    split; [vm_compute; reflexivity |].
    split; vm_compute; reflexivity.
  - intros fuel. apply empty_search_never_ends; reflexivity.
Qed.

(** C2, where the code departs from it.  A comment by a fan states three
    replies and carries two inline, the first written by the creator of the
    video.  The comment itself is marked ([False]); its replies are the
    inline list as it came, and the creator's reply has no [is_author_reply]
    entry. *)
Theorem inline_replies_are_returned_untagged :
  extract_comment_replies 1 comment_with_inline_replies (VStr "creator") (fresh offline 0%nat)
  = Some (Ret (VList [creator_reply; fan_reply]), fresh offline 0%nat)
  /\ author_of creator_reply = Ret (VStr "creator")
  /\ py_getitem creator_reply "is_author_reply" = Raise KeyError
  /\ exists c,
       process_comments 1 (VStr "creator") [comment_with_inline_replies] (fresh offline 0%nat)
       = Some (Ret [c], fresh offline 0%nat)
       /\ py_getitem c "is_author_reply" = Ret (VBool false)
       /\ py_getitem c "replies" = Ret (VList [creator_reply; fan_reply]).
Proof.
  split; [vm_compute; reflexivity |].
  split; [vm_compute; reflexivity |].
  split; [vm_compute; reflexivity |].
  eexists. split; [vm_compute; reflexivity |].
  split; vm_compute; reflexivity.
Qed.

(** C3 fails as stated: a first page of 19 comments and five pages of 20
    give a list of 119. *)
Lemma comments_can_exceed_100 :
  match extract_comments 6 (VStr "v1") (VStr "creator") (fresh long_thread 0%nat) with
  | Some (Ret l, st') =>
      length l = 119%nat
      /\ fetched_with "cursor" (st_trace st')
         = [Some (VInt 0); Some (VInt 20); Some (VInt 40);
            Some (VInt 60); Some (VInt 80); Some (VInt 100)]
  | _ => False
  end.
Proof. vm_compute. split; reflexivity. Qed.

Lemma comments_cap_checked_before_next_fetch_witness :
  exists r st',
    extract_comments_loop 4 4 (VStr "v1") (VStr "creator") [] 0 (fresh short_thread 0%nat)
    = Some (r, st')
    /\ (length (@nil pyval) < 100)%nat
    /\ exists l,
         r = Ret l
         /\ ((length l < 100)%nat
             \/ exists pre batch cur st1,
                  l = pre ++ batch
                  /\ (length pre < 100)%nat
                  /\ extract_comment_batch (P := short_thread) 4
                       (comment_params (P := short_thread) (VStr "v1") cur)
                       (VStr "creator") st1
                     = Some (Ret batch, st')).
Proof.
  assert (Hsome : match extract_comments_loop 4 4 (VStr "v1") (VStr "creator") [] 0
                          (fresh short_thread 0%nat) with
                  | Some _ => true
                  | None => false
                  end = true) by (vm_compute; reflexivity).
  destruct (extract_comments_loop 4 4 (VStr "v1") (VStr "creator") [] 0
              (fresh short_thread 0%nat)) as [[r st'] |] eqn:Hrun; [| discriminate Hsome].
  exists r, st'. split; [reflexivity |]. split; [simpl; lia |].
  destruct (comments_cap_checked_before_next_fetch 4 4 (VStr "v1") (VStr "creator") [] 0
              (fresh short_thread 0%nat) r st' Hrun) as (l & Hl & Hcases & _).
  - simpl. lia.
  - exists l. split; assumption.
Defined.

(** Scenario C: three stated replies, two inline. *)
Lemma replies_inline_or_fetched_witness :
  (py_le_int (VInt 3) 4 = Ret true
   /\ extract_comment_replies 1 comment_with_inline_replies (VStr "creator")
        (fresh offline 0%nat)
      = Some (Ret (VList [creator_reply; fan_reply]), fresh offline 0%nat))
  /\ py_le_int (VInt 7) 4 = Ret false
  /\ (exists page st1 logs,
         fetch_comment_replies (VStr "c1") (VStr "v1") "0" (VStr "creator")
           (fresh numeric_cursor 0%nat)
         = Some (page, st1)
         /\ st_trace st1
            = st_trace (fresh numeric_cursor 0%nat)
              ++ EvGet (reply_request (P := numeric_cursor) (VStr "c1") (VStr "v1") "0")
              :: logs)
  /\ exists v st' batches,
       extract_comment_replies 3 busy_comment (VStr "creator") (fresh numeric_cursor 0%nat)
       = Some (Ret v, st')
       /\ reply_pages (VStr "c1") (VStr "v1") (VStr "creator") (VInt 0)
            (fresh numeric_cursor 0%nat) batches st'
       /\ v = VList (concat batches)
       /\ Forall (Forall (tagged (VStr "creator"))) batches
       /\ (length batches < 3)%nat.
Proof.
  split.
  { split; [reflexivity |].
    exact (replies_inline_or_fetched (P := offline) 1
             (list_to_map
                [("cid", VStr "c1"); ("aweme_id", VStr "v1");
                 ("user", dict [("unique_id", VStr "fan")]);
                 ("reply_comment_total", VInt 3);
                 ("reply_comment", VList [creator_reply; fan_reply])])
             (VStr "creator") (fresh offline 0%nat) true eq_refl). }
  split; [reflexivity |].
  pose proof (replies_inline_or_fetched (P := numeric_cursor) 3
                (list_to_map
                   [("cid", VStr "c1"); ("aweme_id", VStr "v1");
                    ("user", dict [("unique_id", VStr "fan")]);
                    ("reply_comment_total", VInt 7);
                    ("reply_comment", VList [fan_reply])])
                (VStr "creator") (fresh numeric_cursor 0%nat) false eq_refl)
    as (_ & _ & (page & st1 & logs & Hfetch & Hlogs & _) & Hsound & _).
  split; [exists page, st1, logs; split; [exact Hfetch | exact Hlogs] |].
  assert (Hsome : match extract_comment_replies 3 busy_comment (VStr "creator")
                          (fresh numeric_cursor 0%nat) with
                  | Some (Ret _, _) => true
                  | _ => false
                  end = true) by (vm_compute; reflexivity).
  destruct (extract_comment_replies 3 busy_comment (VStr "creator")
              (fresh numeric_cursor 0%nat)) as [[[v | e] st'] |] eqn:Hrun;
    try discriminate Hsome.
  destruct (Hsound v st' Hrun) as (batches & Hpages & Hv & Htagged & Hlen).
  exists v, st', batches. repeat split; assumption.
Defined.

(** C6 fails as stated: the cursor that [fetch_comment_replies] returns is
    what the response holds, here the integer 5, and the loop goes past the
    non-empty batch without an error, fetching the next page at cursor "6". *)
Lemma reply_cursor_can_be_an_integer :
  match fetch_comment_replies (VStr "c1") (VStr "v1") "0" (VStr "creator")
          (fresh numeric_cursor 0%nat) with
  | Some (Ret (_ :: _, VInt 5), _) => True
  | _ => False
  end
  /\ match extract_comment_replies 3 busy_comment (VStr "creator")
             (fresh numeric_cursor 0%nat) with
     | Some (Ret (VList replies), st') =>
         length replies = 1%nat
         /\ fetched_with "cursor" (st_trace st') = [Some (VStr "0"); Some (VStr "6")]
     | _ => False
     end.
Proof.
  split.
  - vm_compute. exact I.
  - vm_compute. split; reflexivity.
Qed.

Lemma reply_cursor_advance_witness :
  exists batch st1,
    fetch_comment_replies (VStr "c1") (VStr "v1") "0"
      (VStr "creator") (fresh numeric_cursor 0%nat) = Some (Ret (batch, VInt 5), st1)
    /\ batch <> []
    /\ extract_comment_replies_loop 2 (VStr "c1") (VStr "v1") (VStr "creator") []
         (VInt 0) (fresh numeric_cursor 0%nat)
       = extract_comment_replies_loop 1 (VStr "c1") (VStr "v1") (VStr "creator")
           ([] ++ batch) (VInt 6) st1.
Proof.
  assert (Hok : match fetch_comment_replies (VStr "c1") (VStr "v1") "0" (VStr "creator")
                        (fresh numeric_cursor 0%nat) with
                | Some (Ret (_ :: _, VInt z), _) => z =? 5
                | _ => false
                end = true) by (vm_compute; reflexivity).
  destruct (fetch_comment_replies (VStr "c1") (VStr "v1") "0" (VStr "creator")
              (fresh numeric_cursor 0%nat))
    as [[[[[| b batch] next] | e] st1] |] eqn:Hfetch; try discriminate Hok.
  destruct next as [| | z | | | |]; try discriminate Hok.
  apply Z.eqb_eq in Hok. subst z.
  exists (b :: batch), st1. split; [reflexivity |]. split; [discriminate |].
  refine (proj1 (reply_cursor_advance (P := numeric_cursor) 1 (VStr "c1") (VStr "v1")
                   (VStr "creator") [] (VInt 0) (fresh numeric_cursor 0%nat)
                   (b :: batch) (VInt 5) st1 Hfetch _)).
  discriminate.
Defined.

(** A textual token stops the loop at the first non-empty batch. *)
Lemma textual_cursor_raises :
  match extract_comment_replies 3 busy_comment (VStr "creator")
          (fresh textual_cursor 0%nat) with
  | Some (Raise TypeError, st') =>
      fetched_with "cursor" (st_trace st') = [Some (VStr "0")]
  | _ => False
  end.
Proof. vm_compute. reflexivity. Qed.

Lemma process_video_item_never_raises_witness :
  process_video_body 1 bare_item (fresh offline 0%nat)
  = Some (Raise KeyError, fresh offline 0%nat)
  /\ process_video_item 1 bare_item (fresh offline 0%nat)
     = Some (Ret tt, add_event processing_error (fresh offline 0%nat))
  /\ pushes (st_trace (add_event processing_error (fresh offline 0%nat)))
     = pushes (st_trace (fresh offline 0%nat)).
Proof.
  split; [vm_compute; reflexivity |].
  apply (proj2 (process_video_item_never_raises 1 bare_item (fresh offline 0%nat))
           KeyError (fresh offline 0%nat)).
  vm_compute. reflexivity.
Defined.

(** Scenario E: the profile cannot be fetched. *)
Lemma get_author_metadata_never_fails_witness :
  exists st' rec base,
    get_author_metadata (VStr "creator") (fresh offline 0%nat) = Some (Ret (VDict ∅), st')
    /\ item_rate full_item = Ret (VFloat twenty)
    /\ build_record full_item (VFloat twenty) (VDict ∅) = Ret rec
    /\ py_getitem full_item "author" = Ret (VDict base)
    /\ rec !! "author" = Some (VDict base)
    /\ rec !! "engagement_rate" = Some (VFloat twenty).
Proof.
  pose proof (get_author_metadata_never_fails (P := offline) (VStr "creator")
                (fresh offline 0%nat)) as [(v & st' & Hrun & Hpage & _) Hrecord].
  assert (Hv : v = VDict ∅).
  { pose proof (get_request_data_async_failure (P := offline)
                  (rq_url (profile_request (P := offline) (VStr "creator") ∅))
                  (VDict (@headers offline)) (VDict (@cookies offline))
                  (VDict (st_params_keyword (fresh offline 0%nat))) (fresh offline 0%nat)
                  (Raise HTTPError) 1%nat eq_refl eq_refl) as [s Hget].
    specialize (Hpage VNone s Hget). exact Hpage. }
  subst v.
  assert (Hsome : match build_record full_item (VFloat twenty) (VDict ∅) with
                  | Ret _ => true
                  | Raise _ => false
                  end = true) by (vm_compute; reflexivity).
  destruct (build_record full_item (VFloat twenty) (VDict ∅)) as [rec | e] eqn:Hrec;
    [| discriminate Hsome].
  destruct (Hrecord full_item (VFloat twenty) rec Hrec) as (base & Hbase & Hauthor & Hrate).
  exists st', rec, base. split; [exact Hrun |]. split; [vm_compute; reflexivity |].
  repeat split; assumption.
Defined.

Lemma input_data_to_api_by_status_witness :
  @requests_post (ingest 422)
    (post_request "https://dev.quokkaai.org/api/v1/influencers/") VNone
    (st_world (fresh (ingest 422) 0%nat))
  = (Ret {| status_code := 422; text := "" |}, 1%nat)
  /\ input_data_to_api "https://dev.quokkaai.org/api/v1/influencers/" VNone
       (fresh (ingest 422) 0%nat)
     = Some (Ret VNone,
             add_event (EvPost (post_request "https://dev.quokkaai.org/api/v1/influencers/") VNone)
               (set_world (P := ingest 422) 1%nat (fresh (ingest 422) 0%nat))).
Proof.
  split; [reflexivity |].
  exact (input_data_to_api_by_status (P := ingest 422)
           "https://dev.quokkaai.org/api/v1/influencers/" VNone
           (fresh (ingest 422) 0%nat) {| status_code := 422; text := "" |} 1%nat eq_refl).
Defined.

(** C9 fails as stated: on 422 the call evaluates to [None], the value it
    has for 500, and the caller logs the record as saved in both cases. *)
Lemma status_422_returns_none_like_500 :
  option_map fst (input_data_to_api "https://dev.quokkaai.org/api/v1/influencers/" VNone
                    (fresh (ingest 422) 0%nat)) = Some (Ret VNone)
  /\ option_map fst (input_data_to_api "https://dev.quokkaai.org/api/v1/influencers/" VNone
                       (fresh (ingest 500) 0%nat)) = Some (Ret VNone)
  /\ match save_video_data sample_record (fresh (ingest 422) 0%nat) with
     | Some (Ret _, st') => last (st_trace st') = Some saved_log
     | _ => False
     end
  /\ match save_video_data sample_record (fresh (ingest 500) 0%nat) with
     | Some (Ret _, st') => last (st_trace st') = Some saved_log
     | _ => False
     end.
Proof.
  split; [reflexivity |]. split; [reflexivity |].
  split; vm_compute; reflexivity.
Qed.

Lemma total_data_never_filled_witness :
  exists st',
    0 < max_influencers (st_self (fresh search_down 0%nat))
    /\ total_data (st_self (fresh search_down 0%nat)) = []
    /\ extract_influencers_loop 1 1 (fresh search_down 0%nat) = Some (Ret [], st')
    /\ total_data (st_self st') = []
    /\ exists st1 e st2,
         search_fetch_parse st1 = Some (Raise e, st2)
         /\ st' = add_event extraction_error st2.
Proof.
  eexists. split; [reflexivity |]. split; [reflexivity |].
  split; [vm_compute; reflexivity |].
  eapply (proj2 (total_data_never_filled (P := search_down) 1%nat) 1%nat
            (fresh search_down 0%nat)).
  - reflexivity.
  - reflexivity.
  - vm_compute. reflexivity.
Defined.

Lemma comment_and_reply_loops_end_at_empty_page_witness :
  exists st1,
    extract_comment_batch 1 (comment_params (P := short_thread) (VStr "v1") 40) (VStr "creator")
      (fresh short_thread 0%nat) = Some (Ret [], st1)
    /\ extract_comments_loop 1 1 (VStr "v1") (VStr "creator") [fan_comment] 40
         (fresh short_thread 0%nat) = Some (Ret [fan_comment], st1).
Proof.
  assert (Hok : match extract_comment_batch 1 (comment_params (P := short_thread) (VStr "v1") 40)
                        (VStr "creator") (fresh short_thread 0%nat) with
                | Some (Ret [], _) => true
                | _ => false
                end = true) by (vm_compute; reflexivity).
  destruct (extract_comment_batch 1 (comment_params (P := short_thread) (VStr "v1") 40) (VStr "creator")
              (fresh short_thread 0%nat)) as [[[[| c batch] | e] st1] |] eqn:Hbatch;
    try discriminate Hok.
  exists st1. split; [reflexivity |].
  exact (proj1 (comment_and_reply_loops_end_at_empty_page (P := short_thread))
           1%nat 0%nat (VStr "v1") (VStr "creator") [fan_comment] 40
           (fresh short_thread 0%nat) st1 Hbatch).
Defined.

Lemma comments_and_fetched_replies_are_tagged_witness :
  exists out st',
    process_comments 1 (VStr "creator") [creator_reply; fan_comment] (fresh offline 0%nat)
    = Some (Ret out, st')
    /\ Forall2 (fun c o => exists author,
                   author_of c = Ret author
                   /\ py_getitem o "is_author_reply"
                      = Ret (VBool (py_eq author (VStr "creator"))))
               [creator_reply; fan_comment] out.
Proof.
  assert (Hok : match process_comments 1 (VStr "creator") [creator_reply; fan_comment]
                        (fresh offline 0%nat) with
                | Some (Ret _, _) => true
                | _ => false
                end = true) by (vm_compute; reflexivity).
  destruct (process_comments 1 (VStr "creator") [creator_reply; fan_comment]
              (fresh offline 0%nat)) as [[[out | e] st'] |] eqn:Hrun;
    try discriminate Hok.
  exists out, st'. split; [reflexivity |].
  exact (proj1 (comments_and_fetched_replies_are_tagged (P := offline))
           1%nat (VStr "creator") [creator_reply; fan_comment]
           (fresh offline 0%nat) out st' Hrun).
Defined.

(** On [offline] every iteration of the comment loop returns: the fetch
    fails, the parse raises, the handler breaks. *)
Lemma offline_comment_step_returns inner vid uid total cursor (st : @State offline) :
  extract_comments_step inner vid uid total cursor st <> None.
Proof.
  unfold extract_comments_step, extract_comment_batch, try_except, bind,
    get_request_data_async, try_except, bind, http_get.
  cbn [client_get offline scripted]. simpl. discriminate.
Qed.

Lemma comments_loop_terminates_witness :
  (forall total cursor (st : @State offline),
      extract_comments_step 1 (VStr "v1") (VStr "creator") total cursor st <> None)
  /\ extract_comments_loop 1 100 (VStr "v1") (VStr "creator") [] 0 (fresh offline 0%nat)
     <> None.
Proof.
  split.
  - intros. apply offline_comment_step_returns.
  - apply (proj2 (comments_loop_terminates (P := offline) 1 (VStr "v1") (VStr "creator")
                    (offline_comment_step_returns 1 (VStr "v1") (VStr "creator")))).
Defined.

Lemma fill_profile_data_reads_three_keys_witness :
  sample_fields !! "author" = sample_fields_with_comments !! "author"
  /\ sample_fields !! "create_time" = sample_fields_with_comments !! "create_time"
  /\ sample_fields !! "engagement_rate" = sample_fields_with_comments !! "engagement_rate"
  /\ fill_profile_data (P := offline) (VDict sample_fields)
     = fill_profile_data (P := offline) (VDict sample_fields_with_comments).
Proof.
  split; [reflexivity |]. split; [reflexivity |]. split; [reflexivity |].
  exact (proj1 (fill_profile_data_reads_three_keys (P := offline)
                  sample_fields sample_fields_with_comments eq_refl eq_refl eq_refl)).
Defined.

(** The endpoint answers 500 and the record is logged as saved. *)
Lemma save_video_data_logs_saved_whatever_status_witness :
  py_getitem sample_record "id" = Ret (VStr "v1")
  /\ exists st' body logs,
       fill_profile_data (P := ingest 500) sample_record = Ret body
       /\ save_video_data sample_record (fresh (ingest 500) 0%nat) = Some (Ret tt, st')
       /\ st_trace st' = EvPost (post_request ingest_endpoint) body :: logs
       /\ last logs = Some saved_event.
Proof.
  split; [reflexivity |].
  destruct (save_video_data_logs_saved_whatever_status (P := ingest 500) sample_record
              (VStr "v1") (fresh (ingest 500) 0%nat) eq_refl)
    as (st' & Hrun & _ & _ & Hcase).
  assert (Hform : match fill_profile_data (P := ingest 500) sample_record with
                  | Ret _ => true
                  | Raise _ => false
                  end = true) by (vm_compute; reflexivity).
  destruct (fill_profile_data (P := ingest 500) sample_record) as [body | e];
    [| discriminate Hform].
  destruct Hcase as (_ & logs & Htrace & _ & _ & Hlast).
  exists st', body, logs. repeat split; assumption.
Defined.

(** One item, processed against an endpoint that accepts: one POST, whose
    body is the form of the record without its comments. *)
Lemma pushed_form_ignores_comments_witness :
  exists r st' rq body,
    process_video_item 1 full_item (fresh (ingest 200) 0%nat) = Some (r, st')
    /\ pushes (st_trace st') = pushes (st_trace (fresh (ingest 200) 0%nat)) ++ [EvPost rq body]
    /\ exists rate id stats s1 rec,
         item_rate full_item = Ret rate
         /\ item_author_id full_item = Ret id
         /\ get_author_metadata id (fresh (ingest 200) 0%nat) = Some (Ret stats, s1)
         /\ build_record full_item rate stats = Ret rec
         /\ fill_profile_data (P := ingest 200) (VDict rec) = Ret body
         /\ rq = post_request ingest_endpoint.
Proof.
  assert (Hsome : match process_video_item 1 full_item (fresh (ingest 200) 0%nat) with
                  | Some (_, st') =>
                      match pushes (st_trace st') with
                      | [EvPost _ _] => true
                      | _ => false
                      end
                  | None => false
                  end = true) by (vm_compute; reflexivity).
  destruct (process_video_item 1 full_item (fresh (ingest 200) 0%nat))
    as [[r st'] |] eqn:Hrun; [| discriminate Hsome].
  destruct (pushes (st_trace st')) as [| [rq | rq body | lvl name msg] [| ev rest]] eqn:Hpushes;
    try discriminate Hsome.
  exists r, st', rq, body. split; [reflexivity |]. split; [exact Hpushes |].
  exact (pushed_form_ignores_comments (P := ingest 200) 1 full_item (fresh (ingest 200) 0%nat)
           r st' rq body Hrun Hpushes).
Defined.

(** After the fetch of a search page the shared dict holds the keyword, the
    offset and the limit of the page. *)
Lemma profile_requests_carry_search_params_witness :
  exists items st1,
    search_fetch_parse (fresh one_item_search 0%nat) = Some (Ret items, st1)
    /\ length items = 1%nat
    /\ st_params_keyword st1 !! "keyword" = Some (VStr "#k-beauty")
    /\ st_params_keyword st1 !! "offset" = Some (VInt 0)
    /\ st_params_keyword st1 !! "limit" = Some (VInt 20)
    /\ forall item rate id r' s',
         items = [] ++ item :: [] ->
         item_rate item = Ret rate ->
         item_author_id item = Ret id ->
         process_video_item 1 item st1 = Some (r', s') ->
         exists rest,
           st_trace s'
           = st_trace st1
             ++ EvGet (profile_request (P := one_item_search) id (st_params_keyword st1))
             :: rest.
Proof.
  assert (Hsome : match search_fetch_parse (fresh one_item_search 0%nat) with
                  | Some (Ret [_], _) => true
                  | _ => false
                  end = true) by (vm_compute; reflexivity).
  destruct (search_fetch_parse (fresh one_item_search 0%nat))
    as [[[[| item [| item' items]] | e] st1] |] eqn:Hrun; try discriminate Hsome.
  exists [item], st1. split; [reflexivity |]. split; [reflexivity |].
  destruct (profile_requests_carry_search_params (P := one_item_search) 1
              (fresh one_item_search 0%nat) [item] st1 Hrun)
    as (Hpk & Hkw & Hoff & Hlim & _ & Hitems).
  rewrite Hpk. split; [exact Hkw |]. split; [exact Hoff |]. split; [exact Hlim |].
  intros item0 rate id r' s' Heq Hrate Hid Hitem.
  destruct (Hitems [] item0 [] (Ret tt) st1 Heq eq_refl) as [_ Hfirst].
  exact (proj2 (Hfirst rate id r' s' Hrate Hid Hitem)).
Defined.

(** A search with one empty page and a failure behind it: the pages that were
    requested are consecutive from offset 0. *)
Lemma search_pages_are_consecutive_witness :
  exists r st',
    0 < max_influencers (st_self (fresh one_page_search 0%nat))
    /\ total_data (st_self (fresh one_page_search 0%nat)) = []
    /\ extract_influencers_loop 1 3 (fresh one_page_search 0%nat) = Some (r, st')
    /\ exists n,
         gets_to search_endpoint (st_trace st')
         = gets_to search_endpoint (st_trace (fresh one_page_search 0%nat))
           ++ map (fun i => VDict (search_params
                                     (st_params_keyword (fresh one_page_search 0%nat))
                                     (page (st_self (fresh one_page_search 0%nat)) i)))
                (seq 0 (S n))
         /\ st_self st' = page (st_self (fresh one_page_search 0%nat)) n.
Proof.
  assert (Hsome : match extract_influencers_loop 1 3 (fresh one_page_search 0%nat) with
                  | Some _ => true
                  | None => false
                  end = true) by (vm_compute; reflexivity).
  destruct (extract_influencers_loop 1 3 (fresh one_page_search 0%nat))
    as [[r st'] |] eqn:Hrun; [| discriminate Hsome].
  exists r, st'. split; [reflexivity |]. split; [reflexivity |]. split; [reflexivity |].
  exact (search_pages_are_consecutive (P := one_page_search) 1 3
           (fresh one_page_search 0%nat) r st' eq_refl eq_refl Hrun).
Defined.

(** A thread of two pages and an empty one: the pages that were requested
    are consecutive from cursor 0. *)
Lemma comment_pages_are_consecutive_witness :
  exists r st' n,
    extract_comments_loop 4 4 (VStr "v1") (VStr "creator") [] 0 (fresh short_thread 0%nat)
    = Some (r, st')
    /\ gets_to comment_endpoint (st_trace st')
       = gets_to comment_endpoint (st_trace (fresh short_thread 0%nat))
         ++ map (fun i => VDict (comment_params (P := short_thread) (VStr "v1")
                                   (0 + 20 * Z.of_nat i)))
              (seq 0 (S n))
    /\ (n <= 99 - length (@nil pyval))%nat.
Proof.
  assert (Hsome : match extract_comments_loop 4 4 (VStr "v1") (VStr "creator") [] 0
                          (fresh short_thread 0%nat) with
                  | Some _ => true
                  | None => false
                  end = true) by (vm_compute; reflexivity).
  destruct (extract_comments_loop 4 4 (VStr "v1") (VStr "creator") [] 0
              (fresh short_thread 0%nat)) as [[r st'] |] eqn:Hrun; [| discriminate Hsome].
  destruct (comment_pages_are_consecutive (P := short_thread) 4 4 (VStr "v1") (VStr "creator")
              [] 0 (fresh short_thread 0%nat) r st' Hrun) as (n & Hgets & Hn).
  exists r, st', n. split; [reflexivity |]. split; assumption.
Defined.

(** The remote side cannot be reached: the loop returns what it had. *)
Lemma failed_comment_page_keeps_earlier_comments_witness :
  client_get (comment_request (P := offline) (VStr "v1") 40) (st_world (fresh offline 0%nat))
  = (Raise HTTPError, 1%nat)
  /\ exists logs,
       extract_comments_loop 1 1 (VStr "v1") (VStr "creator") [fan_comment] 40
         (fresh offline 0%nat)
       = Some (Ret [fan_comment],
               {| st_world := (1%nat : @World offline);
                  st_trace := st_trace (fresh offline 0%nat)
                              ++ EvGet (comment_request (P := offline) (VStr "v1") 40) :: logs;
                  st_params_keyword := st_params_keyword (fresh offline 0%nat);
                  st_self := st_self (fresh offline 0%nat) |})
       /\ Forall is_log logs
       /\ last logs = Some comment_error.
Proof.
  split; [reflexivity |].
  exact (failed_comment_page_keeps_earlier_comments (P := offline) 1 0 (VStr "v1")
           (VStr "creator") [fan_comment] 40 (fresh offline 0%nat) (Raise HTTPError) 1%nat
           eq_refl I).
Defined.

(** Two comments without replies: both come back, in order, each with the
    two keys set. *)
Lemma processed_comments_keep_their_fields_witness :
  exists out st',
    process_comments 1 (VStr "fan") [fan_comment; fan_comment] (fresh offline 0%nat)
    = Some (Ret out, st')
    /\ length out = 2%nat
    /\ Forall2 (fun c o => forall k, k <> "replies" -> k <> "is_author_reply" ->
                                     py_get o k VNone = py_get c k VNone)
         [fan_comment; fan_comment] out.
Proof.
  assert (Hsome : match process_comments 1 (VStr "fan") [fan_comment; fan_comment]
                          (fresh offline 0%nat) with
                  | Some (Ret _, _) => true
                  | _ => false
                  end = true) by (vm_compute; reflexivity).
  destruct (process_comments 1 (VStr "fan") [fan_comment; fan_comment] (fresh offline 0%nat))
    as [[[out | e] st'] |] eqn:Hrun; try discriminate Hsome.
  destruct (processed_comments_keep_their_fields (P := offline) 1 (VStr "fan")
              [fan_comment; fan_comment] (fresh offline 0%nat) out st' Hrun) as [Hlen Hall].
  exists out, st'. split; [reflexivity |]. split; [exact Hlen |].
  eapply Forall2_impl; [exact Hall |].
  intros c o (d & author & replies & s1 & s2 & _ & _ & _ & _ & Hkeys). exact Hkeys.
Defined.

(** The record of the full item and its form. *)
Lemma built_record_maps_unless_the_date_fails_witness :
  exists rec form,
    build_record full_item (VInt 0) (VDict ∅) = Ret rec
    /\ size rec = 8%nat
    /\ fill_profile_data (P := offline) (VDict rec) = Ret (VDict form)
    /\ form !! "username" = Some (VStr "creator")
    /\ form !! "date_last_post" = Some (VStr "2024-01-01 00:00:00").
Proof.
  assert (Hsome : match build_record full_item (VInt 0) (VDict ∅) with
                  | Ret _ => true
                  | Raise _ => false
                  end = true) by (vm_compute; reflexivity).
  destruct (build_record full_item (VInt 0) (VDict ∅)) as [rec | e] eqn:Hrec;
    [| discriminate Hsome].
  destruct (built_record_maps_unless_the_date_fails (P := offline) full_item (VInt 0)
              (VDict ∅) rec Hrec)
    as (d & base & extra & t & Hitem & Hbase & Hextra & Ht & Hsize & Hform).
  injection Hitem as <-. injection Hextra as <-.
  assert (Hb : base = list_to_map [("uniqueId", VStr "creator"); ("nickname", VStr "Creator")])
    by (vm_compute in Hbase; injection Hbase as <-; vm_compute; reflexivity).
  assert (Htime : t = VInt 1700000000) by (vm_compute in Ht; now injection Ht as <-).
  subst base t. cbv zeta in Hform.
  change (strftime_fromtimestamp (VInt 1700000000))
    with (@Ret string "2024-01-01 00:00:00"%string) in Hform.
  destruct Hform as (form & metrics & Hfill & _ & Huser & _ & _ & Hdate & _).
  exists rec, form. repeat split; assumption.
Defined.

Lemma calculate_engagement_rate_is_never_negative_witness :
  0 <= 10 /\ 0 <= 5 /\ 0 <= 5 /\ 0 < 100
  /\ (calculate_engagement_rate (VInt 10) (VInt 5) (VInt 5) (VInt 100) = Raise OverflowError
      \/ calculate_engagement_rate (VInt 10) (VInt 5) (VInt 5) (VInt 100)
         = Ret (VFloat (S754_zero false))
      \/ calculate_engagement_rate (VInt 10) (VInt 5) (VInt 5) (VInt 100)
         = Ret (VFloat (S754_infinity false))
      \/ exists m e,
           calculate_engagement_rate (VInt 10) (VInt 5) (VInt 5) (VInt 100)
           = Ret (VFloat (S754_finite false m e))).
Proof.
  repeat (split; [lia |]).
  apply (calculate_engagement_rate_is_never_negative 10 5 5 100); lia.
Defined.

(** An item without a handle, the remote side out of reach: one GET for the
    profile of [@None], then the error line. *)
Lemma item_without_handle_costs_a_profile_request_witness :
  nameless_item !! "author" = Some (VDict nameless_author)
  /\ nameless_author !! "uniqueId" = None
  /\ item_rate (VDict nameless_item) = Ret (VInt 0)
  /\ exists stats st1,
       get_author_metadata VNone (fresh offline 0%nat) = Some (Ret stats, st1)
       /\ process_video_item 1 (VDict nameless_item) (fresh offline 0%nat)
          = Some (Ret tt, add_event processing_error st1)
       /\ pushes (st_trace (add_event processing_error st1))
          = pushes (st_trace (fresh offline 0%nat)).
Proof.
  split; [reflexivity |]. split; [reflexivity |]. split; [reflexivity |].
  destruct (item_without_handle_costs_a_profile_request (P := offline) 1 nameless_item
              nameless_author (VInt 0) (fresh offline 0%nat) eq_refl eq_refl eq_refl)
    as (stats & st1 & Hmeta & _ & _ & Hrun & Hpushes).
  exists stats, st1. repeat split; assumption.
Defined.

(** A target of 0: nothing is fetched. *)
Lemma reached_target_fetches_nothing_witness :
  max_influencers (st_self (initial_state (P := offline) 0%nat (init "#k-beauty" 0)))
  <= Z.of_nat (length (total_data (st_self (initial_state (P := offline) 0%nat
                                              (init "#k-beauty" 0)))))
  /\ extract_influencers 1 (initial_state (P := offline) 0%nat (init "#k-beauty" 0))
     = Some (Ret [], initial_state (P := offline) 0%nat (init "#k-beauty" 0)).
Proof.
  split; [simpl; lia |].
  refine (proj2 (reached_target_fetches_nothing (P := offline) 1 0
                   (initial_state (P := offline) 0%nat (init "#k-beauty" 0)) _)).
  simpl. lia.
Defined.
